(** * Moon scanner: device coordination and recovery

    A shallow embedding of the control logic of [moon_scanner_GUI.py]
    (class [MoonScannerGUI]): the scan-parameter setters, the step planner
    and sweep loop of [track_moon], the mount back ends ([initialize_mount],
    [move_mount], [stop_mount_manual], [move_mount_manual]), the COM-port
    recovery ladder ([reset_com_port], [force_com3_reset]), the recording
    loop [capture_and_save], the live plot loop [update_spectrum], the
    session controls ([start_scan], [stop_scan], [toggle_record]), and the
    other controls ([toggle_camera], [reset_camera], [update_camera_feed],
    [capture_dark], [set_spectrograph_integration], [set_camera_exposure],
    [cleanup], [reinitialize_mount]).

    Conventions.
    - Python [float] is IEEE 754 binary64: it is modelled by Rocq's primitive
      [float], whose operations are the same correctly rounded ones.
    - A Python call that may raise returns a [result]; a [try]/[except]
      block is [try_except].
    - The attributes of [self] that the modelled methods read or write are
      the fields of the record [scanner]; widgets are not state, what is shown
      on them is part of the event trace.
    - Everything outside the process (telescope driver, serial port,
      operating system, sensors, the other threads) is an oracle: a record
      of answers, one for every call the code makes.  Theorems quantify over
      all oracles. *)

From Stdlib Require Import ZArith List Bool String Ascii DecimalString Floats QArith Qround Lia.
Import ListNotations.
Set Warnings "-inexact-float".

Local Open Scope Z_scope.

(** ** Python values and exceptions *)

Inductive exn : Type :=
| ValueError
| ZeroDivisionError
| OverflowError
| SerialException (access_denied : bool)
| NoSuchProcess
| AccessDenied
| PsutilError
| SubprocessError
| IndexError
| OtherError.

Inductive result (A : Type) : Type :=
| Ok (a : A)
| Raise (e : exn).
Arguments Ok {A} a.
Arguments Raise {A} e.

Definition is_ok {A} (r : result A) : bool :=
  match r with Ok _ => true | Raise _ => false end.

(** ** Python floats *)

Module PyFloat.

(** The integer [(-1)^s * m]. *)
Definition signed (s : bool) (m : positive) : Z :=
  if s then Z.neg m else Z.pos m.

(** The exact rational value of a finite float. *)
Definition SF2Q (x : spec_float) : option Q :=
  match x with
  | S754_zero _ => Some (0 # 1)
  | S754_finite s m e =>
      Some (if 0 <=? e then (signed s m * 2 ^ e) # 1
            else signed s m # Z.to_pos (2 ^ (- e)))
  | S754_infinity _ | S754_nan => None
  end.

Definition value (x : float) : option Q := SF2Q (Prim2SF x).

(** [int(x)]: truncation toward zero; [OverflowError] on an infinity,
    [ValueError] on a NaN. *)
Definition SFtrunc (x : spec_float) : result Z :=
  match x with
  | S754_zero _ => Ok 0
  | S754_finite s m e =>
      Ok (if 0 <=? e then signed s m * 2 ^ e
          else Z.quot (signed s m) (2 ^ (- e)))
  | S754_infinity _ => Raise OverflowError
  | S754_nan => Raise ValueError
  end.

Definition py_int (x : float) : result Z := SFtrunc (Prim2SF x).

(** [round(x)]: the nearest integer, ties to the even one. *)
Definition SFround (x : spec_float) : result Z :=
  match x with
  | S754_zero _ => Ok 0
  | S754_finite s m e =>
      if 0 <=? e then Ok (signed s m * 2 ^ e)
      else
        let d := 2 ^ (- e) in
        let q := Z.pos m / d in
        let r := Z.pos m mod d in
        let n := match 2 * r ?= d with
                 | Lt => q
                 | Gt => q + 1
                 | Eq => if Z.even q then q else q + 1
                 end in
        Ok (if s then - n else n)
  | S754_infinity _ => Raise OverflowError
  | S754_nan => Raise ValueError
  end.

Definition py_round (x : float) : result Z := SFround (Prim2SF x).

(** [x / y]: [ZeroDivisionError] when the divisor compares equal to zero. *)
Definition py_div (x y : float) : result float :=
  if (y =? 0)%float then Raise ZeroDivisionError else Ok (x / y)%float.

(** [float(i)] for a Python integer, correctly rounded. *)
Definition of_Z (i : Z) : float :=
  SF2Prim (binary_normalize prec emax i 0 false).

End PyFloat.
Import PyFloat.

(** ** The step planner of [track_moon]

    [total_angle_arcsec = self.scan_angle * 3600]
    [num_steps = int(total_angle_arcsec / self.scan_step)] *)

Definition num_steps (scan_angle scan_step : float) : result Z :=
  let total_angle_arcsec := (scan_angle * 3600)%float in
  match py_div total_angle_arcsec scan_step with
  | Ok q => py_int q
  | Raise e => Raise e
  end.

(** The planner as the specification writes it: [floor (A * 3600 / S)] over
    the rationals. *)
Definition stepCount_spec (A S : Q) : Z := Qfloor (A * (3600 # 1) / S).


(** ** Strings *)

Definition lower_ascii (c : ascii) : ascii :=
  let n := nat_of_ascii c in
  if (andb (Nat.leb 65 n) (Nat.leb n 90)) then ascii_of_nat (n + 32) else c.

(** [s.lower()] *)
Fixpoint lower (s : string) : string :=
  match s with
  | EmptyString => EmptyString
  | String c r => String (lower_ascii c) (lower r)
  end.

(** [needle in hay] for strings. *)
Fixpoint contains (needle hay : string) : bool :=
  if String.prefix needle hay then true
  else match hay with
       | EmptyString => false
       | String _ r => contains needle r
       end.

(** ** Observable effects

    Every command the program sends outside itself, in program order: to the
    automation (ASCOM) telescope, to the serial port, to the operating
    system, to the sensors, to the screen.  A command is recorded when the
    call is made, whether it then returns or raises. *)

Inductive thread : Type :=
| TrackMoon
| CaptureAndSave
| UpdateSpectrum.

Inductive event : Type :=
(* automation back end *)
| Dispatch (driver : string)
| SetConnected (b : bool)
| Unpark
| SetTracking (b : bool)
| CanMoveAxis (axis : Z)
| MoveAxis (axis : Z) (rate : float)
(* serial back end *)
| SerialOpen (port : string)
| SerialWrite (data : string)
| SerialRead (n : Z)
| SerialClose
(* operating system *)
| WmiScan
| WmiTerminate (pid : Z)
| PsutilScan
| PsutilTerminate (pid : Z)
| PsutilKill (pid : Z)
| DevconRestart (port : string)
| HandleExe
| UsbReset
| PnputilRestart
| CheckCom3Status
| FixPermissions (port : string)
| Sleep (seconds : Z)
| SleepF (seconds : float)
(* sensors *)
| CameraSetExposure (seconds : float)
| CameraRead
| ImageWrite
| SpecWavelengths
| SpecIntensities
| SpectrumWrite (rows : list (float * float))
| SpecClose
| Plot (intensities : list float)
(* threads and screen *)
| Spawn (t : thread)
| MountControls (enabled : bool)
| Status (text : string)
| ErrorBox (text : string)
| WarningBox (text : string)
| InfoBox (text : string)
| LogSample (n : Z) (image_saved spectrum_saved : bool).

(** ** The application object

    The attributes of [MoonScannerGUI] that the modelled methods use, with
    the names they have in [__init__].  A device handle is [None] or an open
    object; what identifies the object is kept with it. *)

Inductive serial_handle : Type := SerialPort (port : string).
Inductive com_object : Type := ComObject (driver : string).
Inductive video_capture : Type := VideoCapture (index : Z).
Inductive spectrometer : Type := Spectrometer.

Record scanner : Type := mkScanner {
  scanning : bool;
  recording : bool;
  camera_running : bool;
  spectrograph_running : bool;
  capture_running : bool;
  dark_spectrum : option (list float);
  running : bool;
  serial_port_var : string;
  mount_initialized : bool;
  mount : option serial_handle;
  ascom_telescope : option com_object;
  camera : option video_capture;
  spectrograph : option spectrometer;
  motor_speed : float;
  spec_integration_ms : float;
  cam_exposure_ms : float;
  sample_count : Z;
  scan_angle : float;
  scan_step : float;
  scan_speed : float;
  use_camera_exposure : bool
}.

(** Attribute assignment, [self.f = v]. *)

Definition with_scanning (v : bool) (s : scanner) : scanner :=
  {| scanning := v; recording := recording s; camera_running := camera_running s; spectrograph_running := spectrograph_running s; capture_running := capture_running s; dark_spectrum := dark_spectrum s; running := running s; serial_port_var := serial_port_var s; mount_initialized := mount_initialized s; mount := mount s; ascom_telescope := ascom_telescope s; camera := camera s; spectrograph := spectrograph s; motor_speed := motor_speed s; spec_integration_ms := spec_integration_ms s; cam_exposure_ms := cam_exposure_ms s; sample_count := sample_count s; scan_angle := scan_angle s; scan_step := scan_step s; scan_speed := scan_speed s; use_camera_exposure := use_camera_exposure s |}.

Definition with_recording (v : bool) (s : scanner) : scanner :=
  {| scanning := scanning s; recording := v; camera_running := camera_running s; spectrograph_running := spectrograph_running s; capture_running := capture_running s; dark_spectrum := dark_spectrum s; running := running s; serial_port_var := serial_port_var s; mount_initialized := mount_initialized s; mount := mount s; ascom_telescope := ascom_telescope s; camera := camera s; spectrograph := spectrograph s; motor_speed := motor_speed s; spec_integration_ms := spec_integration_ms s; cam_exposure_ms := cam_exposure_ms s; sample_count := sample_count s; scan_angle := scan_angle s; scan_step := scan_step s; scan_speed := scan_speed s; use_camera_exposure := use_camera_exposure s |}.

Definition with_camera_running (v : bool) (s : scanner) : scanner :=
  {| scanning := scanning s; recording := recording s; camera_running := v; spectrograph_running := spectrograph_running s; capture_running := capture_running s; dark_spectrum := dark_spectrum s; running := running s; serial_port_var := serial_port_var s; mount_initialized := mount_initialized s; mount := mount s; ascom_telescope := ascom_telescope s; camera := camera s; spectrograph := spectrograph s; motor_speed := motor_speed s; spec_integration_ms := spec_integration_ms s; cam_exposure_ms := cam_exposure_ms s; sample_count := sample_count s; scan_angle := scan_angle s; scan_step := scan_step s; scan_speed := scan_speed s; use_camera_exposure := use_camera_exposure s |}.

Definition with_spectrograph_running (v : bool) (s : scanner) : scanner :=
  {| scanning := scanning s; recording := recording s; camera_running := camera_running s; spectrograph_running := v; capture_running := capture_running s; dark_spectrum := dark_spectrum s; running := running s; serial_port_var := serial_port_var s; mount_initialized := mount_initialized s; mount := mount s; ascom_telescope := ascom_telescope s; camera := camera s; spectrograph := spectrograph s; motor_speed := motor_speed s; spec_integration_ms := spec_integration_ms s; cam_exposure_ms := cam_exposure_ms s; sample_count := sample_count s; scan_angle := scan_angle s; scan_step := scan_step s; scan_speed := scan_speed s; use_camera_exposure := use_camera_exposure s |}.

Definition with_capture_running (v : bool) (s : scanner) : scanner :=
  {| scanning := scanning s; recording := recording s; camera_running := camera_running s; spectrograph_running := spectrograph_running s; capture_running := v; dark_spectrum := dark_spectrum s; running := running s; serial_port_var := serial_port_var s; mount_initialized := mount_initialized s; mount := mount s; ascom_telescope := ascom_telescope s; camera := camera s; spectrograph := spectrograph s; motor_speed := motor_speed s; spec_integration_ms := spec_integration_ms s; cam_exposure_ms := cam_exposure_ms s; sample_count := sample_count s; scan_angle := scan_angle s; scan_step := scan_step s; scan_speed := scan_speed s; use_camera_exposure := use_camera_exposure s |}.

Definition with_dark_spectrum (v : option (list float)) (s : scanner) : scanner :=
  {| scanning := scanning s; recording := recording s; camera_running := camera_running s; spectrograph_running := spectrograph_running s; capture_running := capture_running s; dark_spectrum := v; running := running s; serial_port_var := serial_port_var s; mount_initialized := mount_initialized s; mount := mount s; ascom_telescope := ascom_telescope s; camera := camera s; spectrograph := spectrograph s; motor_speed := motor_speed s; spec_integration_ms := spec_integration_ms s; cam_exposure_ms := cam_exposure_ms s; sample_count := sample_count s; scan_angle := scan_angle s; scan_step := scan_step s; scan_speed := scan_speed s; use_camera_exposure := use_camera_exposure s |}.

Definition with_running (v : bool) (s : scanner) : scanner :=
  {| scanning := scanning s; recording := recording s; camera_running := camera_running s; spectrograph_running := spectrograph_running s; capture_running := capture_running s; dark_spectrum := dark_spectrum s; running := v; serial_port_var := serial_port_var s; mount_initialized := mount_initialized s; mount := mount s; ascom_telescope := ascom_telescope s; camera := camera s; spectrograph := spectrograph s; motor_speed := motor_speed s; spec_integration_ms := spec_integration_ms s; cam_exposure_ms := cam_exposure_ms s; sample_count := sample_count s; scan_angle := scan_angle s; scan_step := scan_step s; scan_speed := scan_speed s; use_camera_exposure := use_camera_exposure s |}.

Definition with_serial_port_var (v : string) (s : scanner) : scanner :=
  {| scanning := scanning s; recording := recording s; camera_running := camera_running s; spectrograph_running := spectrograph_running s; capture_running := capture_running s; dark_spectrum := dark_spectrum s; running := running s; serial_port_var := v; mount_initialized := mount_initialized s; mount := mount s; ascom_telescope := ascom_telescope s; camera := camera s; spectrograph := spectrograph s; motor_speed := motor_speed s; spec_integration_ms := spec_integration_ms s; cam_exposure_ms := cam_exposure_ms s; sample_count := sample_count s; scan_angle := scan_angle s; scan_step := scan_step s; scan_speed := scan_speed s; use_camera_exposure := use_camera_exposure s |}.

Definition with_mount_initialized (v : bool) (s : scanner) : scanner :=
  {| scanning := scanning s; recording := recording s; camera_running := camera_running s; spectrograph_running := spectrograph_running s; capture_running := capture_running s; dark_spectrum := dark_spectrum s; running := running s; serial_port_var := serial_port_var s; mount_initialized := v; mount := mount s; ascom_telescope := ascom_telescope s; camera := camera s; spectrograph := spectrograph s; motor_speed := motor_speed s; spec_integration_ms := spec_integration_ms s; cam_exposure_ms := cam_exposure_ms s; sample_count := sample_count s; scan_angle := scan_angle s; scan_step := scan_step s; scan_speed := scan_speed s; use_camera_exposure := use_camera_exposure s |}.

Definition with_mount (v : option serial_handle) (s : scanner) : scanner :=
  {| scanning := scanning s; recording := recording s; camera_running := camera_running s; spectrograph_running := spectrograph_running s; capture_running := capture_running s; dark_spectrum := dark_spectrum s; running := running s; serial_port_var := serial_port_var s; mount_initialized := mount_initialized s; mount := v; ascom_telescope := ascom_telescope s; camera := camera s; spectrograph := spectrograph s; motor_speed := motor_speed s; spec_integration_ms := spec_integration_ms s; cam_exposure_ms := cam_exposure_ms s; sample_count := sample_count s; scan_angle := scan_angle s; scan_step := scan_step s; scan_speed := scan_speed s; use_camera_exposure := use_camera_exposure s |}.

Definition with_ascom_telescope (v : option com_object) (s : scanner) : scanner :=
  {| scanning := scanning s; recording := recording s; camera_running := camera_running s; spectrograph_running := spectrograph_running s; capture_running := capture_running s; dark_spectrum := dark_spectrum s; running := running s; serial_port_var := serial_port_var s; mount_initialized := mount_initialized s; mount := mount s; ascom_telescope := v; camera := camera s; spectrograph := spectrograph s; motor_speed := motor_speed s; spec_integration_ms := spec_integration_ms s; cam_exposure_ms := cam_exposure_ms s; sample_count := sample_count s; scan_angle := scan_angle s; scan_step := scan_step s; scan_speed := scan_speed s; use_camera_exposure := use_camera_exposure s |}.

Definition with_spectrograph (v : option spectrometer) (s : scanner) : scanner :=
  {| scanning := scanning s; recording := recording s; camera_running := camera_running s; spectrograph_running := spectrograph_running s; capture_running := capture_running s; dark_spectrum := dark_spectrum s; running := running s; serial_port_var := serial_port_var s; mount_initialized := mount_initialized s; mount := mount s; ascom_telescope := ascom_telescope s; camera := camera s; spectrograph := v; motor_speed := motor_speed s; spec_integration_ms := spec_integration_ms s; cam_exposure_ms := cam_exposure_ms s; sample_count := sample_count s; scan_angle := scan_angle s; scan_step := scan_step s; scan_speed := scan_speed s; use_camera_exposure := use_camera_exposure s |}.

Definition with_motor_speed (v : float) (s : scanner) : scanner :=
  {| scanning := scanning s; recording := recording s; camera_running := camera_running s; spectrograph_running := spectrograph_running s; capture_running := capture_running s; dark_spectrum := dark_spectrum s; running := running s; serial_port_var := serial_port_var s; mount_initialized := mount_initialized s; mount := mount s; ascom_telescope := ascom_telescope s; camera := camera s; spectrograph := spectrograph s; motor_speed := v; spec_integration_ms := spec_integration_ms s; cam_exposure_ms := cam_exposure_ms s; sample_count := sample_count s; scan_angle := scan_angle s; scan_step := scan_step s; scan_speed := scan_speed s; use_camera_exposure := use_camera_exposure s |}.

Definition with_sample_count (v : Z) (s : scanner) : scanner :=
  {| scanning := scanning s; recording := recording s; camera_running := camera_running s; spectrograph_running := spectrograph_running s; capture_running := capture_running s; dark_spectrum := dark_spectrum s; running := running s; serial_port_var := serial_port_var s; mount_initialized := mount_initialized s; mount := mount s; ascom_telescope := ascom_telescope s; camera := camera s; spectrograph := spectrograph s; motor_speed := motor_speed s; spec_integration_ms := spec_integration_ms s; cam_exposure_ms := cam_exposure_ms s; sample_count := v; scan_angle := scan_angle s; scan_step := scan_step s; scan_speed := scan_speed s; use_camera_exposure := use_camera_exposure s |}.

Definition with_scan_angle (v : float) (s : scanner) : scanner :=
  {| scanning := scanning s; recording := recording s; camera_running := camera_running s; spectrograph_running := spectrograph_running s; capture_running := capture_running s; dark_spectrum := dark_spectrum s; running := running s; serial_port_var := serial_port_var s; mount_initialized := mount_initialized s; mount := mount s; ascom_telescope := ascom_telescope s; camera := camera s; spectrograph := spectrograph s; motor_speed := motor_speed s; spec_integration_ms := spec_integration_ms s; cam_exposure_ms := cam_exposure_ms s; sample_count := sample_count s; scan_angle := v; scan_step := scan_step s; scan_speed := scan_speed s; use_camera_exposure := use_camera_exposure s |}.

Definition with_scan_step (v : float) (s : scanner) : scanner :=
  {| scanning := scanning s; recording := recording s; camera_running := camera_running s; spectrograph_running := spectrograph_running s; capture_running := capture_running s; dark_spectrum := dark_spectrum s; running := running s; serial_port_var := serial_port_var s; mount_initialized := mount_initialized s; mount := mount s; ascom_telescope := ascom_telescope s; camera := camera s; spectrograph := spectrograph s; motor_speed := motor_speed s; spec_integration_ms := spec_integration_ms s; cam_exposure_ms := cam_exposure_ms s; sample_count := sample_count s; scan_angle := scan_angle s; scan_step := v; scan_speed := scan_speed s; use_camera_exposure := use_camera_exposure s |}.

Definition with_scan_speed (v : float) (s : scanner) : scanner :=
  {| scanning := scanning s; recording := recording s; camera_running := camera_running s; spectrograph_running := spectrograph_running s; capture_running := capture_running s; dark_spectrum := dark_spectrum s; running := running s; serial_port_var := serial_port_var s; mount_initialized := mount_initialized s; mount := mount s; ascom_telescope := ascom_telescope s; camera := camera s; spectrograph := spectrograph s; motor_speed := motor_speed s; spec_integration_ms := spec_integration_ms s; cam_exposure_ms := cam_exposure_ms s; sample_count := sample_count s; scan_angle := scan_angle s; scan_step := scan_step s; scan_speed := v; use_camera_exposure := use_camera_exposure s |}.

(** ** Methods

    A method runs from a state of the application object, ends by returning
    or raising, leaves a state behind in both cases, and emits events. *)

Record outcome (A : Type) : Type := mkOutcome {
  res : result A;
  st : scanner;
  tr : list event
}.
Arguments mkOutcome {A} res st tr.
Arguments res {A} o.
Arguments st {A} o.
Arguments tr {A} o.

Definition M (A : Type) : Type := scanner -> outcome A.

Definition ret {A} (a : A) : M A := fun s => mkOutcome (Ok a) s [].

Definition raise {A} (e : exn) : M A := fun s => mkOutcome (Raise e) s [].

Definition bind {A B} (m : M A) (k : A -> M B) : M B :=
  fun s =>
    match m s with
    | mkOutcome (Ok a) s1 t1 =>
        match k a s1 with
        | mkOutcome r s2 t2 => mkOutcome r s2 (t1 ++ t2)
        end
    | mkOutcome (Raise e) s1 t1 => mkOutcome (Raise e) s1 t1
    end.

(** [try: m except Exception as e: h e] *)
Definition try_except {A} (m : M A) (h : exn -> M A) : M A :=
  fun s =>
    match m s with
    | mkOutcome (Ok a) s1 t1 => mkOutcome (Ok a) s1 t1
    | mkOutcome (Raise e) s1 t1 =>
        match h e s1 with
        | mkOutcome r s2 t2 => mkOutcome r s2 (t1 ++ t2)
        end
    end.

Definition emit (e : event) : M unit := fun s => mkOutcome (Ok tt) s [e].

Definition get {A} (f : scanner -> A) : M A := fun s => mkOutcome (Ok (f s)) s [].

Definition modify (f : scanner -> scanner) : M unit := fun s => mkOutcome (Ok tt) (f s) [].

(** The answer of an external call: it returns or raises. *)
Definition lift {A} (r : result A) : M A := fun s => mkOutcome r s [].

(** An external call of which only success matters. *)
Definition call (e : event) (ok : result unit) : M unit :=
  fun s => mkOutcome ok s [e].

Declare Scope method_scope.
Delimit Scope method_scope with method.
Notation "x <- m ;; k" := (bind m (fun x => k))
  (at level 100, m at next level, right associativity) : method_scope.
Notation "m ;; k" := (bind m (fun _ => k))
  (at level 100, right associativity) : method_scope.
Local Open Scope method_scope.

(** How the body of a loop ends: it falls to the next iteration (also by
    [continue]), leaves the loop by [break], or leaves the method by
    [return]. *)
Inductive flow (R : Type) : Type :=
| Next
| Break
| Return (r : R).
Arguments Next {R}.
Arguments Break {R}.
Arguments Return {R} r.

(** [for x in xs: body x].  The loop answers [Return r] when the body
    returned from the method, [Break] when it broke out and [Next] when the
    list ran out. *)
Fixpoint for_each {X R} (xs : list X) (body : X -> M (flow R)) : M (flow R) :=
  match xs with
  | [] => ret Next
  | x :: rest =>
      f <- body x ;;
      match f with
      | Next => for_each rest body
      | Break => ret Break
      | Return r => ret (Return r)
      end
  end.

(** [range(n)] *)
Definition range (n : Z) : list Z := List.map Z.of_nat (seq 0 (Z.to_nat n)).

(** [enumerate(xs)] *)
Definition enumerate {X} (xs : list X) : list (Z * X) :=
  combine (range (Z.of_nat (List.length xs))) xs.

(** What the other threads wrote to the shared attributes since this thread
    last looked.  The attributes are plain, read and written without a
    lock; the sample counter is among them, because [toggle_record] starts
    a new [capture_and_save] thread at every start and never waits for the
    old one. *)
Inductive write : Type :=
| W_scanning (b : bool)
| W_recording (b : bool)
| W_capture_running (b : bool)
| W_camera_running (b : bool)
| W_spectrograph_running (b : bool)
| W_running (b : bool)
| W_dark_spectrum (d : option (list float))
| W_sample_count (n : Z).

Definition apply_write (w : write) (s : scanner) : scanner :=
  match w with
  | W_scanning b => with_scanning b s
  | W_recording b => with_recording b s
  | W_capture_running b => with_capture_running b s
  | W_camera_running b => with_camera_running b s
  | W_spectrograph_running b => with_spectrograph_running b s
  | W_running b => with_running b s
  | W_dark_spectrum d => with_dark_spectrum d s
  | W_sample_count n => with_sample_count n s
  end.

Definition apply_writes (ws : list write) (s : scanner) : scanner :=
  fold_left (fun s w => apply_write w s) ws s.

Definition interfere (ws : list write) : M unit := modify (apply_writes ws).

(** ** Scan-parameter setters

    [entry] is the outcome of [float(self.scan_angle_entry.get())] (and the
    like): [Raise ValueError] for a text that is not a number, [Ok x]
    otherwise.  Python's [float] reads the texts nan and inf too, as the
    floats [nan] and [infinity]. *)

Definition set_scan_angle (entry : result float) : M unit :=
  try_except
    (angle <- lift entry ;;
     if (angle <=? 0)%float then raise ValueError
     else
       modify (with_scan_angle angle) ;;
       emit (Status "Status: Scan angle set"))
    (fun e =>
       match e with
       | ValueError => emit (ErrorBox "Invalid scan angle")
       | _ => emit (ErrorBox "Error setting scan angle")
       end).

Definition set_scan_step (entry : result float) : M unit :=
  try_except
    (step <- lift entry ;;
     if (step <=? 0)%float then raise ValueError
     else
       modify (with_scan_step step) ;;
       emit (Status "Status: Scan step set") ;;
       emit (InfoBox "Scan step set successfully"))
    (fun e =>
       match e with
       | ValueError => emit (ErrorBox "Invalid scan step")
       | _ => emit (ErrorBox "Failed to set scan step")
       end).

Definition set_scan_speed (entry : result float) : M unit :=
  try_except
    (speed <- lift entry ;;
     if (speed <=? 0)%float then raise ValueError
     else
       modify (with_scan_speed speed) ;;
       emit (Status "Status: Scan speed set"))
    (fun e =>
       match e with
       | ValueError => emit (ErrorBox "Invalid scan speed")
       | _ => emit (ErrorBox "Failed to set scan speed")
       end).

(** ** Session control

    [started] is the outcome of [threading.Thread(...).start()]. *)

Definition start_scan (started : result unit) : M bool :=
  try_except
    (cam <- get camera_running ;;
     spec <- get spectrograph_running ;;
     if negb cam || negb spec then
       emit (ErrorBox "Camera and spectrograph must be running to start scan.") ;;
       ret false
     else
       call (Spawn TrackMoon) started ;;
       ret true)
    (fun e => emit (ErrorBox "Failed to start scan") ;; ret false).

Definition stop_scan : M unit :=
  try_except
    (modify (with_scanning false) ;;
     emit (Status "Status: Scan stopped"))
    (fun e => emit (ErrorBox "Error stopping scan")).

Definition toggle_record (started : result unit) : M unit :=
  try_except
    (rec <- get recording ;;
     if rec then
       modify (with_recording false) ;;
       modify (with_capture_running false) ;;
       emit (Status "Status: Recording stopped")
     else
       cam <- get camera_running ;;
       spec <- get spectrograph_running ;;
       if negb cam || negb spec then
         emit (ErrorBox "Camera and spectrograph must be running to start recording")
       else
         modify (with_recording true) ;;
         modify (with_capture_running true) ;;
         emit (Status "Status: Recording started") ;;
         call (Spawn CaptureAndSave) started)
    (fun e => emit (ErrorBox "Failed to toggle recording")).

(** ** Moving the mount *)

(** The answers of the outside world during one call of [move_mount]. *)
Record move_io : Type := mkMoveIo {
  connected : result bool;      (* self.ascom_telescope.Connected *)
  move_axis : result unit;      (* self.ascom_telescope.MoveAxis(0, ra_rate) *)
  move_sleep : result unit;     (* time.sleep(duration) *)
  halt_axis : result unit;      (* self.ascom_telescope.MoveAxis(0, 0) *)
  serial_write : result unit    (* self.mount.write(command) *)
}.

Definition send_mount_command (wrote : result unit) (command : string) : M unit :=
  try_except
    (m <- get mount ;;
     match m with
     | Some _ => call (SerialWrite command) wrote
     | None => ret tt
     end)
    (fun e => emit (ErrorBox "Failed to send command")).

(** [f"RA{steps:+06d}"]: a sign, then the digits, zero-padded to five. *)
Definition pad5 (digits : string) : string :=
  let zeros := List.repeat "0"%char (5 - String.length digits) in
  (string_of_list_ascii zeros ++ digits)%string.

Definition format_RA (steps : Z) : string :=
  let digits := DecimalString.NilZero.string_of_uint (N.to_uint (Z.abs_N steps)) in
  (("RA" ++ (if (steps <? 0)%Z then "-" else "+")) ++ pad5 digits)%string.

Definition move_mount (io : move_io) (angle_degrees : float) : M unit :=
  try_except
    (tel <- get ascom_telescope ;;
     m <- get mount ;;
     match tel, m with
     | Some _, _ =>
         try_except
           (c <- lift (connected io) ;;
            if negb c then raise OtherError
            else
              speed <- get scan_speed ;;
              let rate_degrees_sec := (speed / 3600)%float in
              q <- lift (py_div angle_degrees rate_degrees_sec) ;;
              let duration := abs q in
              let ra_rate :=
                if (0 <=? angle_degrees)%float then rate_degrees_sec
                else (- rate_degrees_sec)%float in
              call (MoveAxis 0 ra_rate) (move_axis io) ;;
              call (SleepF duration) (move_sleep io) ;;
              call (MoveAxis 0 0) (halt_axis io))
           (fun e => raise e)
     | None, Some _ =>
         try_except
           (steps <- lift (py_round (angle_degrees * 3600 / 15)%float) ;;
            send_mount_command (serial_write io) (format_RA steps))
           (fun e => raise e)
     | None, None => ret tt
     end)
    (fun e => ret tt).

(** [stop0] and [stop1] are the outcomes of [MoveAxis(0, 0)] and
    [MoveAxis(1, 0)]. *)
Definition stop_mount_manual (stop0 stop1 : result unit) : M unit :=
  try_except
    (tel <- get ascom_telescope ;;
     match tel with
     | Some _ =>
         call (MoveAxis 0 0) stop0 ;;
         call (MoveAxis 1 0) stop1
     | None => ret tt
     end)
    (fun e => emit (ErrorBox "Failed to stop mount")).

(** [slew] is the outcome of [float(self.slew_speed_var.get())], [moved]
    that of the [MoveAxis] call. *)
Definition move_mount_manual (slew : result float) (moved : result unit)
  (direction : string) : M unit :=
  try_except
    (tel <- get ascom_telescope ;;
     match tel with
     | None => emit (ErrorBox "Mount not initialized.")
     | Some _ =>
         speed <- lift slew ;;
         if String.eqb direction "North" then call (MoveAxis 1 speed) moved
         else if String.eqb direction "South" then call (MoveAxis 1 (- speed)%float) moved
         else if String.eqb direction "East" then call (MoveAxis 0 (- speed)%float) moved
         else if String.eqb direction "West" then call (MoveAxis 0 speed) moved
         else ret tt
     end)
    (fun e => emit (ErrorBox "Failed to move mount")).

(** ** The sweep *)

Definition calculate_motor_speed : float := 0%float.

Definition apply_correction (angle_degrees : float) : float := 0%float.

(** The outside world during one run of [track_moon]: per step [i], what
    the other threads wrote before the step's cancellation check, the
    answers to [move_mount] and the outcome of the step's [time.sleep];
    then the outcomes of the two stop commands. *)
Record scan_env : Type := mkScanEnv {
  step_writes : Z -> list write;
  step_io : Z -> move_io;
  step_sleep : Z -> result unit;
  stop_axis0 : result unit;
  stop_axis1 : result unit
}.

Definition scan_step_body (env : scan_env) (i : Z) : M (flow unit) :=
  interfere (step_writes env i) ;;
  sc <- get scanning ;;
  if negb sc then ret Break
  else
    try_except
      (step <- get scan_step ;;
       let current_angle_arcsec := (of_Z i * step)%float in
       let correction_degrees := apply_correction (current_angle_arcsec / 3600)%float in
       let adjusted_angle_deg := (current_angle_arcsec / 3600 + correction_degrees)%float in
       move_mount (step_io env i) adjusted_angle_deg ;;
       emit (Status "Status: Scanning") ;;
       speed <- get scan_speed ;;
       d <- lift (py_div step speed) ;;
       call (SleepF d) (step_sleep env i) ;;
       ret Next)
      (fun e => ret Next).

Definition scan_loop (env : scan_env) (n : Z) : M (flow unit) :=
  for_each (range n) (scan_step_body env).

Definition track_moon (env : scan_env) : M unit :=
  try_except
    (init <- get mount_initialized ;;
     if negb init then
       emit (ErrorBox "No telescope mount initialized. Click 'Initialize Mount'.") ;;
       modify (with_scanning false) ;;
       emit (Status "Status: Scan Failed")
     else
       modify (with_scanning true) ;;
       modify (with_motor_speed calculate_motor_speed) ;;
       angle <- get scan_angle ;;
       step <- get scan_step ;;
       n <- lift (num_steps angle step) ;;
       emit (Status "Status: Scan Started") ;;
       scan_loop env n ;;
       modify (with_scanning false) ;;
       stop_mount_manual (stop_axis0 env) (stop_axis1 env) ;;
       emit (Status "Status: Scan completed"))
    (fun e => emit (ErrorBox "Scan failed")).

(** ** Port recovery *)

(** [psutil.NoSuchProcess], [psutil.AccessDenied] and the other subclasses
    of [psutil.Error]. *)
Definition is_psutil_error (e : exn) : bool :=
  match e with
  | NoSuchProcess | AccessDenied | PsutilError => true
  | _ => false
  end.

(** A process as [wmi.WMI().Win32_Process()] lists it. *)
Record wmi_proc : Type := mkWmiProc {
  wp_pid : Z;
  wp_cmdline : result (option string);    (* proc.CommandLine *)
  wp_name : string;                       (* proc.Name *)
  wp_terminate : result unit              (* proc.Terminate() *)
}.

(** A process as [psutil.process_iter] lists it. *)
Record ps_proc : Type := mkPsProc {
  pp_pid : Z;
  pp_open_files : result (list string);   (* the paths of proc.open_files() *)
  pp_terminate : result unit;             (* proc.terminate() *)
  pp_name : result string                 (* proc.name(), read for the log line *)
}.

(** The outside world during one attempt of [reset_com_port]. *)
Record attempt_io : Type := mkAttemptIo {
  wmi_scan : result (list wmi_proc);      (* wmi.WMI(); c.Win32_Process() *)
  ps_scan : result (list ps_proc);        (* psutil.process_iter(["pid", "name"]) *)
  devcon_exists : bool;                   (* os.path.exists(devcon_path) *)
  devcon_run : result Z                   (* returncode of devcon restart *)
}.

Record reset_env : Type := mkResetEnv {
  wmi : bool;                             (* the module wmi was imported *)
  attempt_io_at : Z -> attempt_io
}.

Definition wmi_rung (port : string) (io : attempt_io) : M unit :=
  try_except
    (emit WmiScan ;;
     procs <- lift (wmi_scan io) ;;
     for_each (R := unit) procs (fun proc =>
       try_except
         (c <- lift (wp_cmdline proc) ;;
          let cmdline := match c with Some l => l | None => EmptyString end in
          if contains (lower port) (lower cmdline)
             || contains (lower port) (lower (wp_name proc))
          then
            call (WmiTerminate (wp_pid proc)) (wp_terminate proc) ;;
            emit (Sleep 1) ;;
            ret Next
          else ret Next)
         (fun e => ret Next)) ;;
     ret tt)
    (fun e => ret tt).

Definition psutil_rung (port : string) (io : attempt_io) : M (flow bool) :=
  try_except
    (emit PsutilScan ;;
     procs <- lift (ps_scan io) ;;
     for_each procs (fun proc =>
       try_except
         (files <- lift (pp_open_files proc) ;;
          for_each files (fun path =>
            if contains (lower port) (lower path) then
              call (PsutilTerminate (pp_pid proc)) (pp_terminate proc) ;;
              _ <- lift (pp_name proc) ;;
              emit (Sleep 1) ;;
              ret (Return true)
            else ret Next))
         (fun e =>
            match e with
            | NoSuchProcess | AccessDenied => ret Next
            | _ => raise e
            end)))
    (fun e => ret Next).

Definition devcon_rung (port : string) (io : attempt_io) : M (flow bool) :=
  if devcon_exists io then
    try_except
      (emit (DevconRestart port) ;;
       rc <- lift (devcon_run io) ;;
       if rc =? 0 then ret (Return true) else ret Next)
      (fun e => ret Next)
  else ret Next.

Definition reset_attempt (env : reset_env) (port : string) (attempt : Z)
  : M (flow bool) :=
  let io := attempt_io_at env attempt in
  (if wmi env then wmi_rung port io else ret tt) ;;
  f <- psutil_rung port io ;;
  match f with
  | Return b => ret (Return b)
  | _ =>
      g <- devcon_rung port io ;;
      match g with
      | Return b => ret (Return b)
      | _ => emit (Sleep (2 ^ attempt)) ;; ret Next
      end
  end.

Definition reset_com_port (env : reset_env) (port : string) : M bool :=
  try_except
    (f <- for_each (range 3) (reset_attempt env port) ;;
     match f with
     | Return b => ret b
     | _ => ret false
     end)
    (fun e => ret false).

(** A process as the kill loop of [force_com3_reset] sees it. *)
Record app_proc : Type := mkScannerProc {
  ap_pid : Z;
  ap_name : result string;                (* proc.name() *)
  ap_kill : result unit                   (* proc.kill() *)
}.

(** A line of the output of [handle.exe -a COM3]. *)
Record handle_line : Type := mkHandleLine {
  hl_marked : bool;                       (* "pid:" in line.lower() *)
  hl_pid : result Z;                      (* int(line.split("pid:")[1].split()[0]) *)
  hl_kill : result unit                   (* psutil.Process(pid).kill() *)
}.

Record force_env : Type := mkForceEnv {
  com3_free : bool;                       (* self.check_com3_status()[0] *)
  kill_scan : result (list app_proc);     (* psutil.process_iter(['pid', 'name']) *)
  handle_exists : bool;                   (* os.path.exists(handle_path) *)
  handle_run : result (list handle_line);
  usb_reset : result Z;                   (* the PowerShell script: its returncode *)
  pnputil : result Z;
  force_devcon_exists : bool;
  force_devcon : result Z;
  final_reset : reset_env                 (* self.reset_com_port("COM3") *)
}.

Definition telescope_apps : list string :=
  ["cpwi.exe"; "stellarium.exe"; "skyportal.exe"; "serialport.exe"]%string.

(** Kill the telescope applications by name. *)
Definition kill_rung (env : force_env) : M unit :=
  procs <- lift (kill_scan env) ;;
  for_each (R := unit) procs (fun proc =>
    try_except
      (name <- lift (ap_name proc) ;;
       if existsb (String.eqb (lower name)) telescope_apps then
         call (PsutilKill (ap_pid proc)) (ap_kill proc) ;;
         emit (Sleep 1) ;;
         ret Next
       else ret Next)
      (fun e => if is_psutil_error e then ret Next else raise e)) ;;
  ret tt.

(** Kill the holders that [handle.exe] names. *)
Definition handle_rung (env : force_env) : M unit :=
  if handle_exists env then
    try_except
      (emit HandleExe ;;
       lines <- lift (handle_run env) ;;
       for_each (R := unit) lines (fun line =>
         if hl_marked line then
           try_except
             (pid <- lift (hl_pid line) ;;
              call (PsutilKill pid) (hl_kill line) ;;
              emit (Sleep 1) ;;
              ret Next)
             (fun e =>
                match e with
                | ValueError => ret Next
                | _ => if is_psutil_error e then ret Next else raise e
                end)
         else ret Next) ;;
       ret tt)
      (fun e =>
         match e with
         | SubprocessError => ret tt
         | _ => raise e
         end)
  else ret tt.

(** Disable and enable the USB device from PowerShell. *)
Definition usb_rung (env : force_env) : M unit :=
  try_except (emit UsbReset ;; _ <- lift (usb_reset env) ;; ret tt)
             (fun e => ret tt).

(** Restart the driver with pnputil. *)
Definition pnputil_rung (env : force_env) : M unit :=
  try_except (emit PnputilRestart ;; _ <- lift (pnputil env) ;; ret tt)
             (fun e => ret tt).

(** Restart the port with devcon. *)
Definition force_devcon_rung (env : force_env) : M unit :=
  if force_devcon_exists env then
    try_except (emit (DevconRestart "COM3") ;; _ <- lift (force_devcon env) ;; ret tt)
               (fun e => ret tt)
  else ret tt.

Definition force_com3_reset (env : force_env) : M unit :=
  try_except
    (emit (Status "Status: Forcing COM3 Reset...") ;;
     emit CheckCom3Status ;;
     (if com3_free env then ret tt
      else emit (WarningBox "Attempting to free COM3.")) ;;
     kill_rung env ;;
     handle_rung env ;;
     usb_rung env ;;
     pnputil_rung env ;;
     force_devcon_rung env ;;
     ok <- reset_com_port (final_reset env) "COM3" ;;
     (if ok then emit (InfoBox "COM3 reset completed. Try Test ASCOM or Initialize Mount.")
      else emit (ErrorBox "Failed to reset COM3. Unplug/replug USB, update driver, or try another port.")) ;;
     emit (Status "Status: COM3 Reset Complete"))
    (fun e => emit (ErrorBox "Failed to reset COM3")).

(** ** Mount initialisation *)

(** [fix_com_port_permissions]: the registry and access-list edits are one
    capability of the operating system; [free] is what
    [check_com3_status] finds after them, and the method's answer. *)
Definition fix_com_port_permissions (free : bool) (port : string) : M bool :=
  emit (FixPermissions port) ;;
  emit CheckCom3Status ;;
  if free then emit (InfoBox "Permissions granted. Try again.") ;; ret true
  else emit (ErrorBox "Failed to fix port. Unplug/replug USB or update driver.") ;; ret false.

Definition cleanup_mount : M unit :=
  try_except
    (m <- get mount ;;
     match m with
     | Some _ => emit SerialClose ;; modify (with_mount None)
     | None => ret tt
     end ;;
     tel <- get ascom_telescope ;;
     match tel with
     | Some _ => emit (SetConnected false) ;; modify (with_ascom_telescope None)
     | None => ret tt
     end ;;
     modify (with_mount_initialized false))
    (fun e => emit (ErrorBox "Failed to clean up mount")).

Definition update_mount_controls : M unit :=
  init <- get mount_initialized ;;
  tel <- get ascom_telescope ;;
  emit (MountControls (init && match tel with Some _ => true | None => false end)).

(** The outside world during one serial attempt on one port. *)
Record serial_io : Type := mkSerialIo {
  pre_reset : reset_env;          (* self.reset_com_port(port) *)
  open_port : result unit;        (* serial.Serial(port, 9600, timeout=0.5) *)
  probe_write : result unit;      (* self.mount.write(b"V") *)
  probe_read : result bool;       (* self.mount.read(10): is it non-empty *)
  denied_reset : reset_env;       (* self.reset_com_port(port), after access denied *)
  permissions_fixed : bool;       (* self.fix_com_port_permissions(port) *)
  forced : force_env              (* self.force_com3_reset() *)
}.

(** The automation driver during the fall-back. *)
Record ascom_io : Type := mkAscomIo {
  ascom_reset : reset_env;        (* self.reset_com_port(selected_port) *)
  dispatch : result unit;         (* win32com.client.Dispatch(self.ascom_driver) *)
  set_connected : result unit;    (* self.ascom_telescope.Connected = True *)
  is_connected : result bool;     (* self.ascom_telescope.Connected *)
  can_unpark : result bool;       (* hasattr(.., "CanUnpark") and ..CanUnpark *)
  parked : result bool;
  unpark : result unit;
  set_tracking : result unit;     (* self.ascom_telescope.Tracking = False *)
  can_move_axis0 : result bool;
  can_move_axis1 : result bool
}.

Record mount_env : Type := mkMountEnv {
  win32com : bool;                        (* the module win32com.client was imported *)
  comports : result (list string);        (* the devices of serial.tools.list_ports.comports(), or its error *)
  serial_io_at : Z -> Z -> serial_io;     (* by place in ports_to_try and attempt *)
  ascom : ascom_io
}.

Definition ascom_driver : string := "ASCOM.Celestron.Telescope".

Definition close_mount : M unit :=
  m <- get mount ;;
  match m with
  | Some _ => emit SerialClose
  | None => ret tt
  end ;;
  modify (with_mount None).

Definition serial_attempt (env : mount_env) (k : Z) (port : string) (attempt : Z)
  : M (flow unit) :=
  let io := serial_io_at env k attempt in
  try_except
    (reset_com_port (pre_reset io) port ;;
     call (SerialOpen port) (open_port io) ;;
     modify (with_mount (Some (SerialPort port))) ;;
     send_mount_command (probe_write io) "V" ;;
     emit (SerialRead 10) ;;
     response <- lift (probe_read io) ;;
     if response then
       modify (with_serial_port_var port) ;;
       modify (with_mount_initialized true) ;;
       ret Break
     else
       close_mount ;;
       ret Next)
    (fun e =>
       match e with
       | SerialException denied =>
           close_mount ;;
           fixed <- (if denied then
                       reset_com_port (denied_reset io) port ;;
                       fixed <- fix_com_port_permissions (permissions_fixed io) port ;;
                       if fixed then ret true
                       else force_com3_reset (forced io) ;; ret false
                     else ret false) ;;
           if fixed then ret Next
           else emit (Sleep (2 ^ Z.min attempt 3)) ;; ret Next
       | _ => raise e
       end).

Definition serial_port_body (env : mount_env) (available_ports : list string)
  (place : Z * string) : M (flow unit) :=
  let (k, port) := place in
  if negb (existsb (String.eqb port) available_ports) then ret Next
  else
    try_except
      (for_each (range 10) (serial_attempt env k port) ;;
       m <- get mount ;;
       match m with
       | Some _ => ret Break
       | None => ret Next
       end)
      (fun e => ret Next).

(** The serial phase, over the ports that the system listed; it answers
    [mount_status]. *)
Definition serial_phase (env : mount_env) (available_ports : list string)
  : M string :=
  try_except
    (selected_port <- get serial_port_var ;;
     let ports_to_try :=
       selected_port
         :: filter (fun p => negb (String.eqb p selected_port)) available_ports in
     for_each (enumerate ports_to_try) (serial_port_body env available_ports) ;;
     ret tt)
    (fun e => ret tt) ;;
  (* mount_status was set with mount_initialized, and names the port that
     serial_port_var was set to at the same time *)
  init <- get mount_initialized ;;
  port <- get serial_port_var ;;
  ret (if init then ("OK (Serial on " ++ port ++ ")")%string else "Failed"%string).

Definition ascom_setup (io : ascom_io) : M unit :=
  try_except
    (u <- lift (can_unpark io) ;;
     (if u then
        p <- lift (parked io) ;;
        if p then call Unpark (unpark io) else ret tt
      else ret tt) ;;
     call (SetTracking false) (set_tracking io) ;;
     try_except
       (emit (CanMoveAxis 0) ;;
        a0 <- lift (can_move_axis0 io) ;;
        if a0 then emit (CanMoveAxis 1) ;; _ <- lift (can_move_axis1 io) ;; ret tt
        else ret tt)
       (fun e => ret tt) ;;
     modify (with_mount_initialized true))
    (fun e => modify (with_ascom_telescope None) ;; raise e).

(** The automation phase, entered with [mount_status] of the serial phase. *)
Definition ascom_phase (env : mount_env) (selected_port mount_status : string)
  : M string :=
  m <- get mount ;;
  match m with
  | None =>
      if win32com env then
        let io := ascom env in
        try_except
          (reset_com_port (ascom_reset io) selected_port ;;
           call (Dispatch ascom_driver) (dispatch io) ;;
           modify (with_ascom_telescope (Some (ComObject ascom_driver))) ;;
           call (SetConnected true) (set_connected io) ;;
           c <- lift (is_connected io) ;;
           if c then ascom_setup io ;; ret "OK (ASCOM)"%string
           else raise OtherError)
          (fun e => modify (with_ascom_telescope None) ;; ret "Failed"%string)
      else ret mount_status
  | Some _ => ret mount_status
  end.

Definition initialize_mount (env : mount_env) : M unit :=
  try_except
    (emit (Status "Status: Initializing Mount...") ;;
     emit (InfoBox "Close all telescope apps. Verify mount on COM3 in Device Manager, then click OK.") ;;
     cleanup_mount ;;
     (* an error of the port listing is caught by the outer handler *)
     available_ports <- lift (comports env) ;;
     selected_port <- get serial_port_var ;;
     mount_status <- serial_phase env available_ports ;;
     mount_status <- ascom_phase env selected_port mount_status ;;
     update_mount_controls ;;
     emit (Status ("Status: Mount " ++ mount_status)))
    (fun e =>
       modify (with_mount None) ;;
       modify (with_ascom_telescope None) ;;
       modify (with_mount_initialized false) ;;
       update_mount_controls ;;
       emit (Status "Status: Mount Failed")).

(** ** Spectra

    A spectrum is a numpy array of float64, here a list of floats. *)

(** [a - b] for arrays of one length. *)
Fixpoint np_sub (a b : list float) : list float :=
  match a, b with
  | x :: a', y :: b' => (x - y)%float :: np_sub a' b'
  | _, _ => []
  end.

(** [bool(a)] for an array: an array of one element is that element's
    truth value, and for a longer one numpy raises [ValueError] (the truth
    value is ambiguous).  An empty array is false in numpy before 2.2 (with
    a deprecation warning), which is what is modelled; from 2.2 on numpy
    raises there too.  No spectrometer reading is empty. *)
Definition np_truth (a : list float) : result bool :=
  match a with
  | [] => Ok false
  | [x] => Ok (negb (x =? 0)%float)
  | _ => Raise ValueError
  end.

(** The dark correction of [capture_and_save]:
    [if self.dark_spectrum is not None and len(intensities) == len(self.dark_spectrum):
         intensities = intensities - self.dark_spectrum] *)
Definition dark_corrected_capture (dark : option (list float))
  (intensities : list float) : result (list float) :=
  match dark with
  | Some d =>
      if (List.length intensities =? List.length d)%nat
      then Ok (np_sub intensities d)
      else Ok intensities
  | None => Ok intensities
  end.

(** The dark correction of [update_spectrum]:
    [if self.dark_spectrum and len(intensities) == len(self.dark_spectrum):
         intensities = intensities - self.dark_spectrum] *)
Definition dark_corrected_plot (dark : option (list float))
  (intensities : list float) : result (list float) :=
  match dark with
  | Some d =>
      match np_truth d with
      | Ok t =>
          if t && (List.length intensities =? List.length d)%nat
          then Ok (np_sub intensities d)
          else Ok intensities
      | Raise e => Raise e
      end
  | None => Ok intensities
  end.

(** [np.min(a)] and [np.max(a)]: the reduction of [np.minimum] and
    [np.maximum], which hand on a NaN; [ValueError] on an empty array. *)
Definition np_minimum (a b : float) : float :=
  if (a <=? b)%float || is_nan a then a else b.

Definition np_maximum (a b : float) : float :=
  if (b <=? a)%float || is_nan a then a else b.

Definition np_min (a : list float) : result float :=
  match a with
  | [] => Raise ValueError
  | x :: rest => Ok (fold_left np_minimum rest x)
  end.

Definition np_max (a : list float) : result float :=
  match a with
  | [] => Raise ValueError
  | x :: rest => Ok (fold_left np_maximum rest x)
  end.

(** [self.ax.set_ylim(bottom, top)]: matplotlib raises [ValueError] on a
    limit that is a NaN or infinite. *)
Definition set_ylim (bottom top : float) : result unit :=
  if is_finite bottom && is_finite top then Ok tt else Raise ValueError.

(** [time.sleep(x)]: [ValueError] on a NaN, [OverflowError] when the
    nanoseconds do not fit the clock's 64 bits, [ValueError] on a negative
    length. *)
Definition py_sleep (x : float) : M unit :=
  if is_nan x then raise ValueError
  else
    let ns := (x * 1000000000)%float in
    if ((-9223372036854775808) <=? ns)%float && (ns <? 9223372036854775808)%float
    then if (x <? 0)%float then raise ValueError else emit (SleepF x)
    else raise OverflowError.

(** [wavelengths[mask]] beside [intensities[mask]] for
    [mask = (wavelengths >= 200) & (wavelengths <= 900)]; indexing an array
    by a mask of another length raises [IndexError]. *)
Definition clip_band (wavelengths intensities : list float)
  : result (list (float * float)) :=
  if (List.length intensities =? List.length wavelengths)%nat then
    Ok (filter (fun row => (200 <=? fst row)%float && (fst row <=? 900)%float)
               (combine wavelengths intensities))
  else Raise IndexError.

(** ** The recording loop *)

(** The outside world during one turn of the loop of [capture_and_save]. *)
Record cycle_io : Type := mkCycleIo {
  cycle_writes : list write;          (* by the other threads, before the loop test *)
  increment_writes : list write;      (* by the other threads, inside self.sample_count += 1 *)
  log_writes : list write;            (* by the other threads, before the log line reads the counter *)
  camera_opened : result bool;        (* self.camera.isOpened() *)
  set_exposure : result unit;         (* self.camera.set(cv2.CAP_PROP_EXPOSURE, ..) *)
  frame_read : Z -> result bool;      (* ret of self.camera.read(), by try *)
  image_write : result unit;          (* cv2.imwrite *)
  wavelengths : result (list float);  (* self.spectrograph.wavelengths() *)
  intensities : result (list float);  (* self.spectrograph.intensities() *)
  spectrum_write : result unit        (* spectrum_df.to_csv *)
}.

(** The image half of a turn; it answers [image_saved]. *)
Definition capture_image (io : cycle_io) : M bool :=
  cam <- get camera ;;
  opened <- match cam with
            | Some _ => lift (camera_opened io)
            | None => ret false
            end ;;
  if opened then
    try_except
      (use <- get use_camera_exposure ;;
       (if use then
          ms <- get cam_exposure_ms ;;
          call (CameraSetExposure (ms / 1000)%float) (set_exposure io) ;;
          py_sleep (ms / 1000)%float
        else ret tt) ;;
       f <- for_each (R := unit) (range 10) (fun k =>
              emit CameraRead ;;
              ok <- lift (frame_read io k) ;;
              if ok then call ImageWrite (image_write io) ;; ret Break
              else emit (SleepF 0.1%float) ;; ret Next) ;;
       match f with
       | Break => ret true
       | _ => ret false
       end)
      (fun e => ret false)
  else ret false.

(** The spectrum half of a turn; it answers [spectrum_saved]. *)
Definition capture_spectrum (io : cycle_io) : M bool :=
  spec <- get spectrograph ;;
  match spec with
  | Some _ =>
      try_except
        (emit SpecWavelengths ;;
         wl <- lift (wavelengths io) ;;
         emit SpecIntensities ;;
         ints <- lift (intensities io) ;;
         dark <- get dark_spectrum ;;
         ints <- lift (dark_corrected_capture dark ints) ;;
         rows <- lift (clip_band wl ints) ;;
         call (SpectrumWrite rows) (spectrum_write io) ;;
         ret true)
        (fun e => ret false)
  | None => ret false
  end.

(** The body of the [try] of a turn; it answers the two flags.
    [self.sample_count += 1] reads the attribute, adds and stores; the log
    line reads the attribute again.  Another thread may write in between. *)
Definition capture_sample (io : cycle_io) : M (bool * bool) :=
  image_saved <- capture_image io ;;
  spectrum_saved <- capture_spectrum io ;;
  (if image_saved || spectrum_saved then
     n <- get sample_count ;;
     interfere (increment_writes io) ;;
     modify (with_sample_count (n + 1)) ;;
     interfere (log_writes io) ;;
     logged <- get sample_count ;;
     emit (LogSample logged image_saved spectrum_saved)
   else ret tt) ;;
  ret (image_saved, spectrum_saved).

(** One turn of [while self.capture_running and self.running]: [Break] when
    the loop ends here, [Next] when it goes round again. *)
Definition capture_cycle (io : cycle_io) : M (flow unit) :=
  interfere (cycle_writes io) ;;
  cr <- get capture_running ;;
  r <- get running ;;
  if negb (cr && r) then ret Break
  else
    cam <- get camera_running ;;
    spec <- get spectrograph_running ;;
    if negb cam || negb spec then
      modify (with_capture_running false) ;;
      modify (with_recording false) ;;
      emit (Status "Status: Recording Stopped") ;;
      ret Break
    else
      try_except (capture_sample io ;; ret tt) (fun e => ret tt) ;;
      emit (SleepF 0.1%float) ;;
      ret Next.

(** [capture_and_save], watched for as many turns as [ios] is long. *)
Definition capture_and_save (ios : list cycle_io) : M (flow unit) :=
  for_each ios capture_cycle.

(** ** The live spectrum *)

Record spectro_open_io : Type := mkSpectroOpenIo {
  spec_open : result unit;      (* list_devices, Spectrometer, integration time *)
  spec_thread : result unit     (* Thread(target=self.update_spectrum).start() *)
}.

Definition toggle_spectrograph (io : spectro_open_io) : M unit :=
  r <- get spectrograph_running ;;
  if r then
    modify (with_spectrograph_running false) ;;
    spec <- get spectrograph ;;
    match spec with
    | Some _ => emit SpecClose ;; modify (with_spectrograph None)
    | None => ret tt
    end ;;
    emit (Status "Status: Spectrograph Stopped")
  else
    try_except
      (lift (spec_open io) ;;
       modify (with_spectrograph (Some Spectrometer)) ;;
       modify (with_spectrograph_running true) ;;
       emit (Status "Status: Spectrograph Started") ;;
       call (Spawn UpdateSpectrum) (spec_thread io))
      (fun e =>
         emit (ErrorBox "Failed to start spectrograph") ;;
         modify (with_spectrograph None)).

(** The outside world during one turn of the loop of [update_spectrum]. *)
Record plot_io : Type := mkPlotIo {
  plot_writes : list write;
  plot_wavelengths : result (list float);
  plot_intensities : result (list float);
  draw : result unit                  (* self.canvas.draw() *)
}.

Definition update_spectrum_cycle (io : plot_io) : M (flow unit) :=
  interfere (plot_writes io) ;;
  sr <- get spectrograph_running ;;
  r <- get running ;;
  if negb (sr && r) then ret Break
  else
    try_except
      (spec <- get spectrograph ;;
       match spec with
       | Some _ =>
           emit SpecWavelengths ;;
           _ <- lift (plot_wavelengths io) ;;
           emit SpecIntensities ;;
           ints <- lift (plot_intensities io) ;;
           dark <- get dark_spectrum ;;
           ints <- lift (dark_corrected_plot dark ints) ;;
           bottom <- lift (np_min ints) ;;
           top <- lift (np_max ints) ;;
           lift (set_ylim (bottom * 0.9)%float (top * 1.1)%float) ;;
           call (Plot ints) (draw io)
       | None => ret tt
       end ;;
       emit (SleepF 0.2%float) ;;
       ret Next)
      (fun e => ret Break).

(** [update_spectrum], watched for as many turns as [ios] is long; the
    lines after the loop run when the loop has ended. *)
Definition update_spectrum (ios : list plot_io) (io : spectro_open_io) : M unit :=
  f <- for_each ios update_spectrum_cycle ;;
  match f with
  | Break =>
      r <- get spectrograph_running ;;
      if r then toggle_spectrograph io else ret tt
  | _ => ret tt
  end.

(** ** States to run from *)

(** The application as [__init__] and [setup_gui] leave it. *)
Definition initial_state : scanner :=
  {| scanning := false; recording := false; camera_running := false;
     spectrograph_running := false; capture_running := false;
     dark_spectrum := None; running := true;
     serial_port_var := "COM3"; mount_initialized := false;
     mount := None; ascom_telescope := None; camera := None;
     spectrograph := None; motor_speed := 0%float;
     spec_integration_ms := 100%float; cam_exposure_ms := 33.3%float;
     sample_count := 0; scan_angle := 0%float; scan_step := 10%float;
     scan_speed := 1%float; use_camera_exposure := true |}.

(** The application after [toggle_camera] and [toggle_spectrograph] have
    started both sensors. *)
Definition sensing_state : scanner :=
  {| scanning := false; recording := false; camera_running := true;
     spectrograph_running := true; capture_running := false;
     dark_spectrum := None; running := true;
     serial_port_var := "COM3"; mount_initialized := false;
     mount := None; ascom_telescope := None; camera := Some (VideoCapture 0);
     spectrograph := Some Spectrometer; motor_speed := 0%float;
     spec_integration_ms := 100%float; cam_exposure_ms := 33.3%float;
     sample_count := 0; scan_angle := 0%float; scan_step := 10%float;
     scan_speed := 1%float; use_camera_exposure := true |}.

(** Both sensors started and the mount connected, over the serial port or
    through the automation driver; the sweep is 0.01 degrees in steps of 10
    arcseconds. *)
Definition serial_state : scanner :=
  with_scan_angle 0.01%float
    (with_mount_initialized true
       (with_mount (Some (SerialPort "COM3")) sensing_state)).

Definition ascom_state : scanner :=
  with_scan_angle 0.01%float
    (with_mount_initialized true
       (with_ascom_telescope (Some (ComObject ascom_driver)) sensing_state)).

(** A world in which every call returns, the telescope is connected and no
    other thread writes. *)
Definition calm_move_io : move_io :=
  {| connected := Ok true; move_axis := Ok tt; move_sleep := Ok tt;
     halt_axis := Ok tt; serial_write := Ok tt |}.

Definition calm_scan_env : scan_env :=
  {| step_writes := fun _ => []; step_io := fun _ => calm_move_io;
     step_sleep := fun _ => Ok tt; stop_axis0 := Ok tt; stop_axis1 := Ok tt |}.

(** An operating system with nothing to reclaim: no process holds the
    port, the helper programs are not installed. *)
Definition idle_attempt_io : attempt_io :=
  {| wmi_scan := Ok []; ps_scan := Ok []; devcon_exists := false;
     devcon_run := Ok 1 |}.

Definition idle_reset_env : reset_env :=
  {| wmi := false; attempt_io_at := fun _ => idle_attempt_io |}.

Definition idle_force_env : force_env :=
  {| com3_free := true; kill_scan := Ok []; handle_exists := false;
     handle_run := Ok []; usb_reset := Ok 0; pnputil := Ok 0;
     force_devcon_exists := false; force_devcon := Ok 1;
     final_reset := idle_reset_env |}.

(** No mount is plugged in: the port COM3 exists and cannot be opened, and
    the automation driver cannot be dispatched.  [w] tells whether the
    module win32com was imported. *)
Definition dead_serial_io : serial_io :=
  {| pre_reset := idle_reset_env; open_port := Raise (SerialException false);
     probe_write := Ok tt; probe_read := Ok false;
     denied_reset := idle_reset_env; permissions_fixed := false;
     forced := idle_force_env |}.

Definition dead_ascom_io : ascom_io :=
  {| ascom_reset := idle_reset_env; dispatch := Raise OtherError;
     set_connected := Ok tt; is_connected := Ok false;
     can_unpark := Ok false; parked := Ok false; unpark := Ok tt;
     set_tracking := Ok tt; can_move_axis0 := Ok true;
     can_move_axis1 := Ok true |}.

Definition unplugged_env (w : bool) : mount_env :=
  {| win32com := w; comports := Ok ["COM3"%string];
     serial_io_at := fun _ _ => dead_serial_io; ascom := dead_ascom_io |}.

(** Sensors that answer: the camera gives a frame at the first try, the
    spectrometer gives two pixels inside the band. *)
Definition calm_cycle_io : cycle_io :=
  {| cycle_writes := []; increment_writes := []; log_writes := [];
     camera_opened := Ok true; set_exposure := Ok tt;
     frame_read := fun _ => Ok true; image_write := Ok tt;
     wavelengths := Ok [300%float; 500%float];
     intensities := Ok [3%float; 4%float];
     spectrum_write := Ok tt |}.

Definition calm_plot_io : plot_io :=
  {| plot_writes := []; plot_wavelengths := Ok [300%float; 500%float];
     plot_intensities := Ok [3%float; 4%float]; draw := Ok tt |}.

Definition calm_open_io : spectro_open_io :=
  {| spec_open := Ok tt; spec_thread := Ok tt |}.

(** A recording session. *)
Definition recording_state : scanner :=
  with_capture_running true (with_recording true sensing_state).


(** Both sensors running after [capture_dark] stored a dark spectrum of two
    pixels. *)
Definition dark_state : scanner :=
  with_dark_spectrum (Some [1%float; 2%float]) sensing_state.

(** The same calm world, in which [stop_scan] runs in another thread while
    the sweep is in its first step. *)
Definition cancelling_scan_env : scan_env :=
  {| step_writes := fun i => if i =? 1 then [W_scanning false] else [];
     step_io := fun _ => calm_move_io;
     step_sleep := fun _ => Ok tt; stop_axis0 := Ok tt; stop_axis1 := Ok tt |}.

(** The port listing raises; the module win32com was imported. *)
Definition unlisted_env : mount_env :=
  {| win32com := true; comports := Raise OtherError;
     serial_io_at := fun _ _ => dead_serial_io; ascom := dead_ascom_io |}.

(** A turn of a recording loop in a session that was stopped and started
    again while the turn before was under way: at the loop test the flags
    are set again, so this loop goes on beside the loop that the restart
    started.  Both save a sample.  In [overtaken_cycle_io] the other loop
    counts its sample after this one stored the counter and before it
    logged; in [overwritten_cycle_io] the other loop counts its sample
    while this one is inside its own increment. *)
Definition restart_writes : list write :=
  [W_recording false; W_capture_running false;
   W_recording true; W_capture_running true].

Definition overtaken_cycle_io : cycle_io :=
  {| cycle_writes := restart_writes; increment_writes := [];
     log_writes := [W_sample_count 2];
     camera_opened := Ok true; set_exposure := Ok tt;
     frame_read := fun _ => Ok true; image_write := Ok tt;
     wavelengths := Ok [300%float; 500%float];
     intensities := Ok [3%float; 4%float];
     spectrum_write := Ok tt |}.

Definition overwritten_cycle_io : cycle_io :=
  {| cycle_writes := restart_writes; increment_writes := [W_sample_count 1];
     log_writes := [];
     camera_opened := Ok true; set_exposure := Ok tt;
     frame_read := fun _ => Ok true; image_write := Ok tt;
     wavelengths := Ok [300%float; 500%float];
     intensities := Ok [3%float; 4%float];
     spectrum_write := Ok tt |}.



(** ** The other controls

    The methods behind the remaining buttons: the camera, the dark
    spectrum, the integration and exposure times, and the shutdown. *)

Definition with_camera (v : option video_capture) (s : scanner) : scanner :=
  {| scanning := scanning s; recording := recording s; camera_running := camera_running s; spectrograph_running := spectrograph_running s; capture_running := capture_running s; dark_spectrum := dark_spectrum s; running := running s; serial_port_var := serial_port_var s; mount_initialized := mount_initialized s; mount := mount s; ascom_telescope := ascom_telescope s; camera := v; spectrograph := spectrograph s; motor_speed := motor_speed s; spec_integration_ms := spec_integration_ms s; cam_exposure_ms := cam_exposure_ms s; sample_count := sample_count s; scan_angle := scan_angle s; scan_step := scan_step s; scan_speed := scan_speed s; use_camera_exposure := use_camera_exposure s |}.

Definition with_spec_integration_ms (v : float) (s : scanner) : scanner :=
  {| scanning := scanning s; recording := recording s; camera_running := camera_running s; spectrograph_running := spectrograph_running s; capture_running := capture_running s; dark_spectrum := dark_spectrum s; running := running s; serial_port_var := serial_port_var s; mount_initialized := mount_initialized s; mount := mount s; ascom_telescope := ascom_telescope s; camera := camera s; spectrograph := spectrograph s; motor_speed := motor_speed s; spec_integration_ms := v; cam_exposure_ms := cam_exposure_ms s; sample_count := sample_count s; scan_angle := scan_angle s; scan_step := scan_step s; scan_speed := scan_speed s; use_camera_exposure := use_camera_exposure s |}.

Definition with_cam_exposure_ms (v : float) (s : scanner) : scanner :=
  {| scanning := scanning s; recording := recording s; camera_running := camera_running s; spectrograph_running := spectrograph_running s; capture_running := capture_running s; dark_spectrum := dark_spectrum s; running := running s; serial_port_var := serial_port_var s; mount_initialized := mount_initialized s; mount := mount s; ascom_telescope := ascom_telescope s; camera := camera s; spectrograph := spectrograph s; motor_speed := motor_speed s; spec_integration_ms := spec_integration_ms s; cam_exposure_ms := v; sample_count := sample_count s; scan_angle := scan_angle s; scan_step := scan_step s; scan_speed := scan_speed s; use_camera_exposure := use_camera_exposure s |}.

(** The outside world during [toggle_camera]. *)
Record camera_io : Type := mkCameraIo {
  release : result unit;          (* self.camera.release() *)
  camera_index : result Z;        (* int(self.camera_index_var.get()) *)
  video_open : result unit;       (* cv2.VideoCapture(camera_index, cv2.CAP_DSHOW) *)
  video_opened : result bool;     (* self.camera.isOpened() *)
  video_setup : result unit;      (* the self.camera.set(..) calls *)
  feed_thread : result unit       (* Thread(target=self.update_camera_feed).start() *)
}.

Definition toggle_camera (io : camera_io) : M unit :=
  r <- get camera_running ;;
  if r then
    modify (with_camera_running false) ;;
    cam <- get camera ;;
    match cam with
    | Some _ => lift (release io) ;; modify (with_camera None)
    | None => ret tt
    end ;;
    emit (Status "Status: Camera Stopped")
  else
    try_except
      (index <- lift (camera_index io) ;;
       lift (video_open io) ;;
       modify (with_camera (Some (VideoCapture index))) ;;
       opened <- lift (video_opened io) ;;
       if negb opened then raise OtherError
       else
         lift (video_setup io) ;;
         modify (with_camera_running true) ;;
         emit (Status "Status: Camera Started") ;;
         lift (feed_thread io))
      (fun e =>
         emit (ErrorBox "Failed to start camera") ;;
         cam <- get camera ;;
         match cam with
         | Some _ => lift (release io) ;; modify (with_camera None)
         | None => ret tt
         end).

Definition reset_camera (io : camera_io) : M unit :=
  cam <- get camera ;;
  match cam with
  | Some _ =>
      modify (with_camera_running false) ;;
      lift (release io) ;;
      modify (with_camera None) ;;
      emit (Status "Status: Camera Reset")
  | None => ret tt
  end.

(** The outside world during one turn of the loop of [update_camera_feed]. *)
Record feed_io : Type := mkFeedIo {
  feed_writes : list write;
  feed_opened : result bool;      (* self.camera.isOpened() *)
  feed_frame : result bool;       (* ret of self.camera.read() *)
  feed_show : result unit         (* converting and showing the frame *)
}.

Definition update_camera_feed_cycle (io : feed_io) : M (flow unit) :=
  interfere (feed_writes io) ;;
  cr <- get camera_running ;;
  r <- get running ;;
  if negb (cr && r) then ret Break
  else
    try_except
      (cam <- get camera ;;
       opened <- match cam with
                 | Some _ => lift (feed_opened io)
                 | None => ret false
                 end ;;
       (if opened then
          emit CameraRead ;;
          ok <- lift (feed_frame io) ;;
          if ok then lift (feed_show io) else ret tt
        else ret tt) ;;
       emit (SleepF 0.033%float) ;;
       ret Next)
      (fun e => ret Break).

(** [update_camera_feed], watched for as many turns as [ios] is long; the
    lines after the loop run when the loop has ended. *)
Definition update_camera_feed (ios : list feed_io) (io : camera_io) : M unit :=
  f <- for_each ios update_camera_feed_cycle ;;
  match f with
  | Break =>
      r <- get camera_running ;;
      if r then toggle_camera io else ret tt
  | _ => ret tt
  end.

(** [reading] is the outcome of [self.spectrograph.intensities()]. *)
Definition capture_dark (reading : result (list float)) : M bool :=
  try_except
    (spec <- get spectrograph ;;
     r <- get spectrograph_running ;;
     match spec with
     | Some _ =>
         if r then
           emit (InfoBox "Please cover the spectrograph sensor and click OK to capture dark spectrum.") ;;
           emit SpecIntensities ;;
           intensities <- lift reading ;;
           modify (with_dark_spectrum (Some intensities)) ;;
           emit (Status "Status: Dark spectrum captured") ;;
           emit (InfoBox "Dark spectrum captured successfully") ;;
           ret true
         else
           emit (ErrorBox "Spectrograph not running. Please start spectrograph.") ;;
           ret false
     | None =>
         emit (ErrorBox "Spectrograph not running. Please start spectrograph.") ;;
         ret false
     end)
    (fun e => emit (ErrorBox "Failed to capture dark spectrum") ;; ret false).

(** [entry] is the outcome of [float(self.spec_integration_entry.get())],
    [accepted] that of [self.spectrograph.integration_time_micros], by the
    microseconds asked for. *)
Definition set_spectrograph_integration (entry : result float)
  (accepted : Z -> result unit) : M unit :=
  try_except
    (integration_ms <- lift entry ;;
     if (integration_ms <=? 0)%float then raise ValueError
     else
       spec <- get spectrograph ;;
       match spec with
       | Some _ =>
           micros <- lift (py_int (integration_ms * 1000)%float) ;;
           lift (accepted micros) ;;
           modify (with_spec_integration_ms integration_ms) ;;
           emit (Status "Status: Spectrograph integration set")
       | None =>
           emit (ErrorBox "Spectrograph not initialized. Click 'Start Spectrograph'.")
       end)
    (fun e =>
       match e with
       | ValueError => emit (ErrorBox "Invalid integration time")
       | _ => emit (ErrorBox "Failed to set integration time")
       end).

(** [entry] is the outcome of [float(self.cam_exposure_entry.get())], [set]
    that of [self.camera.set(cv2.CAP_PROP_EXPOSURE, ..)] and of reading the
    value back. *)
Definition set_camera_exposure (entry : result float) (set : result unit)
  : M unit :=
  cam <- get camera ;;
  match cam with
  | None => emit (ErrorBox "Camera not initialized. Click 'Start Camera'.")
  | Some _ =>
      use <- get use_camera_exposure ;;
      if negb use then emit (Status "Status: Camera exposure time disabled")
      else
        try_except
          (exposure_ms <- lift entry ;;
           if (exposure_ms <=? 0)%float then raise ValueError
           else
             modify (with_cam_exposure_ms exposure_ms) ;;
             call (CameraSetExposure (exposure_ms / 1000)%float) set ;;
             emit (Status "Status: Camera exposure set"))
          (fun e =>
             match e with
             | ValueError => emit (ErrorBox "Invalid exposure time")
             | _ => emit (ErrorBox "Failed to set exposure")
             end)
  end.

(** [released] is the outcome of [self.camera.release()]. *)
Definition cleanup (released : result unit) : M unit :=
  try_except
    (modify (with_running false) ;;
     modify (with_recording false) ;;
     modify (with_capture_running false) ;;
     modify (with_spectrograph_running false) ;;
     modify (with_camera_running false) ;;
     cam <- get camera ;;
     match cam with
     | Some _ => lift released ;; modify (with_camera None)
     | None => ret tt
     end ;;
     spec <- get spectrograph ;;
     match spec with
     | Some _ => emit SpecClose ;; modify (with_spectrograph None)
     | None => ret tt
     end ;;
     cleanup_mount)
    (fun e => emit (ErrorBox "Application cleanup failed")).

Definition reinitialize_mount (env : mount_env) : M unit :=
  try_except
    (cleanup_mount ;;
     initialize_mount env)
    (fun e => emit (ErrorBox "Failed to reinitialize mount")).

(** ** Reading a trace *)

Definition count (p : event -> bool) (t : list event) : nat :=
  List.length (filter p t).

(** A command that sets the mount moving: an axis move at a rate other than
    zero, or a serial command. *)
Definition is_move_command (e : event) : bool :=
  match e with
  | MoveAxis _ rate => negb (rate =? 0)%float
  | SerialWrite _ => true
  | _ => false
  end.

(** A command that stops an axis: an axis move at rate zero. *)
Definition is_stop_command (e : event) : bool :=
  match e with
  | MoveAxis _ rate => (rate =? 0)%float
  | _ => false
  end.

(** A command to the mount, of either back end. *)
Definition is_mount_command (e : event) : bool :=
  match e with
  | MoveAxis _ _ | SerialWrite _ => true
  | _ => false
  end.

Definition mount_commands (t : list event) : list event :=
  filter is_mount_command t.

Definition is_dispatch (e : event) : bool :=
  match e with
  | Dispatch _ => true
  | _ => false
  end.


Definition is_spectrometer_read (e : event) : bool :=
  match e with
  | SpecWavelengths | SpecIntensities => true
  | _ => false
  end.

(** The sample numbers that a trace logs, in order. *)
Fixpoint sample_numbers (t : list event) : list Z :=
  match t with
  | [] => []
  | LogSample n _ _ :: t' => n :: sample_numbers t'
  | _ :: t' => sample_numbers t'
  end.

(** [k] consecutive integers from [a]. *)
Fixpoint consecutive (a : Z) (k : nat) : list Z :=
  match k with
  | O => []
  | S k' => a :: consecutive (a + 1) k'
  end.

(** The exit commands of a sweep: what [stop_mount_manual] sends. *)
Definition exit_commands (tel : option com_object) (stop0 : result unit)
  : list event :=
  match tel with
  | Some _ =>
      MoveAxis 0 0 :: (if is_ok stop0 then [MoveAxis 1 0] else [])
  | None => []
  end.

(** The rungs of the recovery ladder, by the event that starts each. *)
Definition is_wmi_scan (e : event) : bool :=
  match e with WmiScan => true | _ => false end.

Definition is_psutil_scan (e : event) : bool :=
  match e with PsutilScan => true | _ => false end.

Definition is_devcon_restart (e : event) : bool :=
  match e with DevconRestart _ => true | _ => false end.

Definition is_usb_reset (e : event) : bool :=
  match e with UsbReset => true | _ => false end.

Definition is_pnputil_restart (e : event) : bool :=
  match e with PnputilRestart => true | _ => false end.

Definition is_handle_exe (e : event) : bool :=
  match e with HandleExe => true | _ => false end.

(** Ending a process and the pause of one second after it. *)
Definition is_termination (e : event) : bool :=
  match e with
  | WmiTerminate _ | PsutilTerminate _ | PsutilKill _ => true
  | Sleep n => n =? 1
  | _ => false
  end.

(** A pause of 1, 2 or 4 seconds, or no pause at all. *)
Definition pause_within_backoff (e : event) : Prop :=
  match e with
  | Sleep n => n = 1 \/ n = 2 \/ n = 4
  | SleepF _ => False
  | _ => True
  end.

(** What [reset_com_port] may do: scan, end a process, restart the port,
    pause. *)
Definition is_reset_event (e : event) : bool :=
  match e with
  | WmiScan | PsutilScan | DevconRestart _ | Sleep _ => true
  | _ => is_termination e
  end.

(** What the recovery ladder may do: what [reset_com_port] does, the rungs
    of [force_com3_reset], the permission repair, and messages on the
    screen.  None of it speaks to the telescope or to the serial port. *)
Definition is_recovery_event (e : event) : bool :=
  match e with
  | HandleExe | UsbReset | PnputilRestart | CheckCom3Status
  | FixPermissions _
  | Status _ | ErrorBox _ | WarningBox _ | InfoBox _ => true
  | _ => is_reset_event e
  end.

Definition is_sample_log (e : event) : bool :=
  match e with
  | LogSample _ _ _ => true
  | _ => false
  end.

(** ** Conditions used in the facts *)

(** A float that is not negative: a zero, a positive finite number, plus
    infinity, or a NaN (which no comparison calls negative). *)
Definition not_negative (x : spec_float) : Prop :=
  match x with
  | S754_zero _ | S754_nan => True
  | S754_finite s _ _ | S754_infinity s => s = false
  end.


(** The serial phase runs under "not initialised" until an attempt
    connects; it then holds a port, and the loops are left at once. *)
Definition serial_pending (s : scanner) : Prop := mount_initialized s = false.

Definition serial_connected (s : scanner) : Prop :=
  mount s <> None /\ mount_initialized s = true.

(** A write that leaves the sample counter alone. *)
Definition counter_free (w : write) : bool :=
  match w with
  | W_sample_count _ => false
  | _ => true
  end.

(** A turn of the recording loop during which no other thread writes the
    sample counter: the loop is the only [capture_and_save] running. *)
Definition quiet_counter (io : cycle_io) : Prop :=
  forallb counter_free (cycle_writes io ++ increment_writes io ++ log_writes io)
  = true.


Definition is_plot (e : event) : bool :=
  match e with Plot _ => true | _ => false end.

(** The ports that the system listed, none when the listing raised. *)
Definition listed_ports (env : mount_env) : list string :=
  match comports env with
  | Ok ports => ports
  | Raise _ => []
  end.

Definition is_serial_open (e : event) : bool :=
  match e with SerialOpen _ => true | _ => false end.


(** ** More to read in a trace *)

(** The serial command read back: the step count that a text of the form
    of [format_RA] stands for ("RA", a sign, decimal digits). *)
Definition steps_of_RA (command : string) : option Z :=
  match command with
  | String "R" (String "A" (String sign digits)) =>
      match NilEmpty.uint_of_string digits with
      | Some d =>
          let n := Z.of_N (N.of_uint d) in
          if Ascii.eqb sign "-" then Some (- n)
          else if Ascii.eqb sign "+" then Some n
          else None
      | None => None
      end
  | _ => None
  end.

Definition is_serial_write (e : event) : bool :=
  match e with SerialWrite _ => true | _ => false end.

(** What initialisation may do to the ports: open a listed port, pause
    between 1 and 8 seconds. *)
Definition init_event (ports : list string) (e : event) : Prop :=
  match e with
  | SerialOpen p => In p ports
  | Sleep n => 1 <= n <= 8
  | SleepF _ => False
  | _ => True
  end.

(** The serial attempts that a place of [ports_to_try] may cost: ten for a
    listed port, none for one that is skipped. *)
Definition port_weight (ports : list string) (place : Z * string) : nat :=
  if existsb (String.eqb (snd place)) ports then 10 else 0.

(** An attempt of [reset_com_port] that reclaimed the port, and the trace
    it ends: psutil listed a process with an open file whose path names the
    port (in any case of the letters), ending it and reading its name
    succeeded, and the pause of a second followed; or devcon is installed
    and its restart of the port came back with return code 0. *)
Definition reclaimed_by (port : string) (io : attempt_io) (t : list event) : Prop :=
  (exists procs proc files path name before,
      ps_scan io = Ok procs /\ In proc procs /\
      pp_open_files proc = Ok files /\ In path files /\
      contains (lower port) (lower path) = true /\
      pp_terminate proc = Ok tt /\ pp_name proc = Ok name /\
      t = before ++ [PsutilTerminate (pp_pid proc); Sleep 1]) \/
  (devcon_exists io = true /\ devcon_run io = Ok 0 /\
   exists before, t = before ++ [DevconRestart port]).

Definition is_camera_read (e : event) : bool :=
  match e with CameraRead => true | _ => false end.

Definition is_image_write (e : event) : bool :=
  match e with ImageWrite => true | _ => false end.

Definition is_spectrum_write (e : event) : bool :=
  match e with SpectrumWrite _ => true | _ => false end.

Definition is_exposure_set (e : event) : bool :=
  match e with CameraSetExposure _ => true | _ => false end.

(** A row of a spectrum file, [(wavelength, intensity)], inside the band of
    200 to 900 nm. *)
Definition in_band (row : float * float) : bool :=
  (200 <=? fst row)%float && (fst row <=? 900)%float.

(** A spectrum file holds rows of the 200 to 900 nm band only. *)
Definition saves_in_band (e : event) : Prop :=
  match e with
  | SpectrumWrite rows => forallb in_band rows = true
  | _ => True
  end.

(** ** More worlds to run in *)

(** A camera that opens and is released without error. *)
Definition calm_camera_io : camera_io :=
  {| release := Ok tt; camera_index := Ok 0; video_open := Ok tt;
     video_opened := Ok true; video_setup := Ok tt; feed_thread := Ok tt |}.

(** An operating system on which devcon is installed and restarts the
    port. *)
Definition restarting_reset_env : reset_env :=
  {| wmi := false;
     attempt_io_at := fun _ =>
       {| wmi_scan := Ok []; ps_scan := Ok []; devcon_exists := true;
          devcon_run := Ok 0 |} |}.

(** No serial mount answers, and the automation driver connects. *)
Definition ascom_only_env : mount_env :=
  {| win32com := true; comports := Ok ["COM3"%string];
     serial_io_at := fun _ _ => dead_serial_io;
     ascom :=
       {| ascom_reset := idle_reset_env; dispatch := Ok tt;
          set_connected := Ok tt; is_connected := Ok true;
          can_unpark := Ok true; parked := Ok true; unpark := Ok tt;
          set_tracking := Ok tt; can_move_axis0 := Ok true;
          can_move_axis1 := Ok true |} |}.


(** * Facts *)

(** ** Methods and loops *)

Section MethodFacts.

Context {A B : Type}.

Lemma bind_run (m : M A) (k : A -> M B) (s : scanner) :
  bind m k s =
  match res (m s) with
  | Ok a =>
      mkOutcome (res (k a (st (m s)))) (st (k a (st (m s))))
                (tr (m s) ++ tr (k a (st (m s))))
  | Raise e => mkOutcome (Raise e) (st (m s)) (tr (m s))
  end.
Proof.
  unfold bind. destruct (m s) as [ [ a | e ] s1 t1 ]; cbn [res st tr];
    [ destruct (k a s1) | ]; reflexivity.
Qed.

Lemma try_except_run (m : M A) (h : exn -> M A) (s : scanner) :
  try_except m h s =
  match res (m s) with
  | Ok a => m s
  | Raise e =>
      mkOutcome (res (h e (st (m s)))) (st (h e (st (m s))))
                (tr (m s) ++ tr (h e (st (m s))))
  end.
Proof.
  unfold try_except. destruct (m s) as [ [ a | e ] s1 t1 ]; cbn [res st tr];
    [ | destruct (h e s1) ]; reflexivity.
Qed.

End MethodFacts.

Lemma count_app (p : event -> bool) (t u : list event) :
  count p (t ++ u) = (count p t + count p u)%nat.
Proof. unfold count. now rewrite filter_app, length_app. Qed.

Lemma count_cons (p : event -> bool) (e : event) (t : list event) :
  count p (e :: t) = ((if p e then 1 else 0) + count p t)%nat.
Proof. unfold count. simpl. now destruct (p e). Qed.

Lemma count_nil (p : event -> bool) : count p [] = 0%nat.
Proof. reflexivity. Qed.

Lemma mount_commands_app (t u : list event) :
  mount_commands (t ++ u) = mount_commands t ++ mount_commands u.
Proof. apply filter_app. Qed.

Lemma sample_numbers_app (t u : list event) :
  sample_numbers (t ++ u) = sample_numbers t ++ sample_numbers u.
Proof.
  induction t as [ | e t IH ]; simpl; [ reflexivity | ].
  destruct e; simpl; rewrite IH; reflexivity.
Qed.

Lemma length_range (n : Z) : List.length (range n) = Z.to_nat n.
Proof. unfold range. now rewrite length_map, length_seq. Qed.

Section LoopFacts.

Context {X R : Type}.
Variable body : X -> M (flow R).

(** A loop whose body never raises does not raise. *)
Lemma for_each_returns (xs : list X) :
  (forall x s, is_ok (res (body x s)) = true) ->
  forall s, is_ok (res (for_each xs body s)) = true.
Proof.
  intros Hbody. induction xs as [ | x xs IH ]; intros s; simpl; [ reflexivity | ].
  rewrite bind_run. specialize (Hbody x s).
  destruct (res (body x s)) as [ f | e ]; [ | discriminate ].
  destruct f; simpl; auto.
Qed.

(** What every turn keeps, the loop keeps. *)
Lemma for_each_invariant (P : scanner -> Prop) (xs : list X) :
  (forall x s, P s -> P (st (body x s))) ->
  forall s, P s -> P (st (for_each xs body s)).
Proof.
  intros Hbody. induction xs as [ | x xs IH ]; intros s Hs; simpl; [ exact Hs | ].
  rewrite bind_run. specialize (Hbody x s Hs).
  destruct (res (body x s)) as [ f | e ]; simpl; [ | exact Hbody ].
  destruct f; simpl; auto.
Qed.

(** A loop of [n] turns, each emitting at most [k] events of a kind, emits
    at most [k * n] of them. *)
Lemma for_each_count (p : event -> bool) (k : nat) (xs : list X) :
  (forall x s, (count p (tr (body x s)) <= k)%nat) ->
  forall s, (count p (tr (for_each xs body s)) <= k * List.length xs)%nat.
Proof.
  intros Hbody. induction xs as [ | x xs IH ]; intros s;
    [ simpl; unfold count; simpl; lia | ].
  cbn [for_each List.length]. rewrite Nat.mul_succ_r.
  rewrite bind_run. specialize (Hbody x s).
  destruct (res (body x s)) as [ f | e ]; cbn [tr]; [ | lia ].
  destruct f; rewrite count_app.
  - specialize (IH (st (body x s))). lia.
  - unfold count at 2. simpl. lia.
  - unfold count at 2. simpl. lia.
Qed.

(** What every turn's events satisfy, the loop's events satisfy. *)
Lemma for_each_events (P : event -> Prop) (xs : list X) :
  (forall x s, In x xs -> Forall P (tr (body x s))) ->
  forall s, Forall P (tr (for_each xs body s)).
Proof.
  induction xs as [ | x xs IH ]; intros Hbody s; [ constructor | ].
  cbn [for_each]. rewrite bind_run.
  assert (Hx : Forall P (tr (body x s))) by (apply Hbody; now left).
  assert (Hrest : forall s', Forall P (tr (for_each xs body s'))).
  { apply IH. intros y s' Hy. apply Hbody. now right. }
  destruct (res (body x s)) as [ f | e ]; cbn [tr]; [ | exact Hx ].
  destruct f; cbn [ret tr]; apply Forall_app; split; auto.
Qed.

(** A loop whose turns leave the state alone leaves it alone. *)
Lemma for_each_state (xs : list X) :
  (forall x s, st (body x s) = s) ->
  forall s, st (for_each xs body s) = s.
Proof.
  intros Hbody s.
  apply (for_each_invariant (fun s' => s' = s)); [ | reflexivity ].
  intros x s' ->. apply Hbody.
Qed.

(** A loop under an invariant that a turn may trade for a goal, on
    condition of breaking out: the loop ends under the invariant, or broken
    out of with the goal reached. *)
Lemma for_each_until (J Q : scanner -> Prop) (xs : list X) :
  (forall x s, J s ->
     J (st (body x s)) \/ (res (body x s) = Ok Break /\ Q (st (body x s)))) ->
  forall s, J s ->
    J (st (for_each xs body s)) \/
    (res (for_each xs body s) = Ok Break /\ Q (st (for_each xs body s))).
Proof.
  intros Hbody. induction xs as [ | x xs IH ]; intros s Hs; [ now left | ].
  cbn [for_each]. rewrite bind_run.
  destruct (Hbody x s Hs) as [ HJ | (Hres & HQ) ].
  - destruct (res (body x s)) as [ f | e ]; cbn [res st]; [ | now left ].
    destruct f; cbn [ret res st]; auto.
  - rewrite Hres. cbn [ret res st]. now right.
Qed.

End LoopFacts.

Lemma count_none (p : event -> bool) (t : list event) :
  Forall (fun e => p e = false) t -> count p t = 0%nat.
Proof.
  unfold count. induction 1 as [ | e t He _ IH ]; simpl; [ reflexivity | ].
  now rewrite He.
Qed.
(** ** Facts about the planner *)

Section PlannerFacts.

Lemma binary_round_aux_not_negative (m e : Z) (l : location) :
  not_negative (binary_round_aux prec emax false m e l).
Proof.
  unfold binary_round_aux.
  destruct (shr_fexp prec emax m e l) as [r1 e1].
  match goal with
  | |- context [shr_fexp ?p ?x ?a ?b ?c] =>
      destruct (shr_fexp p x a b c) as [r2 e2]
  end.
  destruct (shr_m r2); simpl; auto.
  destruct (e2 <=? _); simpl; auto.
Qed.

Lemma positive_float_shape (x : float) :
  (0 <? x)%float = true ->
  (exists m e, Prim2SF x = S754_finite false m e) \/
  Prim2SF x = S754_infinity false.
Proof.
  rewrite ltb_spec.
  change (Prim2SF 0) with (S754_zero false).
  destruct (Prim2SF x) as [s | s | | s m e]; unfold SFltb; simpl;
    try discriminate; destruct s; try discriminate; eauto.
Qed.

Lemma positive_float_nonzero (x : float) :
  (0 <? x)%float = true -> (x =? 0)%float = false.
Proof.
  intros H. rewrite FloatAxioms.eqb_spec.
  change (Prim2SF 0) with (S754_zero false).
  destruct (positive_float_shape x H) as [(m & e & ->) | ->]; reflexivity.
Qed.

Lemma scaled_angle_not_negative (A : float) :
  (0 <? A)%float = true -> not_negative (Prim2SF (A * 3600)).
Proof.
  intros H. rewrite mul_spec.
  change (Prim2SF 3600) with (S754_finite false 7916483719987200 (-41)).
  destruct (positive_float_shape A H) as [(m & e & ->) | ->].
  - apply binary_round_aux_not_negative.
  - reflexivity.
Qed.

Lemma quotient_not_negative (T S : float) :
  not_negative (Prim2SF T) -> (0 <? S)%float = true ->
  not_negative (Prim2SF (T / S)).
Proof.
  intros HT HS. rewrite div_spec.
  destruct (positive_float_shape S HS) as [(m & e & ->) | ->];
    destruct (Prim2SF T) as [s | s | | s mt et]; simpl in *; subst; auto.
  unfold SF64div, SFdiv.
  destruct (SFdiv_core_binary prec emax (Z.pos mt) et (Z.pos m) e) as [[mz ez] lz].
  apply binary_round_aux_not_negative.
Qed.

(** On a float that is not negative, truncation is the floor of the exact
    value; on an infinity or a NaN, [int] raises. *)
Lemma trunc_is_floor (x : spec_float) :
  not_negative x ->
  match SF2Q x with
  | Some q => SFtrunc x = Ok (Qfloor q)
  | None => is_ok (SFtrunc x) = false
  end.
Proof.
  destruct x as [s | s | | s m e]; simpl; intros H; auto.
  subst s. simpl. destruct (0 <=? e) eqn:He; simpl.
  - now rewrite Z.div_1_r.
  - apply Z.leb_gt in He.
    assert (Hp : 0 < 2 ^ (- e)) by (apply Z.pow_pos_nonneg; lia).
    rewrite Z2Pos.id by exact Hp.
    rewrite Z.quot_div_nonneg by lia. reflexivity.
Qed.

End PlannerFacts.

(** C4, as amended.  For every positive sweep angle [A] (degrees) and
    positive step [S] (arcseconds) held as Python floats, [track_moon]
    computes the double-precision quotient [q = (A * 3600) / S], both
    operations rounded to binary64.  When [q] is finite the number of steps
    is [floor q], the floor of the exact value of that rounded quotient; when
    [q] is not finite ([A * 3600] overflowed) [int] raises and no step count
    is produced.  For [A = 0.2] and [S = 10] the planner yields 72 steps. *)
Theorem num_steps_floor_of_float_quotient (A S : float) :
  (0 <? A)%float = true ->
  (0 <? S)%float = true ->
  (match value (A * 3600 / S) with
   | Some q => num_steps A S = Ok (Qfloor q)
   | None => is_ok (num_steps A S) = false
   end)
  /\ num_steps 0.2 10 = Ok 72.
Proof.
  intros HA HS. split; [ | reflexivity ].
  unfold num_steps, py_div. rewrite (positive_float_nonzero S HS).
  apply trunc_is_floor.
  apply quotient_not_negative; [ apply scaled_angle_not_negative | ]; assumption.
Qed.

Lemma num_steps_floor_of_float_quotient_witness :
  (0 <? 0.2)%float = true /\ (0 <? 10)%float = true /\
  num_steps 0.2 10 = Ok (Qfloor (72 # 1)).
Proof.
  split; [ reflexivity | split; [ reflexivity | ] ].
  exact (proj1 (num_steps_floor_of_float_quotient 0.2 10 eq_refl eq_refl)).
Defined.

(** C4, as stated, fails.  The float nearest to 2.7 has the exact value
    [6079859496950170 / 2^51].  With [A = S = 2.7] the exact [A * 3600 / S]
    is 3600, for the decimal 2.7 as for the float's own value, yet the code
    computes 3599 steps: [2.7 * 3600] rounds below 9720, and the quotient
    rounds to the float just under 3600. *)
Lemma num_steps_differs_from_exact_floor :
  (0 <? 2.7)%float = true /\
  value 2.7 = Some (6079859496950170 # 2251799813685248) /\
  num_steps 2.7 2.7 = Ok 3599 /\
  stepCount_spec (6079859496950170 # 2251799813685248)
                 (6079859496950170 # 2251799813685248) = 3600 /\
  stepCount_spec (27 # 10) (27 # 10) = 3600.
Proof. repeat split; vm_compute; reflexivity. Qed.

(** ** The setters and session control *)

Ltac unfold_method :=
  cbv beta iota zeta delta
    [bind try_except ret raise emit get modify lift call interfere];
  cbn [res st tr].

Ltac case_method :=
  match goal with
  | |- context [match ?x with _ => _ end] =>
      lazymatch x with
      | context [match _ with _ => _ end] => fail
      | _ => destruct x eqn:?
      end
  end.

Ltac run_method :=
  unfold_method; repeat (case_method; unfold_method);
  repeat match goal with u : unit |- _ => destruct u end.

(** A text that is not a number leaves the parameter as it was. *)
Lemma set_scan_angle_unparsed (e : exn) (s : scanner) :
  st (set_scan_angle (Raise e) s) = s.
Proof. unfold set_scan_angle. run_method; reflexivity. Qed.

(** A number that compares at most zero leaves the parameter as it was. *)
Lemma set_scan_angle_rejects (x : float) (s : scanner) :
  (x <=? 0)%float = true -> st (set_scan_angle (Ok x) s) = s.
Proof. intros H. unfold set_scan_angle. unfold_method. rewrite H. reflexivity. Qed.

(** A number above zero is stored. *)
Lemma set_scan_angle_stores (x : float) (s : scanner) :
  (0 <? x)%float = true -> scan_angle (st (set_scan_angle (Ok x) s)) = x.
Proof.
  intros H. unfold set_scan_angle. unfold_method.
  assert (Hle : (x <=? 0)%float = false).
  { rewrite leb_spec. rewrite ltb_spec in H.
    change (Prim2SF 0) with (S754_zero false) in *.
    destruct (Prim2SF x) as [ sg | sg | | sg m e ]; try discriminate H;
      destruct sg; try discriminate H; reflexivity. }
  rewrite Hle. reflexivity.
Qed.

(** No setter lets an exception out. *)
Lemma scan_setters_return (entry : result float) (s : scanner) :
  res (set_scan_angle entry s) = Ok tt /\
  res (set_scan_step entry s) = Ok tt /\
  res (set_scan_speed entry s) = Ok tt.
Proof.
  unfold set_scan_angle, set_scan_step, set_scan_speed.
  repeat split; run_method; reflexivity.
Qed.

(** C10, where the code departs from it.  The text nan is a number for
    Python's [float]; NaN is not above zero, yet [nan <= 0] is false as
    well, so the guard of each setter lets it through and it is stored. *)
Theorem scan_setters_store_nan (s : scanner) :
  (0 <? nan)%float = false /\
  scan_angle (st (set_scan_angle (Ok nan) s)) = nan /\
  scan_step (st (set_scan_step (Ok nan) s)) = nan /\
  scan_speed (st (set_scan_speed (Ok nan) s)) = nan.
Proof. repeat split. Qed.

(** C9.  [stop_scan] on a session that is not scanning changes no attribute
    of the application and returns normally (the status line is set to
    "Scan stopped" all the same); and [stop_scan] after [stop_scan] is
    [stop_scan]. *)
Theorem stop_scan_idle_noop (s : scanner) :
  scanning s = false ->
  st (stop_scan s) = s /\
  res (stop_scan s) = Ok tt /\
  tr (stop_scan s) = [Status "Status: Scan stopped"] /\
  stop_scan (st (stop_scan s)) = stop_scan s.
Proof.
  intros H. unfold stop_scan. unfold_method.
  destruct s; simpl in *; subst; repeat split.
Qed.

Lemma stop_scan_idle_noop_witness :
  scanning initial_state = false /\ st (stop_scan initial_state) = initial_state.
Proof.
  split; [ reflexivity | ].
  exact (proj1 (stop_scan_idle_noop initial_state eq_refl)).
Defined.

(** [stop_scan] is idempotent from every state. *)
Lemma stop_scan_idempotent (s : scanner) :
  st (stop_scan (st (stop_scan s))) = st (stop_scan s).
Proof. reflexivity. Qed.

(** [track_moon] on a mount that is not initialised sends nothing to the
    mount and leaves the session not scanning. *)
Lemma track_moon_refuses (env : scan_env) (s : scanner) :
  mount_initialized s = false ->
  mount_commands (tr (track_moon env s)) = [] /\
  scanning (st (track_moon env s)) = false /\
  res (track_moon env s) = Ok tt.
Proof.
  intros H. unfold track_moon. unfold_method. rewrite H. simpl.
  repeat split.
Qed.

(** [move_mount_manual] without an automation telescope sends nothing. *)
Lemma move_mount_manual_refuses (slew : result float) (moved : result unit)
  (direction : string) (s : scanner) :
  ascom_telescope s = None ->
  tr (move_mount_manual slew moved direction s) = [ErrorBox "Mount not initialized."] /\
  st (move_mount_manual slew moved direction s) = s.
Proof.
  intros H. unfold move_mount_manual. unfold_method. rewrite H. simpl.
  split; reflexivity.
Qed.

(** C8, as amended.  [start_scan] answers true only when both sensors are
    running; it does not look at the mount.  The mount is checked by
    [track_moon], the thread that [start_scan] starts, before it sends any
    command: on a mount that is not initialised it sends none and leaves the
    session not scanning.  [toggle_record] turns recording on only when both
    sensors are running. *)
Theorem session_start_preconditions :
  (forall started s,
      res (start_scan started s) = Ok true ->
      camera_running s = true /\ spectrograph_running s = true) /\
  (forall started s,
      recording s = false ->
      recording (st (toggle_record started s)) = true ->
      camera_running s = true /\ spectrograph_running s = true) /\
  (forall env s,
      mount_initialized s = false ->
      mount_commands (tr (track_moon env s)) = [] /\
      scanning (st (track_moon env s)) = false).
Proof.
  split; [ | split ].
  - intros started s. unfold start_scan. unfold_method.
    destruct (camera_running s), (spectrograph_running s), started;
      simpl; intros H; try discriminate H; auto.
  - intros started s Hrec. unfold toggle_record. unfold_method.
    rewrite Hrec.
    destruct (camera_running s), (spectrograph_running s);
      simpl; intros H; auto; try congruence.
  - intros env s H. destruct (track_moon_refuses env s H) as (? & ? & ?). auto.
Qed.

Lemma session_start_preconditions_witness :
  res (start_scan (Ok tt) sensing_state) = Ok true /\
  camera_running sensing_state = true /\ spectrograph_running sensing_state = true.
Proof.
  split; [ reflexivity | ].
  exact (proj1 session_start_preconditions (Ok tt) sensing_state eq_refl).
Defined.

(** C8, as stated, fails: with both sensors running and no mount
    initialised, [start_scan] answers true. *)
Lemma start_scan_true_without_mount :
  mount_initialized sensing_state = false /\
  mount sensing_state = None /\
  ascom_telescope sensing_state = None /\
  res (start_scan (Ok tt) sensing_state) = Ok true /\
  tr (start_scan (Ok tt) sensing_state) = [Spawn TrackMoon].
Proof. repeat split. Qed.

(** ** The sweep *)

Lemma apply_writes_keeps (ws : list write) (s : scanner) :
  ascom_telescope (apply_writes ws s) = ascom_telescope s /\
  mount (apply_writes ws s) = mount s /\
  mount_initialized (apply_writes ws s) = mount_initialized s /\
  spectrograph (apply_writes ws s) = spectrograph s /\
  camera (apply_writes ws s) = camera s.
Proof.
  unfold apply_writes.
  revert s. induction ws as [ | w ws IH ]; intros s; simpl; [ repeat split | ].
  destruct (IH (apply_write w s)) as (H1 & H2 & H3 & H4 & H5).
  rewrite H1, H2, H3, H4, H5. destruct w; repeat split.
Qed.

(** Writes that leave the sample counter alone leave it as it was. *)
Lemma apply_writes_counter (ws : list write) (s : scanner) :
  forallb counter_free ws = true ->
  sample_count (apply_writes ws s) = sample_count s.
Proof.
  unfold apply_writes.
  revert s. induction ws as [ | w ws IH ]; intros s H; simpl in *;
    [ reflexivity | ].
  apply andb_prop in H. destruct H as (Hw & Hws).
  rewrite (IH _ Hws). destruct w; try reflexivity. discriminate Hw.
Qed.

(** [move_mount] returns normally, leaves the application as it was and
    sends at most one command that sets the mount moving. *)
Lemma move_mount_facts (io : move_io) (angle : float) (s : scanner) :
  res (move_mount io angle s) = Ok tt /\
  st (move_mount io angle s) = s /\
  (count is_move_command (tr (move_mount io angle s)) <= 1)%nat.
Proof.
  unfold move_mount, send_mount_command.
  run_method; unfold count; simpl; repeat split; try lia;
    repeat match goal with
      | |- context [if ?b then _ else _] => destruct b
      end; simpl; lia.
Qed.

(** With the automation telescope every move goes to axis 0; a move that
    was sent has a rate other than zero, because the duration is computed
    first and dividing by a zero rate raises. *)
Lemma scan_step_body_facts (env : scan_env) (i : Z) (s : scanner) :
  is_ok (res (scan_step_body env i s)) = true /\
  ascom_telescope (st (scan_step_body env i s)) = ascom_telescope s /\
  (count is_move_command (tr (scan_step_body env i s)) <= 1)%nat.
Proof.
  unfold scan_step_body.
  destruct (apply_writes_keeps (step_writes env i) s) as (Htel & _).
  set (s1 := apply_writes (step_writes env i) s) in *.
  unfold_method. fold s1.
  destruct (scanning s1); cbn [negb].
  2:{ repeat split; auto. }
  match goal with
  | |- context [move_mount ?io ?a s1] =>
      pose proof (move_mount_facts io a s1) as (Hres & Hst & Hcount);
      destruct (move_mount io a s1) as [ r s2 t ]
  end.
  cbn [res st tr] in Hres, Hst, Hcount. subst r s2.
  destruct (py_div (scan_step s1) (scan_speed s1));
    try destruct (step_sleep env i); cbn [res st tr is_ok app];
    rewrite ?app_nil_r, ?count_app; unfold count at 2; simpl;
    repeat split; auto; lia.
Qed.

Lemma scan_loop_facts (env : scan_env) (n : Z) (s : scanner) :
  is_ok (res (scan_loop env n s)) = true /\
  ascom_telescope (st (scan_loop env n s)) = ascom_telescope s /\
  (count is_move_command (tr (scan_loop env n s)) <= Z.to_nat n)%nat.
Proof.
  unfold scan_loop. split; [ | split ].
  - apply for_each_returns. intros x s'. apply scan_step_body_facts.
  - apply (for_each_invariant (scan_step_body env)
             (fun s' => ascom_telescope s' = ascom_telescope s)); [ | reflexivity ].
    intros x s' H. destruct (scan_step_body_facts env x s') as (_ & Ht & _).
    congruence.
  - pose proof (for_each_count (scan_step_body env) is_move_command 1 (range n)
                  (fun x s' => proj2 (proj2 (scan_step_body_facts env x s'))) s) as H.
    rewrite length_range in H. lia.
Qed.

(** What [stop_mount_manual] sends to the mount. *)
Lemma stop_mount_manual_commands (stop0 stop1 : result unit) (s : scanner) :
  res (stop_mount_manual stop0 stop1 s) = Ok tt /\
  mount_commands (tr (stop_mount_manual stop0 stop1 s))
  = exit_commands (ascom_telescope s) stop0.
Proof.
  unfold stop_mount_manual, exit_commands. unfold_method.
  destruct (ascom_telescope s); destruct stop0 as [ [] | ];
    destruct stop1 as [ [] | ]; split; reflexivity.
Qed.

(** C1, as amended.  A run of [track_moon] on an initialised mount whose
    step count [n] was computed (a scan that completes or is cancelled)
    emits: the sweep, then what one call of [stop_mount_manual] emits, then
    the completion status.  The sweep holds at most [n] commands that set
    the mount moving.  The one call of [stop_mount_manual] commands the
    mount only through the automation telescope: with it the exit commands
    are [MoveAxis(0, 0)] and, unless that raised, [MoveAxis(1, 0)]; with the
    serial back end alone there is no exit command.  The run returns
    normally and leaves the session not scanning. *)
Theorem track_moon_exit_and_moves (env : scan_env) (s : scanner) (n : Z) :
  mount_initialized s = true ->
  num_steps (scan_angle s) (scan_step s) = Ok n ->
  let s1 := with_motor_speed calculate_motor_speed (with_scanning true s) in
  let sweep := scan_loop env n s1 in
  let exit := stop_mount_manual (stop_axis0 env) (stop_axis1 env)
                (with_scanning false (st sweep)) in
  tr (track_moon env s)
  = Status "Status: Scan Started" :: tr sweep ++ tr exit
      ++ [Status "Status: Scan completed"] /\
  (count is_move_command (tr sweep) <= Z.to_nat n)%nat /\
  mount_commands (tr exit) = exit_commands (ascom_telescope s) (stop_axis0 env) /\
  mount_commands (tr (track_moon env s))
  = mount_commands (tr sweep) ++ exit_commands (ascom_telescope s) (stop_axis0 env) /\
  res (track_moon env s) = Ok tt /\
  scanning (st (track_moon env s)) = false.
Proof.
  intros Hinit Hn s1 sweep exit.
  destruct (scan_loop_facts env n s1) as (Hok & Htel & Hcount).
  destruct (stop_mount_manual_commands (stop_axis0 env) (stop_axis1 env)
              (with_scanning false (st sweep))) as (Hexit_res & Hexit).
  fold sweep in Hok, Htel, Hcount. fold exit in Hexit_res, Hexit.
  assert (Hexit_st : scanning (st exit) = false).
  { unfold exit, stop_mount_manual. run_method; reflexivity. }
  assert (Hrun :
    track_moon env s
    = mkOutcome (Ok tt) (st exit)
        (Status "Status: Scan Started" :: tr sweep ++ tr exit
           ++ [Status "Status: Scan completed"])).
  { unfold track_moon. unfold_method. rewrite Hinit.
    cbn [negb scan_angle scan_step with_motor_speed with_scanning].
    rewrite Hn. unfold_method. fold s1. fold sweep.
    clearbody sweep. destruct sweep as [ [ f | e ] s2 t ]; [ | discriminate Hok ].
    subst exit. cbn [st tr] in *.
    destruct (stop_mount_manual (stop_axis0 env) (stop_axis1 env)
                (with_scanning false s2)) as [ r3 s3 t3 ].
    cbn [res st tr] in *. subst r3.
    cbn [app]. rewrite ?app_nil_r. reflexivity. }
  rewrite Hrun. cbn [res st tr].
  assert (Htel' : ascom_telescope (with_scanning false (st sweep)) = ascom_telescope s).
  { change (ascom_telescope (st sweep) = ascom_telescope s1). exact Htel. }
  repeat split; auto.
  - rewrite Hexit, Htel'. reflexivity.
  - change (Status "Status: Scan Started" :: tr sweep ++ tr exit
              ++ [Status "Status: Scan completed"])
      with ([Status "Status: Scan Started"] ++ tr sweep ++ tr exit
              ++ [Status "Status: Scan completed"]).
    rewrite !mount_commands_app, Hexit, Htel'. simpl.
    rewrite app_nil_r. reflexivity.
Qed.

Lemma track_moon_exit_and_moves_witness :
  mount_initialized ascom_state = true /\
  num_steps (scan_angle ascom_state) (scan_step ascom_state) = Ok 3 /\
  count is_move_command (mount_commands (tr (track_moon calm_scan_env ascom_state))) = 3%nat /\
  mount_commands (tr (track_moon calm_scan_env ascom_state))
  = mount_commands
      (tr (scan_loop calm_scan_env 3
             (with_motor_speed calculate_motor_speed (with_scanning true ascom_state))))
      ++ [MoveAxis 0 0; MoveAxis 1 0].
Proof.
  split; [ reflexivity | split; [ reflexivity | split; [ reflexivity | ] ] ].
  exact (proj1 (proj2 (proj2 (proj2
           (track_moon_exit_and_moves calm_scan_env ascom_state 3 eq_refl eq_refl))))).
Defined.

(** C1, as stated, fails.  On a mount connected over the serial port the
    sweep sends its three commands and the run ends without any stop
    command: [stop_mount_manual] speaks to the automation telescope only.
    Through the automation driver the run ends with two stop commands, one
    per axis, after one more at the end of each step. *)
Lemma serial_scan_ends_without_stop :
  mount_initialized serial_state = true /\
  num_steps (scan_angle serial_state) (scan_step serial_state) = Ok 3 /\
  res (track_moon calm_scan_env serial_state) = Ok tt /\
  mount_commands (tr (track_moon calm_scan_env serial_state))
  = [SerialWrite "RA+00000"; SerialWrite "RA+00001"; SerialWrite "RA+00001"] /\
  count is_stop_command (tr (track_moon calm_scan_env serial_state)) = 0%nat /\
  count is_stop_command (tr (track_moon calm_scan_env ascom_state)) = 5%nat.
Proof. repeat split; vm_compute; reflexivity. Qed.

(** A sweep of three steps cancelled during its first: the step under way
    is finished, no other is begun, and the exit commands follow. *)
Example cancelled_scan_finishes_its_step :
  mount_commands (tr (track_moon cancelling_scan_env ascom_state))
  = [MoveAxis 0 (1 / 3600)%float; MoveAxis 0 0; MoveAxis 0 0; MoveAxis 1 0] /\
  scanning (st (track_moon cancelling_scan_env ascom_state)) = false.
Proof. split; vm_compute; reflexivity. Qed.

(** ** Port recovery *)

Lemma wmi_rung_facts (port : string) (io : attempt_io) (s : scanner) :
  res (wmi_rung port io s) = Ok tt /\
  st (wmi_rung port io s) = s /\
  exists t, tr (wmi_rung port io s) = WmiScan :: t /\
            Forall (fun e => is_termination e = true) t.
Proof.
  unfold wmi_rung. unfold_method.
  destruct (wmi_scan io) as [ procs | e ]; cbn [res st tr app].
  2:{ repeat split; eauto. }
  match goal with
  | |- context [for_each procs ?b s] => set (body := b)
  end.
  assert (Hbody : forall proc s',
             is_ok (res (body proc s')) = true /\ st (body proc s') = s' /\
             Forall (fun e => is_termination e = true) (tr (body proc s'))).
  { intros proc s'. unfold body. run_method; repeat split;
      repeat constructor. }
  pose proof (for_each_returns body procs (fun x s' => proj1 (Hbody x s')) s) as Hok.
  pose proof (for_each_state body procs (fun x s' => proj1 (proj2 (Hbody x s'))) s) as Hst.
  pose proof (for_each_events body (fun e => is_termination e = true) procs
                (fun x s' _ => proj2 (proj2 (Hbody x s'))) s) as Hev.
  destruct (for_each procs body s) as [ [ f | e ] s' t ]; [ | discriminate Hok ].
  cbn [res st tr app] in *. subst s'. rewrite app_nil_r.
  repeat split; eauto.
Qed.

Lemma psutil_rung_facts (port : string) (io : attempt_io) (s : scanner) :
  is_ok (res (psutil_rung port io s)) = true /\
  st (psutil_rung port io s) = s /\
  exists t, tr (psutil_rung port io s) = PsutilScan :: t /\
            Forall (fun e => is_termination e = true) t.
Proof.
  unfold psutil_rung. unfold_method.
  destruct (ps_scan io) as [ procs | e ]; cbn [res st tr app].
  2:{ repeat split; eauto. }
  match goal with
  | |- context [for_each procs ?b s] => set (body := b)
  end.
  assert (Hbody : forall proc s',
             st (body proc s') = s' /\
             Forall (fun e => is_termination e = true) (tr (body proc s'))).
  { intros proc s'. unfold body.
    destruct (pp_open_files proc) as [ files | e ]; cbn [res st tr app].
    2:{ destruct e; cbn; split; constructor. }
    match goal with
    | |- context [for_each files ?b s'] => set (inner := b)
    end.
    assert (Hinner : forall path s'',
               st (inner path s'') = s'' /\
               Forall (fun e => is_termination e = true) (tr (inner path s''))).
    { intros path s''. unfold inner. run_method; split;
        repeat constructor. }
    pose proof (for_each_state inner files (fun x z => proj1 (Hinner x z)) s') as Hst.
    pose proof (for_each_events inner (fun e => is_termination e = true) files
                  (fun x z _ => proj2 (Hinner x z)) s') as Hev.
    destruct (for_each files inner s') as [ [ f | e ] z t ];
      cbn [res st tr app] in *; subst z;
      [ | destruct e; cbn [res st tr] ];
      rewrite ?app_nil_r; split; auto. }
  pose proof (for_each_state body procs (fun x z => proj1 (Hbody x z)) s) as Hst.
  pose proof (for_each_events body (fun e => is_termination e = true) procs
                (fun x z _ => proj2 (Hbody x z)) s) as Hev.
  destruct (for_each procs body s) as [ [ f | e ] z t ];
    cbn [res st tr app] in *; subst z;
    rewrite ?app_nil_r; repeat split; eauto.
Qed.

Lemma devcon_rung_facts (port : string) (io : attempt_io) (s : scanner) :
  is_ok (res (devcon_rung port io s)) = true /\
  st (devcon_rung port io s) = s /\
  (tr (devcon_rung port io s) = [] \/
   tr (devcon_rung port io s) = [DevconRestart port]).
Proof.
  unfold devcon_rung. run_method; repeat split; auto.
Qed.

Lemma termination_is_no_rung (t : list event) :
  Forall (fun e => is_termination e = true) t ->
  count is_wmi_scan t = 0%nat /\
  count is_psutil_scan t = 0%nat /\
  count is_devcon_restart t = 0%nat /\
  Forall pause_within_backoff t.
Proof.
  intros H. repeat split.
  1-3: apply count_none; eapply Forall_impl; [ | exact H ];
       intros e He; destruct e; simpl in *; congruence.
  eapply Forall_impl; [ | exact H ].
  intros e He; destruct e; simpl in *; try congruence; auto.
  apply Z.eqb_eq in He. auto.
Qed.

Lemma termination_is_reset_event (t : list event) :
  Forall (fun e => is_termination e = true) t ->
  Forall (fun e => is_reset_event e = true) t.
Proof.
  intros H. eapply Forall_impl; [ | exact H ].
  intros e He. destruct e; simpl in *; congruence.
Qed.

Lemma reset_event_is_recovery (t : list event) :
  Forall (fun e => is_reset_event e = true) t ->
  Forall (fun e => is_recovery_event e = true) t.
Proof.
  intros H. eapply Forall_impl; [ | exact H ].
  intros e He. destruct e; simpl in *; congruence.
Qed.

Lemma recovery_is_no_dispatch (t : list event) :
  Forall (fun e => is_recovery_event e = true) t ->
  Forall (fun e => is_dispatch e = false) t.
Proof.
  intros H. eapply Forall_impl; [ | exact H ].
  intros e He. destruct e; simpl in *; congruence.
Qed.

Lemma reset_event_is_no_force_rung (t : list event) :
  Forall (fun e => is_reset_event e = true) t ->
  count is_handle_exe t = 0%nat /\
  count is_usb_reset t = 0%nat /\
  count is_pnputil_restart t = 0%nat.
Proof.
  intros H. repeat split;
    apply count_none; (eapply Forall_impl; [ | exact H ]);
    intros e He; destruct e; simpl in *; congruence.
Qed.

Ltac count_events :=
  repeat first [ rewrite count_app | rewrite count_cons | rewrite count_nil ].

Ltac all_events :=
  repeat match goal with
    | |- Forall _ (_ :: _) => apply Forall_cons
    | |- Forall _ (_ ++ _) => apply Forall_app; split
    | |- Forall _ [] => apply Forall_nil
    end.

(** One attempt climbs each rung at most once and pauses by the backoff. *)
Lemma reset_attempt_facts (env : reset_env) (port : string) (attempt : Z) (s : scanner) :
  let o := reset_attempt env port attempt s in
  is_ok (res o) = true /\
  st o = s /\
  (count is_wmi_scan (tr o) <= 1)%nat /\
  (count is_psutil_scan (tr o) <= 1)%nat /\
  (count is_devcon_restart (tr o) <= 1)%nat /\
  (In attempt (range 3) -> Forall pause_within_backoff (tr o)) /\
  Forall (fun e => is_reset_event e = true) (tr o).
Proof.
  unfold reset_attempt.
  set (io := attempt_io_at env attempt).
  assert (Hsleep : In attempt (range 3) ->
                   pause_within_backoff (Sleep (2 ^ attempt))).
  { intros Hin. simpl. simpl in Hin.
    destruct Hin as [ <- | [ <- | [ <- | [] ] ] ]; auto. }
  destruct (wmi_rung_facts port io s) as (Hwr & Hws & tw & Hwt & Hwterm).
  destruct (termination_is_no_rung tw Hwterm) as (Hw1 & Hw2 & Hw3 & Hw4).
  pose proof (termination_is_reset_event tw Hwterm) as Hw5.
  destruct (psutil_rung_facts port io s) as (Hpr & Hps & tp & Hpt & Hterm).
  destruct (termination_is_no_rung tp Hterm) as (Hp1 & Hp2 & Hp3 & Hp4).
  pose proof (termination_is_reset_event tp Hterm) as Hp5.
  destruct (devcon_rung_facts port io s) as (Hdr & Hds & Hdt).
  destruct (wmi env); unfold_method;
    [ destruct (wmi_rung port io s) as [ rw sw tw' ];
      cbn [res st tr] in Hwr, Hws, Hwt; subst rw sw tw' | ];
    destruct (psutil_rung port io s) as [ [ f | e ] sp tp' ];
    try discriminate Hpr; cbn [res st tr] in Hps, Hpt; subst sp tp';
    destruct f as [ | | b ];
    try (destruct (devcon_rung port io s) as [ [ g | e ] sd td ];
         try discriminate Hdr; cbn [res st tr] in Hds, Hdt; subst sd;
         destruct Hdt as [ -> | -> ]; destruct g as [ | | b ]);
    cbn [res st tr is_ok app];
    rewrite ?app_nil_r; count_events;
    rewrite ?Hw1, ?Hw2, ?Hw3, ?Hp1, ?Hp2, ?Hp3;
    cbn [is_wmi_scan is_psutil_scan is_devcon_restart];
    (repeat split; auto; try lia);
    try intros Hin; all_events; try exact (Hsleep Hin); simpl; auto.
Qed.

Lemma reset_com_port_facts (env : reset_env) (port : string) (s : scanner) :
  let o := reset_com_port env port s in
  (exists b, res o = Ok b) /\
  st o = s /\
  (count is_wmi_scan (tr o) <= 3)%nat /\
  (count is_psutil_scan (tr o) <= 3)%nat /\
  (count is_devcon_restart (tr o) <= 3)%nat /\
  Forall pause_within_backoff (tr o) /\
  Forall (fun e => is_reset_event e = true) (tr o).
Proof.
  unfold reset_com_port. unfold_method.
  set (body := reset_attempt env port).
  pose proof (for_each_returns body (range 3)
                (fun x z => proj1 (reset_attempt_facts env port x z)) s) as Hok.
  pose proof (for_each_state body (range 3)
                (fun x z => proj1 (proj2 (reset_attempt_facts env port x z))) s) as Hst.
  pose proof (for_each_count body is_wmi_scan 1 (range 3)
                (fun x z => proj1 (proj2 (proj2 (reset_attempt_facts env port x z)))) s)
    as Hc1.
  pose proof (for_each_count body is_psutil_scan 1 (range 3)
                (fun x z => proj1 (proj2 (proj2 (proj2
                   (reset_attempt_facts env port x z))))) s) as Hc2.
  pose proof (for_each_count body is_devcon_restart 1 (range 3)
                (fun x z => proj1 (proj2 (proj2 (proj2 (proj2
                   (reset_attempt_facts env port x z)))))) s) as Hc3.
  pose proof (for_each_events body pause_within_backoff (range 3)
                (fun x z Hin => proj1 (proj2 (proj2 (proj2 (proj2 (proj2
                   (reset_attempt_facts env port x z)))))) Hin) s) as Hev.
  pose proof (for_each_events body (fun e => is_reset_event e = true) (range 3)
                (fun x z _ => proj2 (proj2 (proj2 (proj2 (proj2 (proj2
                   (reset_attempt_facts env port x z))))))) s) as Hre.
  rewrite length_range in Hc1, Hc2, Hc3.
  change (Z.to_nat 3) with 3%nat in Hc1, Hc2, Hc3.
  destruct (for_each (range 3) body s) as [ [ f | e ] z t ];
    [ | discriminate Hok ].
  cbn [res st tr] in *. subst z.
  destruct f; cbn [res st tr]; rewrite app_nil_r;
    repeat split; eauto; lia.
Qed.

(** *** The forced reset *)

Lemma termination_is_no_force_rung (t : list event) :
  Forall (fun e => is_termination e = true) t ->
  count is_handle_exe t = 0%nat /\
  count is_usb_reset t = 0%nat /\
  count is_pnputil_restart t = 0%nat.
Proof.
  intros H. repeat split;
    apply count_none; (eapply Forall_impl; [ | exact H ]);
    intros e He; destruct e; simpl in *; congruence.
Qed.

Lemma kill_rung_facts (env : force_env) (s : scanner) :
  exists r t, kill_rung env s = mkOutcome r s t /\
              Forall (fun e => is_termination e = true) t.
Proof.
  unfold kill_rung. unfold_method.
  destruct (kill_scan env) as [ procs | e ]; [ | eauto ].
  match goal with
  | |- context [for_each procs ?b s] => set (body := b)
  end.
  assert (Hbody : forall proc z,
             st (body proc z) = z /\
             Forall (fun e => is_termination e = true) (tr (body proc z))).
  { intros proc z. unfold body. run_method; split; repeat constructor. }
  pose proof (for_each_state body procs (fun x z => proj1 (Hbody x z)) s) as Hst.
  pose proof (for_each_events body (fun e => is_termination e = true) procs
                (fun x z _ => proj2 (Hbody x z)) s) as Hev.
  destruct (for_each procs body s) as [ [ f | e ] z t ];
    cbn [res st tr app] in *; subst z; rewrite ?app_nil_r; eauto.
Qed.

Lemma handle_rung_facts (env : force_env) (s : scanner) :
  exists r t, handle_rung env s = mkOutcome r s t /\
              (t = [] \/
               exists th, t = HandleExe :: th /\
                          Forall (fun e => is_termination e = true) th).
Proof.
  unfold handle_rung. unfold_method.
  destruct (handle_exists env); [ | eauto ].
  destruct (handle_run env) as [ lines | e ].
  2:{ destruct e; cbn; eauto 8. }
  match goal with
  | |- context [for_each lines ?b s] => set (body := b)
  end.
  assert (Hbody : forall line z,
             st (body line z) = z /\
             Forall (fun e => is_termination e = true) (tr (body line z))).
  { intros line z. unfold body. run_method; split; repeat constructor. }
  pose proof (for_each_state body lines (fun x z => proj1 (Hbody x z)) s) as Hst.
  pose proof (for_each_events body (fun e => is_termination e = true) lines
                (fun x z _ => proj2 (Hbody x z)) s) as Hev.
  destruct (for_each lines body s) as [ [ f | e ] z t ];
    cbn [res st tr app] in *; subst z; [ | destruct e ];
    cbn [res st tr app]; rewrite ?app_nil_r; eauto 8.
Qed.

Lemma usb_rung_facts (env : force_env) (s : scanner) :
  usb_rung env s = mkOutcome (Ok tt) s [UsbReset].
Proof. unfold usb_rung. run_method; reflexivity. Qed.

Lemma pnputil_rung_facts (env : force_env) (s : scanner) :
  pnputil_rung env s = mkOutcome (Ok tt) s [PnputilRestart].
Proof. unfold pnputil_rung. run_method; reflexivity. Qed.

Lemma force_devcon_rung_facts (env : force_env) (s : scanner) :
  force_devcon_rung env s = mkOutcome (Ok tt) s [] \/
  force_devcon_rung env s = mkOutcome (Ok tt) s [DevconRestart "COM3"].
Proof. unfold force_devcon_rung. run_method; auto. Qed.

Lemma force_com3_reset_facts (env : force_env) (s : scanner) :
  exists t,
    force_com3_reset env s = mkOutcome (Ok tt) s t /\
    (count is_handle_exe t <= 1)%nat /\
    (count is_usb_reset t <= 1)%nat /\
    (count is_pnputil_restart t <= 1)%nat /\
    (count is_wmi_scan t <= 3)%nat /\
    (count is_psutil_scan t <= 3)%nat /\
    (count is_devcon_restart t <= 4)%nat /\
    Forall pause_within_backoff t /\
    Forall (fun e => is_recovery_event e = true) t.
Proof.
  unfold force_com3_reset.
  destruct (kill_rung_facts env s) as (rk & tk & Hk & Hkterm).
  destruct (termination_is_no_rung tk Hkterm) as (Hk1 & Hk2 & Hk3 & Hk4).
  destruct (termination_is_no_force_rung tk Hkterm) as (Hk5 & Hk6 & Hk7).
  pose proof (reset_event_is_recovery tk (termination_is_reset_event tk Hkterm))
    as Hk8.
  destruct (handle_rung_facts env s) as (rh & th & Hh & Hhshape).
  assert (Hhc : (count is_handle_exe th <= 1)%nat /\
                count is_usb_reset th = 0%nat /\
                count is_pnputil_restart th = 0%nat /\
                count is_wmi_scan th = 0%nat /\
                count is_psutil_scan th = 0%nat /\
                count is_devcon_restart th = 0%nat /\
                Forall pause_within_backoff th /\
                Forall (fun e => is_recovery_event e = true) th).
  { destruct Hhshape as [ -> | (t' & -> & Hterm) ].
    - repeat split; auto.
    - destruct (termination_is_no_rung t' Hterm) as (H1 & H2 & H3 & H4).
      destruct (termination_is_no_force_rung t' Hterm) as (H5 & H6 & H7).
      pose proof (reset_event_is_recovery t'
                    (termination_is_reset_event t' Hterm)) as H8.
      rewrite !count_cons, H1, H2, H3, H5, H6, H7.
      repeat split; auto; constructor; simpl; auto. }
  destruct Hhc as (Hh1 & Hh2 & Hh3 & Hh4 & Hh5 & Hh6 & Hh7 & Hh8).
  pose proof (usb_rung_facts env s) as Hu.
  pose proof (pnputil_rung_facts env s) as Hp.
  destruct (reset_com_port_facts (final_reset env) "COM3" s)
    as ((b & Hrb) & Hrs & Hr1 & Hr2 & Hr3 & Hr4 & Hr5).
  destruct (reset_com_port (final_reset env) "COM3" s) as [ rr sr t_r ] eqn:Hr.
  cbn [res st tr] in Hrb, Hrs, Hr1, Hr2, Hr3, Hr4, Hr5. subst rr sr.
  destruct (reset_event_is_no_force_rung t_r Hr5) as (Hr6 & Hr7 & Hr8).
  pose proof (reset_event_is_recovery t_r Hr5) as Hr9.
  unfold_method.
  destruct (com3_free env); rewrite Hk; destruct rk as [ [] | e ];
    cbv beta iota;
    try (rewrite Hh; destruct rh as [ [] | e ]; cbv beta iota);
    try (rewrite Hu; cbv beta iota; rewrite Hp; cbv beta iota;
         destruct (force_devcon_rung_facts env s) as [ -> | -> ];
         cbv beta iota; rewrite Hr; destruct b; cbv beta iota);
    cbn [res st tr app];
    (eexists; split; [ reflexivity | ]);
    count_events;
    rewrite ?Hk1, ?Hk2, ?Hk3, ?Hk5, ?Hk6, ?Hk7, ?Hh2, ?Hh3, ?Hh4, ?Hh5, ?Hh6,
      ?Hr6, ?Hr7, ?Hr8;
    cbn [is_handle_exe is_usb_reset is_pnputil_restart is_wmi_scan
         is_psutil_scan is_devcon_restart];
    (repeat split; try lia);
    all_events; simpl; auto.
Qed.

(** C6.  Every call of [reset_com_port] returns an answer, true or false,
    and raises nothing, whatever the operating system answers, be it an
    error at every call.  It makes at most three attempts: each rung (the
    WMI scan, the psutil scan, the devcon restart) is climbed at most three
    times, and every pause is of 1, 2 or 4 seconds.  [force_com3_reset]
    returns normally too; it runs each of its own rungs at most once and
    ends with one call of [reset_com_port].  Neither changes the
    application object.  (The model has every operating-system call come
    back, with an answer or an error.) *)
Theorem port_recovery_bounded (env : reset_env) (fenv : force_env)
  (port : string) (s : scanner) :
  let o := reset_com_port env port s in
  ((res o = Ok true \/ res o = Ok false) /\
   st o = s /\
   (count is_wmi_scan (tr o) <= 3)%nat /\
   (count is_psutil_scan (tr o) <= 3)%nat /\
   (count is_devcon_restart (tr o) <= 3)%nat /\
   Forall pause_within_backoff (tr o)) /\
  let f := force_com3_reset fenv s in
  res f = Ok tt /\
  st f = s /\
  (count is_handle_exe (tr f) <= 1)%nat /\
  (count is_usb_reset (tr f) <= 1)%nat /\
  (count is_pnputil_restart (tr f) <= 1)%nat /\
  (count is_wmi_scan (tr f) <= 3)%nat /\
  (count is_psutil_scan (tr f) <= 3)%nat /\
  (count is_devcon_restart (tr f) <= 4)%nat /\
  Forall pause_within_backoff (tr f).
Proof.
  intros o. split.
  - destruct (reset_com_port_facts env port s)
      as ((b & Hb) & H1 & H2 & H3 & H4 & H5 & _).
    fold o in Hb, H1, H2, H3, H4, H5. repeat split; auto.
    rewrite Hb. destruct b; auto.
  - intros f. destruct (force_com3_reset_facts fenv s)
      as (t & Ht & H1 & H2 & H3 & H4 & H5 & H6 & H7 & _).
    subst f. rewrite Ht. cbn [res st tr]. repeat split; auto.
Qed.

(** The two methods in the shape in which their callers meet them. *)
Lemma reset_com_port_run (env : reset_env) (port : string) (s : scanner) :
  exists b t, reset_com_port env port s = mkOutcome (Ok b) s t /\
              Forall (fun e => is_recovery_event e = true) t.
Proof.
  destruct (reset_com_port_facts env port s)
    as ((b & Hb) & Hs & _ & _ & _ & _ & Hev).
  destruct (reset_com_port env port s) as [ r z t ].
  cbn [res st tr] in *. subst r z.
  exists b, t. split; [ reflexivity | ].
  now apply reset_event_is_recovery.
Qed.

Lemma force_com3_reset_run (env : force_env) (s : scanner) :
  exists t, force_com3_reset env s = mkOutcome (Ok tt) s t /\
            Forall (fun e => is_recovery_event e = true) t.
Proof.
  destruct (force_com3_reset_facts env s) as (t & Ht & H).
  exists t. split; [ exact Ht | apply H ].
Qed.

(** ** Mount initialisation *)

Ltac step_recovery :=
  match goal with
  | |- context [reset_com_port ?e ?p ?z] =>
      let b := fresh "b" in
      let t := fresh "t" in
      let H := fresh "Hrun" in
      let Hev := fresh "Hev" in
      destruct (reset_com_port_run e p z) as (b & t & H & Hev);
      rewrite H; clear H; cbv beta iota
  | |- context [force_com3_reset ?e ?z] =>
      let t := fresh "t" in
      let H := fresh "Hrun" in
      let Hev := fresh "Hev" in
      destruct (force_com3_reset_run e z) as (t & H & Hev);
      rewrite H; clear H; cbv beta iota
  end.

Lemma serial_attempt_facts (env : mount_env) (k : Z) (port : string)
  (attempt : Z) (s : scanner) :
  let o := serial_attempt env k port attempt s in
  Forall (fun e => is_dispatch e = false) (tr o) /\
  ascom_telescope (st o) = ascom_telescope s /\
  (mount_initialized s = false ->
   mount_initialized (st o) = false \/
   (res o = Ok Break /\ mount (st o) <> None /\ mount_initialized (st o) = true)).
Proof.
  unfold serial_attempt, send_mount_command, close_mount, fix_com_port_permissions.
  set (io := serial_io_at env k attempt).
  unfold_method.
  repeat (first [ step_recovery | case_method ]; unfold_method).
  all: cbn [res st tr app].
  all: repeat match goal with
         | H : Forall (fun e => is_recovery_event e = true) _ |- _ =>
             apply recovery_is_no_dispatch in H
         end.
  all: split; [ all_events; auto; reflexivity
              | split; [ reflexivity
                       | intros Hinit;
                         first [ left; exact Hinit
                               | right; repeat split; discriminate ] ] ].
Qed.

Lemma serial_port_body_facts (env : mount_env) (available_ports : list string)
  (place : Z * string) (s : scanner) :
  let o := serial_port_body env available_ports place s in
  Forall (fun e => is_dispatch e = false) (tr o) /\
  ascom_telescope (st o) = ascom_telescope s /\
  (serial_pending s ->
   serial_pending (st o) \/ (res o = Ok Break /\ serial_connected (st o))).
Proof.
  destruct place as [ k port ]. unfold serial_port_body.
  destruct (negb (existsb (String.eqb port) available_ports)).
  { cbn. repeat split; auto. }
  set (body := serial_attempt env k port).
  pose proof (for_each_events body (fun e => is_dispatch e = false) (range 10)
                (fun x z _ => proj1 (serial_attempt_facts env k port x z)) s) as Hev.
  pose proof (for_each_invariant body
                (fun z => ascom_telescope z = ascom_telescope s) (range 10)) as Htel.
  pose proof (for_each_until body serial_pending serial_connected (range 10)
                (fun x z => proj2 (proj2 (serial_attempt_facts env k port x z))) s)
    as Huntil.
  assert (Htel' : ascom_telescope (st (for_each (range 10) body s))
                  = ascom_telescope s).
  { apply Htel; [ | reflexivity ].
    intros x z Hz. rewrite <- Hz.
    apply (proj1 (proj2 (serial_attempt_facts env k port x z))). }
  clear Htel. unfold_method.
  destruct (for_each (range 10) body s) as [ [ f | e ] z t ];
    cbn [res st tr] in *.
  - destruct (mount z) eqn:Hm; cbn [res st tr app]; rewrite ?app_nil_r;
      (split; [ exact Hev | split; [ exact Htel' | ] ]);
      intros Hs; destruct (Huntil Hs) as [ HJ | (_ & HQ) ]; auto.
    destruct HQ as (Hmount & _). congruence.
  - cbn [res st tr app]. rewrite app_nil_r.
    split; [ exact Hev | split; [ exact Htel' | ] ].
    intros Hs. destruct (Huntil Hs) as [ HJ | (Hres & _) ]; auto.
    discriminate Hres.
Qed.

Lemma serial_phase_facts (env : mount_env) (available_ports : list string)
  (s : scanner) :
  let o := serial_phase env available_ports s in
  is_ok (res o) = true /\
  Forall (fun e => is_dispatch e = false) (tr o) /\
  ascom_telescope (st o) = ascom_telescope s /\
  (serial_pending s -> serial_pending (st o) \/ serial_connected (st o)).
Proof.
  unfold serial_phase. unfold_method.
  match goal with
  | |- context [for_each ?xs ?b s] => set (places := xs); set (body := b)
  end.
  pose proof (for_each_events body (fun e => is_dispatch e = false) places
                (fun x z _ => proj1 (serial_port_body_facts env available_ports x z)) s)
    as Hev.
  pose proof (for_each_invariant body
                (fun z => ascom_telescope z = ascom_telescope s) places) as Htel.
  pose proof (for_each_until body serial_pending serial_connected places
                (fun x z => proj2 (proj2
                   (serial_port_body_facts env available_ports x z))) s) as Huntil.
  assert (Htel' : ascom_telescope (st (for_each places body s)) = ascom_telescope s).
  { apply Htel; [ | reflexivity ].
    intros x z Hz. rewrite <- Hz.
    apply (proj1 (proj2 (serial_port_body_facts env available_ports x z))). }
  clear Htel.
  destruct (for_each places body s) as [ [ f | e ] z t ];
    cbn [res st tr app is_ok] in *; rewrite ?app_nil_r;
    (split; [ reflexivity | split; [ exact Hev | split; [ exact Htel' | ] ] ]);
    intros Hs; destruct (Huntil Hs) as [ HJ | (_ & HQ) ]; auto.
Qed.

Lemma cleanup_mount_facts (s : scanner) :
  let o := cleanup_mount s in
  res o = Ok tt /\
  Forall (fun e => is_dispatch e = false) (tr o) /\
  mount (st o) = None /\
  ascom_telescope (st o) = None /\
  mount_initialized (st o) = false.
Proof.
  unfold cleanup_mount. run_method; cbn; repeat split; auto;
    all_events; reflexivity.
Qed.

Lemma cleanup_mount_opens_nothing (s : scanner) :
  count is_serial_open (tr (cleanup_mount s)) = 0%nat.
Proof. unfold cleanup_mount. run_method; reflexivity. Qed.

Lemma ascom_phase_facts (env : mount_env) (selected_port mount_status : string)
  (s : scanner) :
  let o := ascom_phase env selected_port mount_status s in
  is_ok (res o) = true /\
  mount (st o) = mount s /\
  count is_dispatch (tr o)
  = (if match mount s with None => win32com env | Some _ => false end
     then 1 else 0)%nat /\
  (ascom_telescope s = None -> ascom_telescope (st o) = None ->
   mount_initialized (st o) = mount_initialized s).
Proof.
  unfold ascom_phase, ascom_setup. unfold_method.
  destruct (mount s) eqn:Hm; [ cbn; auto | ].
  destruct (win32com env); [ | cbn; auto ].
  step_recovery.
  repeat (case_method; unfold_method).
  all: cbn [res st tr app is_ok].
  all: pose proof (count_none is_dispatch t (recovery_is_no_dispatch t Hev)) as Hc.
  all: rewrite ?app_nil_r; repeat rewrite count_app; rewrite ?Hc.
  all: split; [ reflexivity
              | split; [ exact Hm
                       | split; [ reflexivity
                                | intros _ H;
                                  first [ discriminate H | reflexivity ] ] ] ].
Qed.

(** C2, as amended.  [initialize_mount] returns normally and dispatches the
    automation driver at most once.  When the ports were listed and the
    serial phase ends holding no port ([self.mount] is [None]: every serial
    candidate failed), the driver is dispatched exactly once if the module
    win32com was imported and not at all if it was not.  When the listing
    of the ports itself raises, no port is opened and the driver is not
    dispatched: the outer handler reports the failure with nothing held.
    In every case, when neither a port nor an automation telescope is held
    afterwards, the mount is not initialised, and every call of
    [track_moon] and of [move_mount_manual] is refused: it sends no command
    to the mount, and [track_moon] leaves the session not scanning. *)
Theorem initialize_mount_fallback (env : mount_env) (s : scanner) :
  let o := initialize_mount env s in
  res o = Ok tt /\
  (count is_dispatch (tr o) <= 1)%nat /\
  (is_ok (comports env) = true -> mount (st o) = None ->
   count is_dispatch (tr o) = (if win32com env then 1 else 0)%nat) /\
  (is_ok (comports env) = false ->
   count is_dispatch (tr o) = 0%nat /\
   count is_serial_open (tr o) = 0%nat /\
   mount (st o) = None /\ ascom_telescope (st o) = None) /\
  (mount (st o) = None -> ascom_telescope (st o) = None ->
   mount_initialized (st o) = false /\
   (forall senv,
       mount_commands (tr (track_moon senv (st o))) = [] /\
       scanning (st (track_moon senv (st o))) = false) /\
   (forall slew moved direction,
       mount_commands (tr (move_mount_manual slew moved direction (st o))) = [])).
Proof.
  assert (Hrefused : forall z,
             mount_initialized z = false -> ascom_telescope z = None ->
             (forall senv,
                 mount_commands (tr (track_moon senv z)) = [] /\
                 scanning (st (track_moon senv z)) = false) /\
             (forall slew moved direction,
                 mount_commands (tr (move_mount_manual slew moved direction z)) = [])).
  { intros z Hinit Htel. split.
    - intros senv.
      destruct (track_moon_refuses senv z Hinit) as (H1 & H2 & _). auto.
    - intros slew moved direction.
      destruct (move_mount_manual_refuses slew moved direction z Htel) as (H1 & _).
      rewrite H1. reflexivity. }
  unfold initialize_mount, update_mount_controls. unfold_method.
  destruct (cleanup_mount_facts s) as (Hc1 & Hc2 & Hc3 & Hc4 & Hc5).
  pose proof (cleanup_mount_opens_nothing s) as Ho1.
  destruct (cleanup_mount s) as [ r1 s1 t1 ]. cbn [res st tr] in *. subst r1.
  assert (Hd1 : count is_dispatch t1 = 0%nat) by now apply count_none.
  destruct (comports env) as [ available_ports | e0 ]; cbv beta iota.
  2:{ (* the listing raised *)
      cbn [res st tr app is_ok mount ascom_telescope mount_initialized
           with_mount with_ascom_telescope with_mount_initialized].
      count_events. rewrite Hd1, Ho1.
      cbn [is_dispatch is_serial_open Nat.add].
      split; [ reflexivity | ].
      split; [ lia | ].
      split; [ intros H; discriminate H | ].
      split; [ intros _; repeat split | ].
      intros _ _. split; [ reflexivity | ].
      apply Hrefused; reflexivity. }
  destruct (serial_phase_facts env available_ports s1) as (Hs1 & Hs2 & Hs3 & Hs4).
  destruct (serial_phase env available_ports s1) as [ [ status | e ] s2 t2 ];
    [ | discriminate Hs1 ].
  cbn [res st tr] in *.
  destruct (ascom_phase_facts env (serial_port_var s1) status s2)
    as (Ha1 & Ha2 & Ha3 & Ha4).
  destruct (ascom_phase env (serial_port_var s1) status s2)
    as [ [ status' | e ] s3 t3 ]; [ | discriminate Ha1 ].
  cbn [res st tr app is_ok] in *.
  assert (Hd2 : count is_dispatch t2 = 0%nat) by now apply count_none.
  assert (Hcount :
    count is_dispatch
      (Status "Status: Initializing Mount..."
       :: InfoBox "Close all telescope apps. Verify mount on COM3 in Device Manager, then click OK."
       :: t1 ++ [] ++ t2 ++ t3
          ++ [MountControls
                (mount_initialized s3
                 && match ascom_telescope s3 with
                    | Some _ => true
                    | None => false
                    end);
              Status ("Status: Mount " ++ status')])
    = count is_dispatch t3).
  { count_events. rewrite Hd1, Hd2. cbn [is_dispatch]. lia. }
  cbn [app] in Hcount |- *. rewrite Hcount, Ha3.
  split; [ reflexivity | ].
  split; [ destruct (mount s2); [ | destruct (win32com env) ]; lia | ].
  split; [ intros _ Hm; rewrite <- Ha2, Hm; reflexivity | ].
  split; [ intros H; discriminate H | ].
  intros Hm Htel.
  assert (Hinit : mount_initialized s3 = false).
  { rewrite Ha4; [ | congruence | exact Htel ].
    destruct (Hs4 Hc5) as [ HJ | (Hmount & _) ]; [ exact HJ | ].
    congruence. }
  split; [ exact Hinit | ].
  apply Hrefused; assumption.
Qed.

Lemma initialize_mount_fallback_witness :
  is_ok (comports (unplugged_env true)) = true /\
  mount (st (initialize_mount (unplugged_env true) initial_state)) = None /\
  ascom_telescope (st (initialize_mount (unplugged_env true) initial_state)) = None /\
  count is_dispatch (tr (initialize_mount (unplugged_env true) initial_state)) = 1%nat /\
  mount_initialized (st (initialize_mount (unplugged_env true) initial_state)) = false /\
  count is_dispatch (tr (initialize_mount unlisted_env initial_state)) = 0%nat.
Proof.
  assert (Hm : mount (st (initialize_mount (unplugged_env true) initial_state)) = None)
    by (vm_compute; reflexivity).
  assert (Ht : ascom_telescope
                 (st (initialize_mount (unplugged_env true) initial_state)) = None)
    by (vm_compute; reflexivity).
  pose proof (initialize_mount_fallback (unplugged_env true) initial_state) as H.
  cbv zeta in H. destruct H as (_ & _ & Hd & _ & Hr).
  pose proof (initialize_mount_fallback unlisted_env initial_state) as H'.
  cbv zeta in H'. destruct H' as (_ & _ & _ & Hl & _).
  split; [ reflexivity | ].
  split; [ exact Hm | ].
  split; [ exact Ht | ].
  split; [ exact (Hd eq_refl Hm) | ].
  split; [ exact (proj1 (Hr Hm Ht)) | exact (proj1 (Hl eq_refl)) ].
Defined.

(** C2, as stated, fails.  Without the module win32com (the import at the
    top of the file failed) the serial candidate fails on each of its ten
    attempts and the automation driver is never dispatched. *)
Lemma no_dispatch_without_win32com :
  count is_dispatch (tr (initialize_mount (unplugged_env false) initial_state)) = 0%nat /\
  count (fun e => match e with SerialOpen _ => true | _ => false end)
        (tr (initialize_mount (unplugged_env false) initial_state)) = 10%nat /\
  mount (st (initialize_mount (unplugged_env false) initial_state)) = None /\
  mount_initialized (st (initialize_mount (unplugged_env false) initial_state)) = false.
Proof. repeat split; vm_compute; reflexivity. Qed.

(** ** The recording loop and the live spectrum *)

Lemma no_sample_logged (t : list event) :
  Forall (fun e => is_sample_log e = false) t -> sample_numbers t = [].
Proof.
  induction 1 as [ | e t He _ IH ]; [ reflexivity | ].
  destruct e; simpl in *; try discriminate; exact IH.
Qed.

(** [time.sleep] pauses, or raises and does nothing. *)
Lemma py_sleep_run (x : float) (s : scanner) :
  py_sleep x s = mkOutcome (Ok tt) s [SleepF x] \/
  exists e, py_sleep x s = mkOutcome (Raise e) s [].
Proof.
  unfold py_sleep. unfold_method.
  destruct (is_nan x); [ right; eauto | ].
  destruct (_ && _); [ | right; eauto ].
  destruct (x <? 0)%float; [ right; eauto | left; reflexivity ].
Qed.

Lemma capture_image_facts (io : cycle_io) (s : scanner) :
  exists r t, capture_image io s = mkOutcome r s t /\
              Forall (fun e => is_sample_log e = false) t.
Proof.
  unfold capture_image. unfold_method.
  destruct (camera s); [ destruct (camera_opened io) as [ [ | ] | e ] | ];
    cbn [res st tr app]; eauto.
  match goal with
  | |- context [for_each (range 10) ?b] => set (body := b)
  end.
  assert (Hbody : forall x z,
             st (body x z) = z /\
             Forall (fun e => is_sample_log e = false) (tr (body x z))).
  { intros x z. unfold body. run_method; split; repeat constructor. }
  assert (Hloop : forall z, exists r t,
             for_each (range 10) body z = mkOutcome r z t /\
             Forall (fun e => is_sample_log e = false) t).
  { intros z.
    pose proof (for_each_state body (range 10) (fun x y => proj1 (Hbody x y)) z) as Hst.
    pose proof (for_each_events body (fun e => is_sample_log e = false) (range 10)
                  (fun x y _ => proj2 (Hbody x y)) z) as Hev.
    destruct (for_each (range 10) body z) as [ r y t ]. cbn [st tr] in *.
    subst y. eauto. }
  destruct (use_camera_exposure s); unfold_method;
    try (progress destruct (set_exposure io) as [ [] | ? ]); cbv beta iota;
    try (destruct (py_sleep_run (cam_exposure_ms s / 1000) s)
           as [ -> | (? & ->) ]; cbv beta iota);
    try (destruct (Hloop s) as (r & t & -> & Hev);
         destruct r as [ [ | | [] ] | ? ]);
    cbn [res st tr app]; rewrite ?app_nil_r;
    (do 2 eexists; split; [ reflexivity | ]);
    all_events; auto.
Qed.

Lemma capture_spectrum_facts (io : cycle_io) (s : scanner) :
  exists b t, capture_spectrum io s = mkOutcome (Ok b) s t /\
              Forall (fun e => is_sample_log e = false) t.
Proof.
  unfold capture_spectrum. run_method;
    cbn [res st tr app]; rewrite ?app_nil_r;
    (do 2 eexists; split; [ reflexivity | ]);
    all_events; auto.
Qed.

Lemma quiet_counter_writes (io : cycle_io) :
  quiet_counter io ->
  forallb counter_free (cycle_writes io) = true /\
  forallb counter_free (increment_writes io) = true /\
  forallb counter_free (log_writes io) = true.
Proof.
  unfold quiet_counter. rewrite !forallb_app, !andb_true_iff. tauto.
Qed.

(** A turn that gets to sample and is alone on the counter counts once if
    either half saved, and logs the new count; otherwise it leaves the
    counter alone. *)
Lemma capture_sample_facts (io : cycle_io) (s : scanner) :
  forallb counter_free (increment_writes io) = true ->
  forallb counter_free (log_writes io) = true ->
  let o := capture_sample io s in
  match res o with
  | Ok (image_saved, spectrum_saved) =>
      sample_count (st o)
      = sample_count s + (if image_saved || spectrum_saved then 1 else 0) /\
      sample_numbers (tr o)
      = (if image_saved || spectrum_saved then [sample_count s + 1] else [])
  | Raise _ => sample_count (st o) = sample_count s /\ sample_numbers (tr o) = []
  end.
Proof.
  intros Hinc Hlog. unfold capture_sample. unfold_method.
  destruct (capture_image_facts io s) as (ri & ti & -> & Hi).
  apply no_sample_logged in Hi.
  destruct ri as [ image_saved | e ]; cbv beta iota;
    [ | cbn [res st tr]; auto ].
  destruct (capture_spectrum_facts io s) as (spectrum_saved & ts & -> & Hs).
  apply no_sample_logged in Hs.
  destruct (image_saved || spectrum_saved) eqn:E;
    cbn [res st tr app sample_count with_sample_count]; rewrite ?E;
    rewrite ?(apply_writes_counter _ _ Hlog);
    cbn [sample_count with_sample_count];
    rewrite !sample_numbers_app, Hi, Hs; cbn; split; auto; lia.
Qed.

(** A turn of the loop never raises. *)
Lemma capture_cycle_returns (io : cycle_io) (s : scanner) :
  is_ok (res (capture_cycle io s)) = true.
Proof.
  unfold capture_cycle. unfold_method.
  set (s1 := apply_writes (cycle_writes io) s).
  destruct (capture_running s1 && running s1); cbn [negb res st tr];
    [ | reflexivity ].
  destruct (negb (camera_running s1) || negb (spectrograph_running s1));
    cbn [res st tr]; [ reflexivity | ].
  destruct (capture_sample io s1) as [ [ [ image_saved spectrum_saved ] | e ] s2 t ];
    reflexivity.
Qed.

(** One turn of a loop that is alone on the counter moves it by nothing or
    by one, and logs the new count when it moves it. *)
Lemma capture_cycle_facts (io : cycle_io) (s : scanner) :
  quiet_counter io ->
  let o := capture_cycle io s in
  exists d : nat,
    (d <= 1)%nat /\
    sample_count (st o) = sample_count s + Z.of_nat d /\
    sample_numbers (tr o) = consecutive (sample_count s + 1) d.
Proof.
  intros Hquiet. destruct (quiet_counter_writes io Hquiet) as (Hw & Hinc & Hlog).
  unfold capture_cycle.
  pose proof (apply_writes_counter (cycle_writes io) s Hw) as Hcount.
  set (s1 := apply_writes (cycle_writes io) s) in *.
  unfold_method. fold s1. rewrite <- Hcount.
  destruct (capture_running s1 && running s1); cbn [negb res st tr];
    [ | exists 0%nat; cbn; split; [ lia | split; [ lia | reflexivity ] ] ].
  destruct (negb (camera_running s1) || negb (spectrograph_running s1));
    cbn [res st tr];
    [ exists 0%nat; cbn; split; [ lia | split; [ lia | reflexivity ] ] | ].
  pose proof (capture_sample_facts io s1 Hinc Hlog) as H. cbv zeta in H.
  destruct (capture_sample io s1) as [ [ [ image_saved spectrum_saved ] | e ] s2 t ];
    cbn [res st tr app] in *; destruct H as (Hc & Hn);
    rewrite ?app_nil_r, !sample_numbers_app, Hn, Hc; cbn [sample_numbers app].
  - destruct (image_saved || spectrum_saved);
      [ exists 1%nat | exists 0%nat ]; cbn; repeat split; auto; lia.
  - exists 0%nat; cbn; repeat split; auto; lia.
Qed.

Lemma consecutive_app (a : Z) (n m : nat) :
  consecutive a (n + m) = consecutive a n ++ consecutive (a + Z.of_nat n) m.
Proof.
  revert a. induction n as [ | n IH ]; intros a.
  - cbn [consecutive app Nat.add Z.of_nat]. now rewrite Z.add_0_r.
  - cbn [consecutive app Nat.add]. rewrite IH.
    replace (a + 1 + Z.of_nat n) with (a + Z.of_nat (S n)) by lia.
    reflexivity.
Qed.

Lemma capture_and_save_facts (ios : list cycle_io) (s : scanner) :
  Forall quiet_counter ios ->
  let o := capture_and_save ios s in
  exists k : nat,
    (k <= List.length ios)%nat /\
    sample_count (st o) = sample_count s + Z.of_nat k /\
    sample_numbers (tr o) = consecutive (sample_count s + 1) k.
Proof.
  unfold capture_and_save. intros Hquiet. revert s.
  induction Hquiet as [ | io ios Hio _ IH ]; intros s.
  - exists 0%nat. cbn. repeat split; auto; lia.
  - cbn [for_each]. rewrite bind_run.
    pose proof (capture_cycle_returns io s) as Hok.
    destruct (capture_cycle_facts io s Hio) as (d & Hd & Hc & Hn).
    destruct (res (capture_cycle io s)) as [ f | e ]; [ | discriminate Hok ].
    destruct f as [ | | [] ]; cbn [res st tr ret].
    + destruct (IH (st (capture_cycle io s))) as (k & Hk & Hkc & Hkn).
      exists (d + k)%nat. rewrite sample_numbers_app, Hn, Hkn, Hkc, Hc.
      rewrite consecutive_app. cbn [List.length].
      replace (sample_count s + Z.of_nat d + 1)
        with (sample_count s + 1 + Z.of_nat d) by lia.
      repeat split; lia.
    + exists d. rewrite app_nil_r. cbn [List.length]. repeat split; auto; lia.
    + exists d. rewrite app_nil_r. cbn [List.length]. repeat split; auto; lia.
Qed.

(** C5, as amended.  In a turn of a capture loop that is alone on the
    counter (no other thread writes [sample_count] during the turn) the
    sample counter goes up by exactly one when [image_saved or
    spectrum_saved] and stays otherwise, and the new count is what the turn
    logs.  Over any run of such a loop, whatever the sensors answer and
    whatever the other threads write to the flags, the logged sample
    numbers are consecutive integers from the count at the start plus one:
    strictly increasing, no gap, no repeat; there are as many as the counter
    went up. *)
Theorem sample_counter_counts_saved_turns (io : cycle_io)
  (ios : list cycle_io) (s : scanner) :
  quiet_counter io ->
  Forall quiet_counter ios ->
  (let o := capture_sample io s in
   match res o with
   | Ok (image_saved, spectrum_saved) =>
       sample_count (st o)
       = sample_count s + (if image_saved || spectrum_saved then 1 else 0) /\
       sample_numbers (tr o)
       = (if image_saved || spectrum_saved then [sample_count s + 1] else [])
   | Raise _ => sample_count (st o) = sample_count s /\ sample_numbers (tr o) = []
   end) /\
  (let o := capture_and_save ios s in
   sample_numbers (tr o)
   = consecutive (sample_count s + 1)
       (Z.to_nat (sample_count (st o) - sample_count s)) /\
   sample_count s <= sample_count (st o) <= sample_count s + Z.of_nat (List.length ios)).
Proof.
  intros Hio Hios.
  destruct (quiet_counter_writes io Hio) as (_ & Hinc & Hlog).
  split; [ now apply capture_sample_facts | ].
  intros o. destruct (capture_and_save_facts ios s Hios) as (k & Hk & Hc & Hn).
  fold o in Hc, Hn. rewrite Hn, Hc.
  replace (sample_count s + Z.of_nat k - sample_count s) with (Z.of_nat k) by lia.
  rewrite Nat2Z.id. repeat split; lia.
Qed.

Lemma sample_counter_counts_saved_turns_witness :
  quiet_counter calm_cycle_io /\
  sample_numbers (tr (capture_and_save [calm_cycle_io; calm_cycle_io; calm_cycle_io]
                        recording_state)) = [1; 2; 3] /\
  sample_count (st (capture_and_save [calm_cycle_io; calm_cycle_io; calm_cycle_io]
                      recording_state)) = 3.
Proof.
  assert (Hq : quiet_counter calm_cycle_io) by reflexivity.
  assert (Hc : sample_count
                 (st (capture_and_save [calm_cycle_io; calm_cycle_io; calm_cycle_io]
                        recording_state)) = 3) by (vm_compute; reflexivity).
  split; [ exact Hq | ]. split; [ | exact Hc ].
  pose proof (sample_counter_counts_saved_turns calm_cycle_io
                [calm_cycle_io; calm_cycle_io; calm_cycle_io] recording_state Hq
                (Forall_cons _ Hq (Forall_cons _ Hq (Forall_cons _ Hq (Forall_nil _)))))
    as H.
  cbv zeta in H. destruct H as (_ & Hn & _).
  rewrite Hn, Hc. reflexivity.
Defined.

(** C5, as stated, fails.  A session stopped and started again inside one
    turn keeps its old recording loop ([toggle_record] clears and sets the
    flags, and starts a second [capture_and_save]; the old loop finds the
    flags set at its next test and goes on).  Two loops then count on one
    attribute.  When the other loop counts its sample between this loop's
    store and its log line, this turn logs sample 2 from a count of 0 and
    leaves the counter two higher; when the other loop counts inside this
    loop's increment, its count is overwritten: the counter is at 1 after
    two saved samples. *)
Lemma two_loops_share_the_counter :
  st (toggle_record (Ok tt) (st (toggle_record (Ok tt) recording_state)))
  = recording_state /\
  tr (toggle_record (Ok tt) (st (toggle_record (Ok tt) recording_state)))
  = [Status "Status: Recording started"; Spawn CaptureAndSave] /\
  apply_writes restart_writes recording_state = recording_state /\
  sample_count recording_state = 0 /\
  res (capture_cycle overtaken_cycle_io recording_state) = Ok Next /\
  sample_numbers (tr (capture_cycle overtaken_cycle_io recording_state)) = [2] /\
  sample_count (st (capture_cycle overtaken_cycle_io recording_state)) = 2 /\
  res (capture_cycle overwritten_cycle_io recording_state) = Ok Next /\
  sample_numbers (tr (capture_cycle overwritten_cycle_io recording_state)) = [1] /\
  sample_count (apply_writes (increment_writes overwritten_cycle_io) recording_state)
  = 1 /\
  sample_count (st (capture_cycle overwritten_cycle_io recording_state)) = 1.
Proof. repeat split; vm_compute; reflexivity. Qed.

(** The list of [k] consecutive integers from [a] holds [a + i] at place
    [i]. *)
Lemma consecutive_nth (a : Z) (k i : nat) :
  (i < k)%nat -> nth_error (consecutive a k) i = Some (a + Z.of_nat i).
Proof.
  revert a i. induction k as [ | k IH ]; intros a i Hi; [ lia | ].
  destruct i as [ | i ]; cbn [consecutive nth_error].
  - f_equal. cbn. lia.
  - rewrite IH by lia. f_equal. lia.
Qed.




(** *** The dark correction *)

(** [a - b] is the difference place by place. *)
Lemma np_sub_nth (a b : list float) (i : nat) (x y : float) :
  nth_error a i = Some x -> nth_error b i = Some y ->
  nth_error (np_sub a b) i = Some (x - y)%float.
Proof.
  revert b i. induction a as [ | x0 a IH ]; intros b i Ha Hb.
  - destruct i; discriminate Ha.
  - destruct b as [ | y0 b ]; [ destruct i; discriminate Hb | ].
    destruct i as [ | i ]; cbn in *.
    + congruence.
    + now apply IH.
Qed.

(** The recording loop does what C3 says: with a dark spectrum of the same
    length it saves the difference, with one of another length the
    intensities as read, and the correction never raises. *)
Lemma dark_corrected_capture_spec (d intensities : list float) :
  dark_corrected_capture (Some d) intensities
  = Ok (if (List.length intensities =? List.length d)%nat
        then np_sub intensities d else intensities).
Proof.
  unfold dark_corrected_capture.
  now destruct (List.length intensities =? List.length d)%nat.
Qed.

(** C3, where the code departs from it.  With a dark spectrum of two pixels
    and intensities of two pixels the recording loop computes the
    difference; the live plot tests the truth value of the dark array, numpy
    raises [ValueError], and the loop of [update_spectrum] logs the error,
    breaks, and closes the spectrograph. *)
Theorem dark_correction_raises_in_live_plot :
  dark_corrected_capture (Some [1; 2]%float) [3; 4]%float = Ok [2; 2]%float /\
  dark_corrected_plot (Some [1; 2]%float) [3; 4]%float = Raise ValueError /\
  tr (update_spectrum [calm_plot_io] calm_open_io dark_state)
  = [SpecWavelengths; SpecIntensities; SpecClose;
     Status "Status: Spectrograph Stopped"] /\
  spectrograph_running (st (update_spectrum [calm_plot_io] calm_open_io dark_state))
  = false.
Proof. repeat split; vm_compute; reflexivity. Qed.

(** * More facts

    Properties of the code beside those above. *)

(** ** The serial command *)

From Stdlib Require DecimalFacts DecimalPos DecimalN.

Lemma string_length_append (a b : string) :
  String.length (a ++ b) = (String.length a + String.length b)%nat.
Proof. induction a as [ | c a IH ]; cbn; [ reflexivity | now rewrite IH ]. Qed.

Lemma uint_of_zeros (k : nat) (digits : string) :
  NilEmpty.uint_of_string
    (string_of_list_ascii (List.repeat "0"%char k) ++ digits)
  = option_map (Nat.iter k Decimal.D0) (NilEmpty.uint_of_string digits).
Proof.
  induction k as [ | k IH ]; cbn [List.repeat string_of_list_ascii String.append
                                   NilEmpty.uint_of_string Nat.iter].
  - now destruct (NilEmpty.uint_of_string digits).
  - rewrite IH. now destruct (NilEmpty.uint_of_string digits).
Qed.

Lemma of_uint_zeros (k : nat) (d : Decimal.uint) :
  N.of_uint (Nat.iter k Decimal.D0 d) = N.of_uint d.
Proof. induction k as [ | k IH ]; [ reflexivity | exact IH ]. Qed.

Lemma to_uint_nonnil (m : N) : N.to_uint m <> Decimal.Nil.
Proof.
  destruct m as [ | p ]; [ discriminate | ].
  apply DecimalPos.Unsigned.to_uint_nonnil.
Qed.

Lemma digits_round_trip (m : N) :
  option_map N.of_uint
    (NilEmpty.uint_of_string (pad5 (NilZero.string_of_uint (N.to_uint m))))
  = Some m.
Proof.
  unfold pad5. rewrite uint_of_zeros.
  pose proof (to_uint_nonnil m) as Hn.
  assert (H : NilEmpty.uint_of_string (NilZero.string_of_uint (N.to_uint m))
              = Some (N.to_uint m)).
  { destruct (N.to_uint m) eqn:E; try congruence; apply (NilEmpty.usu). }
  rewrite H. cbn [option_map]. rewrite of_uint_zeros.
  now rewrite DecimalN.Unsigned.of_to.
Qed.

Lemma length_zeros (k : nat) :
  String.length (string_of_list_ascii (List.repeat "0"%char k)) = k.
Proof. induction k; cbn; auto. Qed.

Lemma steps_of_format_RA (steps : Z) :
  steps_of_RA (format_RA steps) = Some steps.
Proof.
  unfold format_RA.
  pose proof (digits_round_trip (Z.abs_N steps)) as H.
  set (digits := pad5 _) in *.
  destruct (NilEmpty.uint_of_string digits) as [ d | ] eqn:E;
    [ | discriminate H ].
  cbn [option_map] in H. injection H as H. clearbody digits.
  destruct (steps <? 0) eqn:Hs;
    cbn [String.append steps_of_RA]; rewrite E, H; cbn; f_equal.
  - apply Z.ltb_lt in Hs. rewrite N2Z.inj_abs_N. lia.
  - apply Z.ltb_ge in Hs. rewrite N2Z.inj_abs_N. lia.
Qed.

(** X1.  The serial command is read back: the text that [format_RA] builds
    decodes to the step count it was built from, for every integer, and it
    is at least eight characters long (the sign and five digits after "RA";
    a count of six digits or more makes it longer, it is never cut). *)
Theorem format_RA_round_trip (steps : Z) :
  steps_of_RA (format_RA steps) = Some steps /\
  (8 <= String.length (format_RA steps))%nat.
Proof.
  split; [ apply steps_of_format_RA | ].
  unfold format_RA, pad5.
  rewrite !string_length_append, length_zeros.
  destruct (steps <? 0); cbn [String.length]; lia.
Qed.

Lemma of_uint_acc_lower (d : Decimal.uint) (acc : positive) :
  Z.pos acc * 10 ^ Z.of_nat (Decimal.nb_digits d) <= Z.pos (Pos.of_uint_acc d acc).
Proof.
  revert acc. induction d as [ | d IH | d IH | d IH | d IH | d IH | d IH
                               | d IH | d IH | d IH | d IH ]; intros acc;
    cbn [Decimal.nb_digits Pos.of_uint_acc];
    [ cbn; lia | .. ];
    rewrite Nat2Z.inj_succ, Z.pow_succ_r by lia;
    (eapply Z.le_trans; [ | apply IH ]);
    assert (0 < 10 ^ Z.of_nat (Decimal.nb_digits d)) by (apply Z.pow_pos_nonneg; lia);
    nia.
Qed.

Lemma length_string_of_uint (d : Decimal.uint) :
  d <> Decimal.Nil ->
  String.length (NilZero.string_of_uint d) = Decimal.nb_digits d.
Proof.
  assert (H : forall u, String.length (NilEmpty.string_of_uint u) = Decimal.nb_digits u).
  { induction u; cbn; congruence. }
  destruct d; intros Hd; try congruence; apply H.
Qed.

Lemma digits_of_small (m : N) :
  (m < 100000)%N -> (Decimal.nb_digits (N.to_uint m) <= 5)%nat.
Proof.
  intros Hm. destruct m as [ | p ]; [ cbn; lia | ].
  cbn [N.to_uint].
  pose proof (DecimalPos.Unsigned.of_to p) as Hof.
  pose proof (DecimalPos.Unsigned.to_of (Pos.to_uint p)) as Hto.
  rewrite Hof in Hto. cbn [N.to_uint] in Hto.
  set (d := Pos.to_uint p) in *.
  destruct (le_lt_dec (Decimal.nb_digits d) 5) as [ Hle | Hgt ]; [ exact Hle | ].
  exfalso.
  assert (Hbound : forall l k, (5 <= Decimal.nb_digits l)%nat ->
                               100000 <= Z.pos (Pos.of_uint_acc l k)).
  { intros l k Hl. eapply Z.le_trans; [ | apply of_uint_acc_lower ].
    assert (10 ^ 5 <= 10 ^ Z.of_nat (Decimal.nb_digits l))
      by (apply Z.pow_le_mono_r; lia).
    change (10 ^ 5) with 100000 in *. nia. }
  destruct d as [ | d' | d' | d' | d' | d' | d' | d' | d' | d' | d' ] eqn:Ed;
    cbn [Decimal.nb_digits] in Hgt; [ lia | | .. ];
    try (cbn [Pos.of_uint] in Hof; injection Hof as Hof;
         match type of Hof with
         | Pos.of_uint_acc _ ?k = _ =>
             pose proof (Hbound d' k ltac:(lia)) as Hb
         end;
         rewrite Hof in Hb; lia).
  (* a leading zero: the numeral is not normalised *)
  unfold Decimal.unorm in Hto. cbn [Decimal.nzhead] in Hto.
  pose proof (DecimalFacts.nb_digits_nzhead d') as Hnz.
  destruct (Decimal.nzhead d') eqn:Enz; try (rewrite <- Hto in Hnz; cbn in Hnz; lia).
  injection Hto as Hto. subst d'. cbn in Hgt. lia.
Qed.

(** X2.  For a step count of at most five digits the command is exactly eight
    characters: "RA", the sign, and the digits zero-padded to five. *)
Theorem format_RA_fixed_width (steps : Z) :
  -99999 <= steps <= 99999 ->
  String.length (format_RA steps) = 8%nat.
Proof.
  intros Hs. unfold format_RA, pad5.
  set (digits := NilZero.string_of_uint _).
  assert (Hd : (1 <= String.length digits <= 5)%nat).
  { subst digits. rewrite length_string_of_uint by apply to_uint_nonnil.
    split.
    - pose proof (to_uint_nonnil (Z.abs_N steps)) as Hn.
      destruct (N.to_uint (Z.abs_N steps)); cbn; try lia. congruence.
    - apply digits_of_small. lia. }
  rewrite !string_length_append, length_zeros.
  destruct (steps <? 0); cbn [String.length]; lia.
Qed.

Lemma format_RA_fixed_width_witness :
  -99999 <= 24 <= 99999 /\ String.length (format_RA 24) = 8%nat.
Proof.
  split; [ lia | apply (format_RA_fixed_width 24); lia ].
Defined.

(** ** Moving the mount, again *)

(** X3.  [move_mount] never raises and never changes the application,
    whatever the mount answers.  With an automation telescope it writes
    nothing to the serial port, also when a serial port is held too; with a
    telescope that does not answer "connected" it does nothing at all; and
    with no back end it does nothing. *)
Theorem move_mount_absorbs_failures (io : move_io) (angle : float) (s : scanner) :
  let o := move_mount io angle s in
  res o = Ok tt /\
  st o = s /\
  (ascom_telescope s <> None -> count is_serial_write (tr o) = 0%nat) /\
  (ascom_telescope s <> None -> connected io <> Ok true -> tr o = []) /\
  (ascom_telescope s = None -> mount s = None -> tr o = []).
Proof.
  unfold move_mount, send_mount_command.
  run_method; cbn [res st tr app]; repeat split; try reflexivity;
    try congruence; intros; try congruence.
  all: try (destruct a; cbn in *; congruence).
Qed.

Lemma opp_nonzero (x : float) :
  (x =? 0)%float = false -> (- x =? 0)%float = false.
Proof.
  rewrite !FloatAxioms.eqb_spec, opp_spec.
  change (Prim2SF 0) with (S754_zero false).
  destruct (Prim2SF x) as [ sg | sg | | sg m e ]; cbn; auto; destruct sg; auto.
Qed.

(** X4.  Through a connected automation telescope [move_mount] drives the
    RA axis at [scan_speed / 3600] degrees per second, negated for a
    negative angle, and halts it only after the drive command and the wait
    both came back: when either raised no halt is sent.  When the rate
    compares equal to zero the division raises and nothing is sent.  The
    drive command is no stop command unless the rate is zero. *)
Theorem move_mount_drives_then_halts (io : move_io) (angle : float)
  (s : scanner) (t : com_object) :
  ascom_telescope s = Some t ->
  connected io = Ok true ->
  let rate := (scan_speed s / 3600)%float in
  let ra_rate := if (0 <=? angle)%float then rate else (- rate)%float in
  mount_commands (tr (move_mount io angle s))
  = (if (rate =? 0)%float then []
     else MoveAxis 0 ra_rate
          :: (if is_ok (move_axis io) && is_ok (move_sleep io)
              then [MoveAxis 0 0] else [])) /\
  ((rate =? 0)%float = false -> is_stop_command (MoveAxis 0 ra_rate) = false).
Proof.
  intros Htel Hconn rate ra_rate. split.
  - unfold move_mount, py_div. unfold_method. rewrite Htel, Hconn.
    cbn [negb]. fold rate.
    destruct (rate =? 0)%float; [ reflexivity | ]. fold ra_rate.
    destruct (move_axis io) as [ [] | ? ]; [ | reflexivity ].
    destruct (move_sleep io) as [ [] | ? ]; [ | reflexivity ].
    destruct (halt_axis io) as [ [] | ? ]; reflexivity.
  - intros Hrate. subst ra_rate. cbn [is_stop_command].
    destruct (0 <=? angle)%float; [ exact Hrate | now apply opp_nonzero ].
Qed.

Lemma move_mount_absorbs_failures_witness :
  mount serial_state <> None /\
  count is_serial_write (tr (move_mount calm_move_io 1%float
                               (with_ascom_telescope (Some (ComObject ascom_driver))
                                  serial_state))) = 0%nat.
Proof.
  split; [ discriminate | ].
  apply (move_mount_absorbs_failures calm_move_io 1%float
           (with_ascom_telescope (Some (ComObject ascom_driver)) serial_state)).
  discriminate.
Defined.

Lemma move_mount_drives_then_halts_witness :
  mount_commands (tr (move_mount calm_move_io 1%float ascom_state))
  = [MoveAxis 0 (1 / 3600)%float; MoveAxis 0 0].
Proof.
  exact (proj1 (move_mount_drives_then_halts calm_move_io 1%float ascom_state
                  (ComObject ascom_driver) eq_refl eq_refl)).
Defined.

(** X5.  Over the serial port [move_mount] writes one command, the step count
    [round(angle * 3600 / 15)] in the format of [format_RA], which decodes
    to that count; for an angle that is a NaN or infinite ([round] raises)
    it writes nothing.  A failed write is reported and absorbed. *)
Theorem move_mount_serial_command (io : move_io) (angle : float) (s : scanner) :
  ascom_telescope s = None ->
  mount s <> None ->
  let o := move_mount io angle s in
  let steps := py_round (angle * 3600 / 15)%float in
  res o = Ok tt /\
  st o = s /\
  count is_serial_write (tr o) = (if is_ok steps then 1 else 0)%nat /\
  (forall command,
      In (SerialWrite command) (tr o) ->
      exists n, steps = Ok n /\ command = format_RA n /\
                steps_of_RA command = Some n) /\
  (is_ok steps = false -> tr o = []).
Proof.
  intros Htel Hmount. destruct (mount s) as [ m | ] eqn:Hm;
    [ clear Hmount | now contradiction Hmount ].
  unfold move_mount, send_mount_command. unfold_method. rewrite Htel, Hm.
  cbv beta iota.
  destruct (py_round (angle * 3600 / 15)%float) as [ n | e ];
    cbv beta iota; rewrite ?Hm; cbv beta iota.
  - destruct (serial_write io) as [ [] | e ]; cbn [res st tr app is_ok];
      (split; [ reflexivity | ]); (split; [ reflexivity | ]);
      (split; [ reflexivity | ]);
      (split; [ | intros H; discriminate H ]);
      intros command Hin; cbn [In] in Hin;
      repeat match goal with
        | H : _ \/ _ |- _ => destruct H as [ H | H ]
        | H : False |- _ => destruct H
        end;
      try discriminate;
      injection Hin as <-; exists n;
      repeat split; apply steps_of_format_RA.
  - cbn [res st tr app is_ok]. repeat split; auto.
    intros command [].
Qed.

Lemma move_mount_serial_command_witness :
  ascom_telescope serial_state = None /\
  count is_serial_write (tr (move_mount calm_move_io 0.1%float serial_state))
  = 1%nat.
Proof.
  split; [ reflexivity | ].
  assert (Hm : mount serial_state <> None) by discriminate.
  exact (proj1 (proj2 (proj2 (move_mount_serial_command calm_move_io 0.1%float
                                serial_state eq_refl Hm)))).
Defined.

(** X6.  [move_mount_manual] with an automation telescope: it never raises and
    leaves the application as it was; it sends one axis command, at the
    speed read from the entry as it stands (no range is checked here):
    North and South drive axis 1, West and East axis 0, South and East at
    the negated speed; any other direction sends nothing; and an entry that
    is no number sends nothing. *)
Theorem move_mount_manual_commands (slew : result float) (moved : result unit)
  (direction : string) (s : scanner) :
  ascom_telescope s <> None ->
  let o := move_mount_manual slew moved direction s in
  res o = Ok tt /\
  st o = s /\
  mount_commands (tr o)
  = match slew with
    | Ok speed =>
        if String.eqb direction "North" then [MoveAxis 1 speed]
        else if String.eqb direction "South" then [MoveAxis 1 (- speed)%float]
        else if String.eqb direction "East" then [MoveAxis 0 (- speed)%float]
        else if String.eqb direction "West" then [MoveAxis 0 speed]
        else []
    | Raise _ => []
    end.
Proof.
  intros Htel. destruct (ascom_telescope s) as [ t | ] eqn:Ht;
    [ clear Htel | now contradiction Htel ].
  unfold move_mount_manual. unfold_method. rewrite Ht. cbv beta iota.
  destruct slew as [ speed | e ]; cbv beta iota; [ | repeat split ].
  destruct (String.eqb direction "North");
    [ destruct moved as [ [] | e ]; repeat split | ].
  destruct (String.eqb direction "South");
    [ destruct moved as [ [] | e ]; repeat split | ].
  destruct (String.eqb direction "East");
    [ destruct moved as [ [] | e ]; repeat split | ].
  destruct (String.eqb direction "West");
    [ destruct moved as [ [] | e ]; repeat split | ].
  repeat split.
Qed.

Lemma move_mount_manual_commands_witness :
  mount_commands (tr (move_mount_manual (Ok 2%float) (Ok tt) "East" ascom_state))
  = [MoveAxis 0 (- 2)%float].
Proof.
  assert (Ht : ascom_telescope ascom_state <> None) by discriminate.
  exact (proj2 (proj2 (move_mount_manual_commands (Ok 2%float) (Ok tt) "East"
                         ascom_state Ht))).
Defined.

(** ** Mount initialisation, again *)

Lemma cleanup_mount_run (s : scanner) :
  cleanup_mount s
  = mkOutcome (Ok tt)
      (with_mount_initialized false
         (match ascom_telescope s with
          | Some _ => with_ascom_telescope None
          | None => fun z => z
          end
            (match mount s with
             | Some _ => with_mount None s
             | None => s
             end)))
      ((match mount s with Some _ => [SerialClose] | None => [] end)
         ++ (match ascom_telescope s with
             | Some _ => [SetConnected false]
             | None => []
             end)).
Proof.
  unfold cleanup_mount. unfold_method.
  destruct (mount s) eqn:Hm; destruct (ascom_telescope s) eqn:Ht;
    cbn [ascom_telescope with_mount]; rewrite ?Ht; reflexivity.
Qed.

(** X7.  [cleanup_mount] never raises; it leaves no serial port and no
    automation telescope held and the mount not initialised; it closes the
    port once if one was held and disconnects the telescope once if one was
    held; and a second call does nothing at all. *)
Theorem cleanup_mount_releases_and_is_idempotent (s : scanner) :
  let o := cleanup_mount s in
  res o = Ok tt /\
  mount (st o) = None /\
  ascom_telescope (st o) = None /\
  mount_initialized (st o) = false /\
  count (fun e => match e with SerialClose => true | _ => false end) (tr o)
  = (match mount s with Some _ => 1 | None => 0 end)%nat /\
  count (fun e => match e with SetConnected false => true | _ => false end) (tr o)
  = (match ascom_telescope s with Some _ => 1 | None => 0 end)%nat /\
  cleanup_mount (st o) = mkOutcome (Ok tt) (st o) [].
Proof.
  cbv zeta. rewrite !cleanup_mount_run. cbn [res st tr].
  destruct (mount s) eqn:Hm; destruct (ascom_telescope s) eqn:Ht;
    cbn; rewrite ?Hm, ?Ht; repeat split; destruct s; cbn in *; subst; reflexivity.
Qed.

Lemma recovery_is_init_event (ports : list string) (t : list event) :
  Forall (fun e => is_recovery_event e = true) t ->
  Forall pause_within_backoff t ->
  Forall (init_event ports) t /\ count is_serial_open t = 0%nat.
Proof.
  intros Hrec Hpause. split.
  - rewrite Forall_forall in *. intros e He.
    specialize (Hrec e He). specialize (Hpause e He).
    destruct e; simpl in *; try exact I; try discriminate; try lia; auto.
  - apply count_none. eapply Forall_impl; [ | exact Hrec ].
    intros e He. destruct e; simpl in *; congruence.
Qed.

Lemma reset_com_port_quiet (ports : list string) (env : reset_env)
  (port : string) (s : scanner) :
  exists b t, reset_com_port env port s = mkOutcome (Ok b) s t /\
              Forall (init_event ports) t /\ count is_serial_open t = 0%nat.
Proof.
  destruct (reset_com_port_facts env port s)
    as ((b & Hb) & Hs & _ & _ & _ & Hpause & Hev).
  destruct (reset_com_port env port s) as [ r z t ].
  cbn [res st tr] in *. subst r z.
  exists b, t. split; [ reflexivity | ].
  apply recovery_is_init_event; [ now apply reset_event_is_recovery | exact Hpause ].
Qed.

Lemma force_com3_reset_quiet (ports : list string) (env : force_env) (s : scanner) :
  exists t, force_com3_reset env s = mkOutcome (Ok tt) s t /\
            Forall (init_event ports) t /\ count is_serial_open t = 0%nat.
Proof.
  destruct (force_com3_reset_facts env s)
    as (t & Ht & _ & _ & _ & _ & _ & _ & Hpause & Hev).
  exists t. split; [ exact Ht | ].
  now apply recovery_is_init_event.
Qed.

Ltac step_quiet ports :=
  match goal with
  | |- context [reset_com_port ?e ?p ?z] =>
      let b := fresh "b" in
      let t := fresh "t" in
      let H := fresh "Hrun" in
      let Hev := fresh "Hev" in
      let Hno := fresh "Hno" in
      destruct (reset_com_port_quiet ports e p z) as (b & t & H & Hev & Hno);
      rewrite H; clear H; cbv beta iota
  | |- context [force_com3_reset ?e ?z] =>
      let t := fresh "t" in
      let H := fresh "Hrun" in
      let Hev := fresh "Hev" in
      let Hno := fresh "Hno" in
      destruct (force_com3_reset_quiet ports e z) as (t & H & Hev & Hno);
      rewrite H; clear H; cbv beta iota
  end.

Lemma backoff_pause (attempt : Z) : 0 <= attempt -> 1 <= 2 ^ Z.min attempt 3 <= 8.
Proof.
  intros H.
  assert (Hc : Z.min attempt 3 = 0 \/ Z.min attempt 3 = 1 \/
               Z.min attempt 3 = 2 \/ Z.min attempt 3 = 3) by lia.
  destruct Hc as [ -> | [ -> | [ -> | -> ] ] ]; simpl; lia.
Qed.

Lemma serial_attempt_budget (env : mount_env) (ports : list string) (k : Z)
  (port : string) (attempt : Z) (s : scanner) :
  In port ports -> 0 <= attempt ->
  let o := serial_attempt env k port attempt s in
  (count is_serial_open (tr o) <= 1)%nat /\
  Forall (init_event ports) (tr o).
Proof.
  intros Hport Hattempt.
  pose proof (backoff_pause attempt Hattempt) as Hpause.
  unfold serial_attempt, send_mount_command, close_mount, fix_com_port_permissions.
  set (io := serial_io_at env k attempt).
  unfold_method.
  repeat (first [ step_quiet ports | case_method ]; unfold_method).
  all: cbn [res st tr app].
  all: split; [ count_events; rewrite ?Hno, ?Hno0, ?Hno1; cbn [is_serial_open]; lia
              | all_events; simpl; auto ].
Qed.

Section WeightedLoop.

Context {X R : Type}.
Variable body : X -> M (flow R).

(** A loop whose turn on [x] emits at most [w x] events of a kind emits at
    most the sum of the weights. *)
Lemma for_each_count_weighted (p : event -> bool) (w : X -> nat) (xs : list X) :
  (forall x s, In x xs -> (count p (tr (body x s)) <= w x)%nat) ->
  forall s, (count p (tr (for_each xs body s)) <= list_sum (map w xs))%nat.
Proof.
  induction xs as [ | x xs IH ]; intros Hbody s;
    [ simpl; unfold count; simpl; lia | ].
  cbn [for_each]. rewrite bind_run.
  change (list_sum (map w (x :: xs))) with (w x + list_sum (map w xs))%nat.
  assert (Hx : (count p (tr (body x s)) <= w x)%nat) by (apply Hbody; now left).
  assert (Hrest : forall s', (count p (tr (for_each xs body s'))
                              <= list_sum (map w xs))%nat).
  { apply IH. intros y s' Hy. apply Hbody. now right. }
  destruct (res (body x s)) as [ f | e ]; cbn [tr]; [ | lia ].
  destruct f; rewrite count_app.
  - specialize (Hrest (st (body x s))). lia.
  - unfold count at 2. simpl. lia.
  - unfold count at 2. simpl. lia.
Qed.

End WeightedLoop.

Lemma in_range (n x : Z) : In x (range n) -> 0 <= x.
Proof.
  unfold range. rewrite in_map_iff. intros (k & <- & _). lia.
Qed.

Lemma existsb_eqb_in (port : string) (ports : list string) :
  existsb (String.eqb port) ports = true <-> In port ports.
Proof.
  rewrite existsb_exists. split.
  - intros (x & Hx & Heq). apply String.eqb_eq in Heq. now subst.
  - intros H. exists port. split; [ exact H | apply String.eqb_refl ].
Qed.

Lemma serial_port_body_budget (env : mount_env) (available_ports : list string)
  (place : Z * string) (s : scanner) :
  let o := serial_port_body env available_ports place s in
  (count is_serial_open (tr o) <= port_weight available_ports place)%nat /\
  Forall (init_event available_ports) (tr o).
Proof.
  destruct place as [ k port ]. unfold serial_port_body, port_weight. cbn [snd].
  destruct (existsb (String.eqb port) available_ports) eqn:Hin; cbn [negb].
  2: { cbn. split; [ lia | constructor ]. }
  apply existsb_eqb_in in Hin.
  set (body := serial_attempt env k port).
  assert (Hc : forall z, (count is_serial_open (tr (for_each (range 10) body z))
                          <= 10)%nat).
  { intros z.
    pose proof (for_each_count_weighted body is_serial_open (fun _ => 1%nat) (range 10)
                  (fun x z' Hx => proj1 (serial_attempt_budget env available_ports
                                           k port x z' Hin (in_range 10 x Hx))) z)
      as H.
    exact H. }
  pose proof (for_each_events body (init_event available_ports) (range 10)
                (fun x z Hx => proj2 (serial_attempt_budget env available_ports
                                        k port x z Hin (in_range 10 x Hx))) s) as Hev.
  specialize (Hc s). unfold_method.
  destruct (for_each (range 10) body s) as [ [ f | e ] z t ];
    cbn [res st tr] in *.
  - destruct (mount z); cbn [res st tr app]; rewrite ?app_nil_r; auto.
  - cbn [res st tr app]. rewrite app_nil_r. auto.
Qed.

Lemma length_filter_out (x : string) (l : list string) :
  In x l ->
  (List.length (filter (fun p => negb (String.eqb p x)) l) < List.length l)%nat.
Proof.
  induction l as [ | y l IH ]; intros Hin; [ destruct Hin | ].
  cbn [filter List.length].
  pose proof (filter_length_le (fun p => negb (String.eqb p x)) l) as Hle.
  destruct (String.eqb y x) eqn:Hy; cbn [negb List.length].
  - lia.
  - destruct Hin as [ -> | Hin ]; [ rewrite String.eqb_refl in Hy; discriminate | ].
    specialize (IH Hin). lia.
Qed.

Lemma sum_port_weight (ports : list string) (places : list (Z * string)) :
  (list_sum (map (port_weight ports) places) <= 10 * List.length places)%nat.
Proof.
  induction places as [ | p places IH ]; [ simpl; lia | ].
  change (list_sum (map (port_weight ports) (p :: places)))
    with (port_weight ports p + list_sum (map (port_weight ports) places))%nat.
  cbn [List.length]. unfold port_weight at 1.
  destruct (existsb _ ports); lia.
Qed.

Lemma length_enumerate {X} (xs : list X) :
  List.length (enumerate xs) = List.length xs.
Proof.
  unfold enumerate. rewrite length_combine, length_range. lia.
Qed.

Lemma enumerate_cons {X} (x : X) (xs : list X) :
  exists rest, enumerate (x :: xs) = ((0, x) :: rest) /\
               List.length rest = List.length xs.
Proof.
  unfold enumerate, range. cbn [List.length].
  rewrite Nat2Z.id. cbn [seq map combine].
  eexists. split; [ reflexivity | ].
  rewrite length_combine, length_map, length_seq. lia.
Qed.

Lemma serial_phase_budget (env : mount_env) (available_ports : list string)
  (s : scanner) :
  let o := serial_phase env available_ports s in
  (count is_serial_open (tr o) <= 10 * List.length available_ports)%nat /\
  Forall (init_event available_ports) (tr o).
Proof.
  unfold serial_phase. unfold_method.
  match goal with
  | |- context [for_each (enumerate ?xs) ?b s] => set (ports := xs); set (body := b)
  end.
  pose proof (for_each_count_weighted body is_serial_open
                (port_weight available_ports) (enumerate ports)
                (fun x z _ => proj1 (serial_port_body_budget env available_ports x z)) s)
    as Hc.
  pose proof (for_each_events body (init_event available_ports) (enumerate ports)
                (fun x z _ => proj2 (serial_port_body_budget env available_ports x z)) s)
    as Hev.
  assert (Hsum : (list_sum (map (port_weight available_ports) (enumerate ports))
                  <= 10 * List.length available_ports)%nat).
  { subst ports.
    destruct (enumerate_cons (serial_port_var s)
                (filter (fun p => negb (String.eqb p (serial_port_var s)))
                   available_ports)) as (rest & -> & Hlen).
    change (list_sum (map (port_weight available_ports) ((0, serial_port_var s) :: rest)))
      with (port_weight available_ports (0%Z, serial_port_var s)
            + list_sum (map (port_weight available_ports) rest))%nat.
    pose proof (sum_port_weight available_ports rest) as Hrest.
    rewrite Hlen in Hrest.
    pose proof (filter_length_le (fun p => negb (String.eqb p (serial_port_var s)))
                  available_ports) as Hle.
    unfold port_weight at 1. cbn [snd].
    destruct (existsb (String.eqb (serial_port_var s)) available_ports) eqn:Hin;
      [ | lia ].
    apply existsb_eqb_in in Hin.
    pose proof (length_filter_out (serial_port_var s) available_ports Hin). lia. }
  destruct (for_each (enumerate ports) body s) as [ [ f | e ] z t ];
    cbn [res st tr app] in *; rewrite ?app_nil_r; split; auto; lia.
Qed.

Lemma serial_phase_status (env : mount_env) (available_ports : list string)
  (s : scanner) :
  let o := serial_phase env available_ports s in
  res o = Ok (if mount_initialized (st o)
              then ("OK (Serial on " ++ serial_port_var (st o) ++ ")")%string
              else "Failed"%string).
Proof.
  unfold serial_phase. unfold_method.
  match goal with
  | |- context [for_each ?xs ?b s] => destruct (for_each xs b s) as [ [ f | e ] z t ]
  end; reflexivity.
Qed.

Lemma ascom_phase_budget (env : mount_env) (ports : list string)
  (selected_port mount_status : string) (s : scanner) :
  let o := ascom_phase env selected_port mount_status s in
  count is_serial_open (tr o) = 0%nat /\
  Forall (init_event ports) (tr o).
Proof.
  unfold ascom_phase, ascom_setup. unfold_method.
  destruct (mount s) eqn:Hm; [ cbn; auto | ].
  destruct (win32com env); [ | cbn; auto ].
  step_quiet ports.
  repeat (case_method; unfold_method).
  all: cbn [res st tr app].
  all: rewrite ?app_nil_r.
  all: split; [ count_events; rewrite ?Hno; cbn [is_serial_open]; lia
              | all_events; simpl; auto ].
Qed.

Lemma ascom_phase_outcome (env : mount_env) (selected_port mount_status : string)
  (s : scanner) :
  let o := ascom_phase env selected_port mount_status s in
  serial_port_var (st o) = serial_port_var s /\
  (mount s <> None -> st o = s /\ res o = Ok mount_status) /\
  (ascom_telescope s = None ->
   match ascom_telescope (st o) with
   | Some _ =>
       mount s = None /\ mount_initialized (st o) = true /\
       res o = Ok "OK (ASCOM)"%string
   | None =>
       res o = Ok (match mount s with
                   | None => if win32com env then "Failed"%string else mount_status
                   | Some _ => mount_status
                   end)
   end).
Proof.
  unfold ascom_phase, ascom_setup. unfold_method.
  destruct (mount s) eqn:Hm.
  { cbn. repeat split; auto. intros ->. reflexivity. }
  destruct (win32com env).
  2: { cbn. repeat split; auto; try congruence. intros ->. reflexivity. }
  step_recovery.
  repeat (case_method; unfold_method).
  all: cbn [res st tr app].
  all: split; [ reflexivity | split; [ congruence | intros _; cbn; auto ] ].
  all: match goal with
       | H : ascom_telescope _ = _ |- _ => cbn in H; discriminate H
       end.
Qed.

(** X8.  After [initialize_mount], whatever the ports and the driver answered:
    at most one back end is held; an automation telescope is held only
    initialised; "initialised" means that a back end is held; the axis
    controls are enabled exactly when the automation telescope is held (a
    serial connection leaves them disabled); and the status line, the last
    thing shown, names the back end in use or says "Failed". *)
Theorem initialize_mount_one_back_end (env : mount_env) (s : scanner) :
  let o := initialize_mount env s in
  let held := match ascom_telescope (st o) with Some _ => true | None => false end in
  (mount (st o) <> None -> ascom_telescope (st o) = None) /\
  (ascom_telescope (st o) <> None -> mount_initialized (st o) = true) /\
  (mount_initialized (st o) = true ->
   mount (st o) <> None \/ ascom_telescope (st o) <> None) /\
  exists before,
    tr o = before
           ++ [MountControls held;
               Status ("Status: Mount "
                       ++ (if held then "OK (ASCOM)"
                           else if mount_initialized (st o)
                                then "OK (Serial on " ++ serial_port_var (st o) ++ ")"
                                else "Failed"))].
Proof.
  unfold initialize_mount, update_mount_controls. unfold_method.
  destruct (cleanup_mount_facts s) as (Hc1 & Hc2 & Hc3 & Hc4 & Hc5).
  destruct (cleanup_mount s) as [ r1 s1 t1 ]. cbn [res st tr] in *. subst r1.
  destruct (comports env) as [ available_ports | e0 ]; cbv beta iota.
  2:{ (* the listing raised: the outer handler *)
      cbn [res st tr app mount ascom_telescope mount_initialized serial_port_var
           with_mount with_ascom_telescope with_mount_initialized andb].
      split; [ intros _; reflexivity | ].
      split; [ intros H; now contradiction H | ].
      split; [ intros H; discriminate H | ].
      eexists (_ :: _ :: _). cbn [app]. reflexivity. }
  destruct (serial_phase_facts env available_ports s1) as (Hs1 & Hs2 & Hs3 & Hs4).
  pose proof (serial_phase_status env available_ports s1) as Hs5.
  destruct (serial_phase env available_ports s1) as [ [ status | e ] s2 t2 ];
    [ | discriminate Hs1 ].
  cbn [res st tr] in *.
  destruct (ascom_phase_facts env (serial_port_var s1) status s2)
    as (Ha1 & Ha2 & Ha3 & Ha4).
  destruct (ascom_phase_outcome env (serial_port_var s1) status s2)
    as (Ha5 & Ha6 & Ha7).
  destruct (ascom_phase env (serial_port_var s1) status s2)
    as [ [ status' | e ] s3 t3 ]; [ | discriminate Ha1 ].
  cbn [res st tr app] in *.
  assert (Htel2 : ascom_telescope s2 = None) by congruence.
  specialize (Ha7 Htel2). specialize (Ha4 Htel2).
  injection Hs5 as Hs5.
  destruct (Hs4 Hc5) as [ Hpending | (Hmount & Hinit) ].
  - (* the serial phase ended not initialised *)
    unfold serial_pending in Hpending.
    destruct (ascom_telescope s3) eqn:Htel3.
    + destruct Ha7 as (Hm2 & Hinit3 & Hres). injection Hres as <-.
      rewrite Hinit3. cbn [andb].
      split; [ intros Hm3; congruence | ].
      split; [ intros _; reflexivity | ].
      split; [ intros _; right; discriminate | ].
      eexists (_ :: _ :: _). cbn [app]. rewrite !app_assoc. reflexivity.
    + specialize (Ha4 eq_refl). rewrite Ha4, Hpending. cbn [andb].
      split; [ intros _; reflexivity | ].
      split; [ intros H; now contradiction H | ].
      split; [ intros H; discriminate H | ].
      assert (Hst : status' = "Failed"%string).
      { rewrite Hpending in Hs5. subst status.
        injection Ha7 as ->. destruct (mount s2); [ | destruct (win32com env) ];
          reflexivity. }
      subst status'.
      eexists (_ :: _ :: _). cbn [app]. rewrite !app_assoc. reflexivity.
  - (* the serial phase connected *)
    destruct (Ha6 Hmount) as (-> & Hres). injection Hres as ->.
    rewrite Htel2, Hinit. cbn [andb]. rewrite Hinit in Hs5. subst status.
    split; [ intros _; reflexivity | ].
    split; [ intros H; now contradiction H | ].
    split; [ intros _; left; exact Hmount | ].
    eexists (_ :: _ :: _). cbn [app]. rewrite !app_assoc. reflexivity.
Qed.

Lemma initialize_mount_one_back_end_witness :
  ascom_telescope (st (initialize_mount ascom_only_env initial_state)) <> None /\
  mount_initialized (st (initialize_mount ascom_only_env initial_state)) = true.
Proof.
  assert (Ht : ascom_telescope (st (initialize_mount ascom_only_env initial_state))
               <> None) by (vm_compute; discriminate).
  split; [ exact Ht | ].
  exact (proj1 (proj2 (initialize_mount_one_back_end ascom_only_env initial_state))
           Ht).
Defined.

(** X9.  [initialize_mount] opens a serial port at most ten times for each port
    that the system lists, and only listed ports; every pause it makes is
    of 1 to 8 seconds. *)
Theorem initialize_mount_port_budget (env : mount_env) (s : scanner) :
  let o := initialize_mount env s in
  (count is_serial_open (tr o) <= 10 * List.length (listed_ports env))%nat /\
  Forall (init_event (listed_ports env)) (tr o).
Proof.
  unfold initialize_mount, update_mount_controls, listed_ports. unfold_method.
  rewrite cleanup_mount_run. cbv beta iota.
  match goal with
  | |- context [with_mount_initialized false ?z] => set (s1 := with_mount_initialized false z)
  end.
  destruct (comports env) as [ available_ports | e0 ]; cbv beta iota.
  2:{ (* the listing raised: nothing is opened *)
      cbn [res st tr app]. split.
      - count_events. cbn [is_serial_open].
        destruct (mount s); destruct (ascom_telescope s); cbn; lia.
      - all_events; simpl; auto;
          destruct (mount s); destruct (ascom_telescope s); all_events; simpl; auto. }
  destruct (serial_phase_facts env available_ports s1) as (Hs1 & _).
  destruct (serial_phase_budget env available_ports s1) as (Hb1 & Hb2).
  destruct (serial_phase env available_ports s1) as [ [ status | e ] s2 t2 ];
    [ | discriminate Hs1 ].
  cbn [res st tr] in *.
  destruct (ascom_phase_facts env (serial_port_var s1) status s2) as (Ha1 & _).
  destruct (ascom_phase_budget env available_ports (serial_port_var s1) status s2)
    as (Ha2 & Ha3).
  destruct (ascom_phase env (serial_port_var s1) status s2)
    as [ [ status' | e ] s3 t3 ]; [ | discriminate Ha1 ].
  cbn [res st tr app] in *.
  split.
  - count_events. rewrite Ha2. cbn [is_serial_open].
    destruct (mount s); destruct (ascom_telescope s); cbn; lia.
  - all_events; simpl; auto;
      destruct (mount s); destruct (ascom_telescope s); all_events; simpl; auto.
Qed.

Lemma cleanup_mount_again (s : scanner) :
  cleanup_mount (st (cleanup_mount s)) = mkOutcome (Ok tt) (st (cleanup_mount s)) [].
Proof.
  rewrite !cleanup_mount_run. cbn [res st tr].
  destruct (mount s) eqn:Hm; destruct (ascom_telescope s) eqn:Ht;
    cbn; rewrite ?Hm, ?Ht; destruct s; cbn in *; subst; reflexivity.
Qed.

(** X10.  [reinitialize_mount] never raises and leaves the application exactly as
    [initialize_mount] does from the same state and against the same ports
    and driver; it does the same things (the connections are closed before
    the first message instead of after it): its own [cleanup_mount] leaves
    nothing for the one inside [initialize_mount] to do. *)
Theorem reinitialize_mount_is_initialize (env : mount_env) (s : scanner) :
  let o := reinitialize_mount env s in
  let i := initialize_mount env s in
  res o = Ok tt /\
  res i = Ok tt /\
  st o = st i /\
  forall p, count p (tr o) = count p (tr i).
Proof.
  unfold reinitialize_mount.
  assert (Hinit : forall z,
             initialize_mount env z
             = match initialize_mount env (st (cleanup_mount z)) with
               | mkOutcome r z' (e1 :: e2 :: t) =>
                   mkOutcome r z' (e1 :: e2 :: tr (cleanup_mount z) ++ t)
               | o => o
               end /\
             exists t, initialize_mount env (st (cleanup_mount z))
                       = mkOutcome (Ok tt) (st (initialize_mount env z))
                           (Status "Status: Initializing Mount..."
                            :: InfoBox "Close all telescope apps. Verify mount on COM3 in Device Manager, then click OK."
                            :: t)).
  { intros z. unfold initialize_mount, update_mount_controls. unfold_method.
    rewrite cleanup_mount_again. cbv beta iota.
    destruct (cleanup_mount z) as [ r1 s1 t1 ] eqn:Hc.
    pose proof (cleanup_mount_run z) as Hrun. rewrite Hc in Hrun.
    injection Hrun as -> _ _. cbn [res st tr]. cbv beta iota.
    destruct (comports env) as [ available_ports | e0 ]; cbv beta iota.
    2:{ cbn [res st tr app]. rewrite app_nil_r.
        split; [ reflexivity | eexists; reflexivity ]. }
    destruct (serial_phase_facts env available_ports s1) as (Hs1 & _).
    destruct (serial_phase env available_ports s1) as [ [ status | e ] s2 t2 ];
      [ | discriminate Hs1 ].
    cbv beta iota.
    destruct (ascom_phase_facts env (serial_port_var s1) status s2) as (Ha1 & _).
    destruct (ascom_phase env (serial_port_var s1) status s2)
      as [ [ status' | e ] s3 t3 ]; [ | discriminate Ha1 ].
    cbn [res st tr app]. split; [ reflexivity | eexists; reflexivity ]. }
  unfold_method.
  destruct (Hinit s) as (Hi & t & Ht).
  destruct (cleanup_mount s) as [ r1 s1 t1 ] eqn:Hc.
  pose proof (cleanup_mount_run s) as Hrun. rewrite Hc in Hrun.
  injection Hrun as -> _ _. cbn [res st tr] in *. cbv beta iota.
  rewrite Hi, Ht. cbn [res st tr].
  repeat split.
  intros p. count_events. lia.
Qed.

(** ** Port recovery, again *)

Lemma reclaimed_by_app (port : string) (io : attempt_io) (u t : list event) :
  reclaimed_by port io t -> reclaimed_by port io (u ++ t).
Proof.
  intros [ (procs & proc & files & path & name & before & H1 & H2 & H3 & H4 & H5
            & H6 & H7 & ->)
         | (H1 & H2 & before & ->) ].
  - left. exists procs, proc, files, path, name, (u ++ before).
    rewrite app_assoc. repeat split; assumption.
  - right. repeat split; try assumption.
    exists (u ++ before). now rewrite app_assoc.
Qed.

Section ReturnLoop.

Context {X R : Type}.
Variable body : X -> M (flow R).

(** A loop that returns from the method does so from one of its turns. *)
Lemma for_each_return (P : list event -> R -> Prop) (xs : list X) :
  (forall u t r, P t r -> P (u ++ t) r) ->
  (forall x s r, In x xs -> res (body x s) = Ok (Return r) -> P (tr (body x s)) r) ->
  forall s r, res (for_each xs body s) = Ok (Return r) ->
              P (tr (for_each xs body s)) r.
Proof.
  intros Happ. induction xs as [ | x xs IH ]; intros Hbody s r;
    [ intros H; discriminate H | ].
  cbn [for_each]. rewrite bind_run.
  pose proof (Hbody x s) as Hx.
  destruct (res (body x s)) as [ f | e ]; cbn [res tr]; [ | discriminate ].
  destruct f; cbn [ret res tr].
  - intros H. apply Happ. apply IH; [ | exact H ].
    intros y z r' Hy. apply Hbody. now right.
  - discriminate.
  - intros H. injection H as <-. rewrite app_nil_r. apply Hx; [ now left | reflexivity ].
Qed.

(** A loop whose turns never break out is never broken out of. *)
Lemma for_each_no_break (xs : list X) :
  (forall x s, res (body x s) <> Ok Break) ->
  forall s, res (for_each xs body s) <> Ok Break.
Proof.
  intros Hbody. induction xs as [ | x xs IH ]; intros s;
    [ discriminate | ].
  cbn [for_each]. rewrite bind_run.
  specialize (Hbody x s).
  destruct (res (body x s)) as [ f | e ]; cbn [res]; [ | discriminate ].
  destruct f; cbn [ret res]; [ apply IH | congruence | discriminate ].
Qed.

(** A loop that ran out made every turn, and every turn fell through. *)
Lemma for_each_next_count (p : event -> bool) (k : nat) (xs : list X) :
  (forall x s, count p (tr (body x s)) = k) ->
  forall s, res (for_each xs body s) = Ok Next ->
            count p (tr (for_each xs body s)) = (k * List.length xs)%nat.
Proof.
  intros Hbody. induction xs as [ | x xs IH ]; intros s;
    [ intros _; cbn; lia | ].
  cbn [for_each List.length]. rewrite Nat.mul_succ_r, bind_run.
  specialize (Hbody x s).
  destruct (res (body x s)) as [ f | e ]; cbn [res tr]; [ | discriminate ].
  destruct f; cbn [ret res tr]; try discriminate.
  intros H. rewrite count_app, Hbody, (IH _ H). lia.
Qed.

Lemma for_each_next_all (xs : list X) :
  forall s, res (for_each xs body s) = Ok Next ->
            forall x, In x xs -> exists z, res (body x z) = Ok Next.
Proof.
  induction xs as [ | x xs IH ]; intros s H y Hy; [ destruct Hy | ].
  cbn [for_each] in H. rewrite bind_run in H.
  destruct (res (body x s)) as [ f | e ] eqn:Hx; cbn [res] in H;
    [ | discriminate H ].
  destruct f; cbn [ret res] in H; try discriminate H.
  destruct Hy as [ <- | Hy ]; [ eauto | ].
  exact (IH _ H y Hy).
Qed.

End ReturnLoop.

Lemma psutil_rung_return (port : string) (io : attempt_io) (s : scanner) (r : bool) :
  res (psutil_rung port io s) = Ok (Return r) ->
  reclaimed_by port io (tr (psutil_rung port io s)) /\ r = true.
Proof.
  unfold psutil_rung. unfold_method.
  destruct (ps_scan io) as [ procs | e ] eqn:Hscan; cbn [res st tr app];
    [ | discriminate ].
  match goal with
  | |- context [for_each procs ?b s] => set (body := b)
  end.
  pose proof (for_each_return body
                (fun t r => reclaimed_by port io t /\ r = true) procs
                (fun u t r0 H => conj (reclaimed_by_app port io u t (proj1 H))
                                      (proj2 H))) as Hloop.
  assert (Hbody : forall proc z r',
             In proc procs ->
             res (body proc z) = Ok (Return r') ->
             reclaimed_by port io (tr (body proc z)) /\ r' = true).
  { intros proc z r' Hproc. unfold body. unfold_method.
    destruct (pp_open_files proc) as [ files | e ] eqn:Hfiles;
      cbn [res st tr app].
    2:{ destruct e; cbn; discriminate. }
    match goal with
    | |- context [for_each files ?b z] => set (inner := b)
    end.
    pose proof (for_each_return inner
                  (fun t r => reclaimed_by port io t /\ r = true) files
                  (fun u t r0 H => conj (reclaimed_by_app port io u t (proj1 H))
                                        (proj2 H))) as Hin.
    assert (Hinner : forall path z' r'',
               In path files ->
               res (inner path z') = Ok (Return r'') ->
               reclaimed_by port io (tr (inner path z')) /\ r'' = true).
    { intros path z' r'' Hpath. unfold inner.
      destruct (contains (lower port) (lower path)) eqn:Hmatch;
        [ | cbn; discriminate ].
      unfold_method.
      destruct (pp_terminate proc) as [ [] | e ] eqn:Hterm; cbv beta iota;
        [ | cbn; discriminate ].
      destruct (pp_name proc) as [ name | e ] eqn:Hname; cbn [res st tr app];
        [ | discriminate ].
      intros H. injection H as <-. split; [ | reflexivity ].
      left. exists procs, proc, files, path, name, [].
      repeat split; assumption. }
    specialize (Hin Hinner z r').
    destruct (for_each files inner z) as [ [ f | e ] z' t ];
      cbn [res st tr app] in *;
      [ intros H; rewrite ?app_nil_r; auto
      | destruct e; cbn; discriminate ]. }
  specialize (Hloop Hbody s r).
  destruct (for_each procs body s) as [ [ f | e ] z t ];
    cbn [res st tr app] in *; [ | discriminate ].
  intros H. destruct (Hloop H) as (Hends & ->). split; [ | reflexivity ].
  rewrite ?app_nil_r.
  apply (reclaimed_by_app port io [PsutilScan]). exact Hends.
Qed.

Lemma devcon_rung_outcome (port : string) (io : attempt_io) (s : scanner) :
  (res (devcon_rung port io s) = Ok (Return true) /\
   devcon_exists io = true /\ devcon_run io = Ok 0 /\
   tr (devcon_rung port io s) = [DevconRestart port]) \/
  (res (devcon_rung port io s) = Ok Next /\
   ~ (devcon_exists io = true /\ devcon_run io = Ok 0) /\
   (tr (devcon_rung port io s) = [] \/
    tr (devcon_rung port io s) = [DevconRestart port])).
Proof.
  unfold devcon_rung.
  destruct (devcon_exists io).
  2:{ right. cbn. repeat split; auto. intros (H & _). discriminate H. }
  unfold_method.
  destruct (devcon_run io) as [ rc | e ]; cbn [res st tr app].
  - destruct (rc =? 0) eqn:Hrc; cbn [res st tr app].
    + apply Z.eqb_eq in Hrc. subst rc. left. repeat split.
    + apply Z.eqb_neq in Hrc. right. repeat split; auto.
      intros (_ & H). injection H as H. contradiction.
  - right. repeat split; auto. intros (_ & H). discriminate H.
Qed.

Lemma reset_attempt_answer (env : reset_env) (port : string) (attempt : Z)
  (s : scanner) :
  let o := reset_attempt env port attempt s in
  let io := attempt_io_at env attempt in
  res o <> Ok Break /\
  count is_psutil_scan (tr o) = 1%nat /\
  (forall r, res o = Ok (Return r) -> reclaimed_by port io (tr o) /\ r = true) /\
  (res o = Ok Next -> ~ (devcon_exists io = true /\ devcon_run io = Ok 0)).
Proof.
  unfold reset_attempt.
  set (io := attempt_io_at env attempt).
  assert (Hprefix : exists tw,
             (if wmi env then wmi_rung port io else ret tt) s
             = mkOutcome (Ok tt) s tw /\
             count is_psutil_scan tw = 0%nat).
  { destruct (wmi env).
    - destruct (wmi_rung_facts port io s) as (Hwr & Hws & tw & Hwt & Hwterm).
      destruct (termination_is_no_rung tw Hwterm) as (_ & Hw2 & _).
      destruct (wmi_rung port io s) as [ rw sw tw' ].
      cbn [res st tr] in *. subst rw sw tw'.
      exists (WmiScan :: tw). split; [ reflexivity | ].
      count_events. rewrite Hw2. reflexivity.
    - exists []. split; reflexivity. }
  destruct Hprefix as (tw & Hw & Hw2).
  destruct (psutil_rung_facts port io s) as (Hpr & Hps & tp & Hpt & Hterm).
  destruct (termination_is_no_rung tp Hterm) as (_ & Hp2 & _).
  pose proof (psutil_rung_return port io s) as Hpret.
  pose proof (devcon_rung_outcome port io s) as Hdev.
  cbv zeta. rewrite bind_run, Hw. cbn [res st tr]. unfold_method.
  destruct (psutil_rung port io s) as [ [ f | e ] sp tp' ];
    [ | discriminate Hpr ].
  cbn [res st tr] in Hps, Hpt, Hpret. subst sp tp'.
  assert (Hcp : count is_psutil_scan (PsutilScan :: tp) = 1%nat).
  { count_events. rewrite Hp2. reflexivity. }
  destruct f as [ | | b ]; cbv beta iota.
  3:{ (* psutil reclaimed the port *)
      cbn [res st tr app]. rewrite app_nil_r.
      split; [ discriminate | ].
      split; [ count_events; rewrite Hw2, Hp2; reflexivity | ].
      split; [ | intros H; discriminate H ].
      intros r H. injection H as <-.
      destruct (Hpret b eq_refl) as (Hends & ->).
      split; [ | reflexivity ].
      now apply reclaimed_by_app. }
  all: destruct (devcon_rung port io s) as [ rd sd td ];
    cbn [res st tr] in Hdev;
    destruct Hdev as [ (-> & Hex & Hrc & ->) | (-> & Hno & Hdt) ];
    cbv beta iota; cbn [res st tr app]; rewrite ?app_nil_r;
    (split; [ discriminate | ]).
  all: split;
    [ try (destruct Hdt as [ -> | -> ]); count_events;
      rewrite Hw2, Hp2; cbn [is_psutil_scan]; lia | ].
  all: split;
    [ intros r H;
      first [ discriminate H
            | injection H as <-; split; [ | reflexivity ];
              apply reclaimed_by_app;
              apply (reclaimed_by_app port io (PsutilScan :: tp));
              right; repeat split; try assumption; exists []; reflexivity ]
    | intros H; first [ discriminate H | exact Hno ] ].
Qed.

(** X11.  What the answer of [reset_com_port] means.  It answers true only
    when, in one of its three attempts, its last action reclaimed the
    port: psutil listed a process with an open file whose path names the
    port, it ended that process (and paused a second); or devcon is
    installed and its restart of the port came back with return code 0.
    Ending a process through WMI never makes the answer true.  It answers
    false only after three full attempts, in none of which devcon restarted
    the port with return code 0. *)
Theorem reset_com_port_answer (env : reset_env) (port : string) (s : scanner) :
  let o := reset_com_port env port s in
  (res o = Ok true ->
   exists attempt,
     In attempt (range 3) /\
     reclaimed_by port (attempt_io_at env attempt) (tr o)) /\
  (res o = Ok false ->
   count is_psutil_scan (tr o) = 3%nat /\
   forall attempt,
     In attempt (range 3) ->
     ~ (devcon_exists (attempt_io_at env attempt) = true /\
        devcon_run (attempt_io_at env attempt) = Ok 0)).
Proof.
  unfold reset_com_port. unfold_method.
  set (body := reset_attempt env port).
  pose proof (for_each_returns body (range 3)
                (fun x z => proj1 (reset_attempt_facts env port x z)) s) as Hok.
  pose proof (for_each_no_break body (range 3)
                (fun x z => proj1 (reset_attempt_answer env port x z)) s) as Hnb.
  pose proof (for_each_next_count body is_psutil_scan 1 (range 3)
                (fun x z => proj1 (proj2 (reset_attempt_answer env port x z))) s)
    as Hnext.
  pose proof (for_each_next_all body (range 3) s) as Hall.
  pose proof (for_each_return body
                (fun t r =>
                   (exists attempt,
                       In attempt (range 3) /\
                       reclaimed_by port (attempt_io_at env attempt) t) /\
                   r = true) (range 3)) as Hret.
  assert (Happ : forall u t (r : bool),
             (exists attempt,
                 In attempt (range 3) /\
                 reclaimed_by port (attempt_io_at env attempt) t) /\ r = true ->
             (exists attempt,
                 In attempt (range 3) /\
                 reclaimed_by port (attempt_io_at env attempt) (u ++ t)) /\ r = true).
  { intros u t r ((attempt & Hin & Hrec) & Hr). split; [ | exact Hr ].
    exists attempt. split; [ exact Hin | now apply reclaimed_by_app ]. }
  assert (Hturn : forall x z r,
             In x (range 3) ->
             res (body x z) = Ok (Return r) ->
             (exists attempt,
                 In attempt (range 3) /\
                 reclaimed_by port (attempt_io_at env attempt) (tr (body x z))) /\
             r = true).
  { intros x z r Hin H.
    destruct (proj1 (proj2 (proj2 (reset_attempt_answer env port x z))) r H)
      as (Hrec & Hr).
    split; [ exists x; split; assumption | exact Hr ]. }
  specialize (Hret Happ Hturn s).
  destruct (for_each (range 3) body s) as [ [ f | e ] z t ];
    [ | discriminate Hok ].
  cbn [res st tr] in *.
  destruct f as [ | | r ]; cbn [res st tr]; rewrite app_nil_r.
  - split; [ discriminate | intros _ ].
    split; [ now apply Hnext | ].
    intros attempt Hin.
    destruct (Hall eq_refl attempt Hin) as (z' & Hz').
    exact (proj2 (proj2 (proj2 (reset_attempt_answer env port attempt z'))) Hz').
  - now contradiction Hnb.
  - destruct (Hret r eq_refl) as (Hends & ->).
    split; [ intros _; exact Hends | discriminate ].
Qed.

Lemma reset_com_port_answer_witness :
  (exists attempt,
      In attempt (range 3) /\
      reclaimed_by "COM3" (attempt_io_at restarting_reset_env attempt)
        (tr (reset_com_port restarting_reset_env "COM3" initial_state))) /\
  count is_psutil_scan (tr (reset_com_port idle_reset_env "COM3" initial_state))
  = 3%nat.
Proof.
  split.
  - apply (reset_com_port_answer restarting_reset_env "COM3" initial_state).
    vm_compute. reflexivity.
  - apply (reset_com_port_answer idle_reset_env "COM3" initial_state).
    vm_compute. reflexivity.
Defined.

(** ** The recording loop, again *)

Section ExitLoop.

Context {X R : Type}.
Variable body : X -> M (flow R).

(** Events that a turn emits only when it leaves the loop are emitted at
    most as often as one turn emits them. *)
Lemma for_each_count_exit (p : event -> bool) (k : nat) (xs : list X) :
  (forall x s, (count p (tr (body x s)) <= k)%nat) ->
  (forall x s, res (body x s) = Ok Next -> count p (tr (body x s)) = 0%nat) ->
  forall s, (count p (tr (for_each xs body s)) <= k)%nat.
Proof.
  intros Hk Hnext. induction xs as [ | x xs IH ]; intros s;
    [ simpl; unfold count; simpl; lia | ].
  cbn [for_each]. rewrite bind_run.
  specialize (Hk x s). specialize (Hnext x s).
  destruct (res (body x s)) as [ f | e ]; cbn [tr]; [ | exact Hk ].
  destruct f; rewrite count_app.
  - rewrite Hnext by reflexivity. apply IH.
  - unfold count at 2. simpl. lia.
  - unfold count at 2. simpl. lia.
Qed.

End ExitLoop.

Lemma capture_image_budget (io : cycle_io) (s : scanner) :
  let o := capture_image io s in
  (count is_camera_read (tr o) <= 10)%nat /\
  (count is_image_write (tr o) <= 1)%nat /\
  count is_spectrum_write (tr o) = 0%nat /\
  Forall saves_in_band (tr o).
Proof.
  unfold capture_image. unfold_method.
  destruct (camera s); [ destruct (camera_opened io) as [ [ | ] | e ] | ];
    cbn [res st tr app]; try (cbn; repeat split; auto; lia).
  match goal with
  | |- context [for_each (range 10) ?b] => set (body := b)
  end.
  assert (Hbody : forall x z,
             (count is_camera_read (tr (body x z)) <= 1)%nat /\
             (count is_image_write (tr (body x z)) <= 1)%nat /\
             (res (body x z) = Ok Next -> count is_image_write (tr (body x z)) = 0%nat) /\
             count is_spectrum_write (tr (body x z)) = 0%nat /\
             Forall saves_in_band (tr (body x z))).
  { intros x z. unfold body. run_method; cbn; repeat split; auto; try lia;
      try discriminate; repeat constructor. }
  assert (Hloop : forall z,
             (count is_camera_read (tr (for_each (range 10) body z)) <= 10)%nat /\
             (count is_image_write (tr (for_each (range 10) body z)) <= 1)%nat /\
             count is_spectrum_write (tr (for_each (range 10) body z)) = 0%nat /\
             Forall saves_in_band (tr (for_each (range 10) body z))).
  { intros z.
    pose proof (for_each_count body is_camera_read 1 (range 10)
                  (fun x y => proj1 (Hbody x y)) z) as H1.
    rewrite length_range in H1. change (Z.to_nat 10) with 10%nat in H1.
    pose proof (for_each_count_exit body is_image_write 1 (range 10)
                  (fun x y => proj1 (proj2 (Hbody x y)))
                  (fun x y => proj1 (proj2 (proj2 (Hbody x y)))) z) as H2.
    pose proof (for_each_count body is_spectrum_write 0 (range 10)
                  (fun x y => Nat.eq_le_incl _ _
                     (proj1 (proj2 (proj2 (proj2 (Hbody x y)))))) z) as H3.
    pose proof (for_each_events body saves_in_band (range 10)
                  (fun x y _ => proj2 (proj2 (proj2 (proj2 (Hbody x y))))) z) as H4.
    repeat split; auto; lia. }
  destruct (use_camera_exposure s); unfold_method;
    try (progress destruct (set_exposure io) as [ [] | ? ]); cbv beta iota;
    try (destruct (py_sleep_run (cam_exposure_ms s / 1000) s)
           as [ -> | (? & ->) ]; cbv beta iota);
    try (destruct (Hloop s) as (H1 & H2 & H3 & H4);
         destruct (for_each (range 10) body s) as [ [ [ | | [] ] | ? ] z t ]);
    cbn [res st tr app] in *; rewrite ?app_nil_r;
    count_events; cbn [is_camera_read is_image_write is_spectrum_write];
    (repeat split; try lia);
    all_events; simpl; auto.
Qed.

Lemma clip_band_in_band (wl ints : list float) (rows : list (float * float)) :
  clip_band wl ints = Ok rows ->
  forallb in_band rows = true /\ (List.length rows <= List.length wl)%nat.
Proof.
  unfold clip_band.
  destruct (List.length ints =? List.length wl)%nat eqn:Hlen; [ | discriminate ].
  intros H. injection H as <-. split.
  - apply forallb_forall. intros row Hin. apply filter_In in Hin. apply Hin.
  - etransitivity; [ apply filter_length_le | ].
    rewrite length_combine. lia.
Qed.

Lemma capture_spectrum_budget (io : cycle_io) (s : scanner) :
  let o := capture_spectrum io s in
  count is_camera_read (tr o) = 0%nat /\
  count is_image_write (tr o) = 0%nat /\
  (count is_spectrum_write (tr o) <= 1)%nat /\
  Forall saves_in_band (tr o).
Proof.
  unfold capture_spectrum. run_method;
    cbn [res st tr app]; rewrite ?app_nil_r;
    count_events; cbn [is_camera_read is_image_write is_spectrum_write];
    (repeat split; try lia);
    all_events; simpl; auto;
    match goal with
    | H : clip_band _ _ = Ok _ |- _ => apply (clip_band_in_band _ _ _ H)
    end.
Qed.

Lemma capture_cycle_budget (io : cycle_io) (s : scanner) :
  let o := capture_cycle io s in
  (count is_camera_read (tr o) <= 10)%nat /\
  (count is_image_write (tr o) <= 1)%nat /\
  (count is_spectrum_write (tr o) <= 1)%nat /\
  Forall saves_in_band (tr o).
Proof.
  unfold capture_cycle, capture_sample. unfold_method.
  set (s1 := apply_writes (cycle_writes io) s).
  destruct (capture_running s1 && running s1); cbn [negb res st tr];
    [ | cbn; repeat split; auto; lia ].
  destruct (negb (camera_running s1) || negb (spectrograph_running s1));
    cbn [res st tr];
    [ cbn; repeat split; auto; try lia; repeat constructor | ].
  destruct (capture_image_facts io s1) as (ri & ti & Hi & _).
  pose proof (capture_image_budget io s1) as Hbi. cbv zeta in Hbi.
  rewrite Hi in *. cbn [res st tr] in Hbi. cbv beta iota.
  destruct Hbi as (Hi1 & Hi2 & Hi3 & Hi4).
  destruct ri as [ image_saved | e ]; cbv beta iota.
  2: { cbn [res st tr app]. rewrite ?app_nil_r. count_events.
       cbn [is_camera_read is_image_write is_spectrum_write].
       repeat split; try lia. all_events; simpl; auto. }
  destruct (capture_spectrum_facts io s1) as (spectrum_saved & ts & Hs & _).
  pose proof (capture_spectrum_budget io s1) as Hbs. cbv zeta in Hbs.
  rewrite Hs in *. cbn [res st tr] in Hbs. cbv beta iota.
  destruct Hbs as (Hs1 & Hs2 & Hs3 & Hs4).
  destruct (image_saved || spectrum_saved);
    cbn [res st tr app]; rewrite ?app_nil_r; count_events;
    cbn [is_camera_read is_image_write is_spectrum_write];
    (repeat split; try lia); all_events; simpl; auto.
Qed.

(** X12.  The recording loop, over any number of turns and whatever the devices
    answer: a turn reads the camera at most ten times and writes at most
    one image and one spectrum file, and every spectrum file holds rows of
    the 200 to 900 nm band only. *)
Theorem capture_and_save_budget (ios : list cycle_io) (s : scanner) :
  let o := capture_and_save ios s in
  is_ok (res o) = true /\
  (count is_camera_read (tr o) <= 10 * List.length ios)%nat /\
  (count is_image_write (tr o) <= 1 * List.length ios)%nat /\
  (count is_spectrum_write (tr o) <= 1 * List.length ios)%nat /\
  Forall saves_in_band (tr o).
Proof.
  unfold capture_and_save.
  split; [ apply for_each_returns; intros x z; apply capture_cycle_returns | ].
  split; [ apply for_each_count; intros x z; apply capture_cycle_budget | ].
  split; [ apply for_each_count; intros x z; apply capture_cycle_budget | ].
  split; [ apply for_each_count; intros x z; apply capture_cycle_budget | ].
  apply for_each_events. intros x z _. apply capture_cycle_budget.
Qed.

(** ** The other controls *)

(** X13.  [capture_dark] never raises.  It answers true exactly when it stored
    the reading as the new dark spectrum, which takes a spectrograph that is
    held and running and a reading that came back; when it answers false
    the application is as it was, the old dark spectrum included.  It reads
    the spectrometer at most once, and not at all without a running
    spectrograph. *)
Theorem capture_dark_answer (reading : result (list float)) (s : scanner) :
  let o := capture_dark reading s in
  (res o = Ok true \/ res o = Ok false) /\
  (res o = Ok true ->
   exists d, reading = Ok d /\ st o = with_dark_spectrum (Some d) s /\
             spectrograph s <> None /\ spectrograph_running s = true) /\
  (res o = Ok false -> st o = s) /\
  (count is_spectrometer_read (tr o) <= 1)%nat /\
  (spectrograph s = None \/ spectrograph_running s = false ->
   count is_spectrometer_read (tr o) = 0%nat).
Proof.
  unfold capture_dark.
  run_method; cbn [res st tr app]; repeat split; auto;
    try (intros H; discriminate H);
    try (intros [ H | H ]; congruence);
    try (cbn; lia).
  intros _. eexists. repeat split; try reflexivity; congruence.
Qed.

(** X14.  A dark spectrum ends the live plot.  Once [capture_dark] has stored a
    reading of two pixels or more, the next turn of [update_spectrum] with
    the spectrograph still running reads the spectrometer, fails on the
    truth value of the dark array, plots nothing, leaves the loop and stops
    the spectrograph. *)
Theorem capture_dark_ends_live_plot (d wl ints : list float) (io : plot_io)
  (rest : list plot_io) (oio : spectro_open_io) (s : scanner) :
  spectrograph s <> None ->
  spectrograph_running s = true ->
  running s = true ->
  (2 <= List.length d)%nat ->
  plot_writes io = [] ->
  plot_wavelengths io = Ok wl ->
  plot_intensities io = Ok ints ->
  let dark := capture_dark (Ok d) s in
  res dark = Ok true /\
  dark_spectrum (st dark) = Some d /\
  let o := update_spectrum (io :: rest) oio (st dark) in
  res o = Ok tt /\
  tr o = [SpecWavelengths; SpecIntensities; SpecClose;
          Status "Status: Spectrograph Stopped"] /\
  spectrograph_running (st o) = false /\
  spectrograph (st o) = None.
Proof.
  intros Hspec Hrun Hr Hd Hw Hwl Hints.
  destruct (spectrograph s) as [ sp | ] eqn:Hs; [ clear Hspec | now contradiction Hspec ].
  destruct d as [ | x [ | y d ] ]; cbn [List.length] in Hd; try lia.
  assert (Hdark : capture_dark (Ok (x :: y :: d)) s
                  = mkOutcome (Ok true) (with_dark_spectrum (Some (x :: y :: d)) s)
                      [InfoBox "Please cover the spectrograph sensor and click OK to capture dark spectrum.";
                       SpecIntensities;
                       Status "Status: Dark spectrum captured";
                       InfoBox "Dark spectrum captured successfully"]).
  { unfold capture_dark. unfold_method. rewrite Hs, Hrun. reflexivity. }
  cbv zeta. rewrite Hdark. cbn [res st tr].
  split; [ reflexivity | ]. split; [ reflexivity | ].
  set (s1 := with_dark_spectrum (Some (x :: y :: d)) s).
  assert (Hcycle : update_spectrum_cycle io s1
                   = mkOutcome (Ok Break) s1 [SpecWavelengths; SpecIntensities]).
  { unfold update_spectrum_cycle. unfold_method. rewrite Hw, Hwl, Hints.
    cbn [apply_writes fold_left].
    change (spectrograph_running s1) with (spectrograph_running s).
    change (running s1) with (running s).
    rewrite Hrun, Hr. cbn [negb andb]. cbv beta iota.
    change (spectrograph s1) with (spectrograph s). rewrite Hs.
    reflexivity. }
  unfold update_spectrum. cbn [for_each]. unfold_method. rewrite Hcycle.
  cbv beta iota.
  change (spectrograph_running s1) with (spectrograph_running s). rewrite Hrun.
  unfold toggle_spectrograph. unfold_method.
  change (spectrograph_running s1) with (spectrograph_running s). rewrite Hrun.
  cbn [spectrograph with_spectrograph_running]. 
  change (spectrograph s1) with (spectrograph s). rewrite Hs.
  repeat split.
Qed.

Lemma capture_dark_ends_live_plot_witness :
  tr (update_spectrum [calm_plot_io] calm_open_io
        (st (capture_dark (Ok [1; 2]%float) sensing_state)))
  = [SpecWavelengths; SpecIntensities; SpecClose;
     Status "Status: Spectrograph Stopped"].
Proof.
  refine (proj1 (proj2 (proj2 (proj2
            (capture_dark_ends_live_plot [1; 2]%float [300; 500]%float [3; 4]%float
               calm_plot_io [] calm_open_io sensing_state _ eq_refl eq_refl _
               eq_refl eq_refl eq_refl))))).
  - discriminate.
  - simpl. lia.
Defined.

(** A float that [int] converts is finite. *)
Lemma py_int_finite (x : float) (n : Z) :
  py_int (x * 1000)%float = Ok n ->
  (x <=? 0)%float = false ->
  exists m e, Prim2SF x = S754_finite false m e.
Proof.
  unfold py_int. rewrite mul_spec, leb_spec.
  destruct (Prim2SF x) as [ sg | sg | | sg m e ] eqn:Hx.
  - destruct sg; cbn; discriminate.
  - destruct sg; cbn; discriminate.
  - cbn. discriminate.
  - destruct sg; [ cbn; discriminate | ]. eauto.
Qed.

(** X15.  [set_spectrograph_integration] never raises, and it changes nothing but
    the integration time, which it sets only to a finite positive number
    that the spectrometer accepted: a text that is no number, a zero, a
    negative number, a NaN or an infinity leaves the application as it was,
    and so does a refusal by the device. *)
Theorem set_spectrograph_integration_stores_valid (entry : result float)
  (accepted : Z -> result unit) (s : scanner) :
  let o := set_spectrograph_integration entry accepted s in
  res o = Ok tt /\
  (st o = s \/
   exists x m e micros,
     entry = Ok x /\
     Prim2SF x = S754_finite false m e /\
     py_int (x * 1000)%float = Ok micros /\
     accepted micros = Ok tt /\
     spectrograph s <> None /\
     st o = with_spec_integration_ms x s).
Proof.
  unfold set_spectrograph_integration.
  run_method; cbn [res st tr]; split; try reflexivity; auto.
  right.
  match goal with
  | Hint : py_int _ = Ok ?n, Hpos : (_ <=? 0)%float = false |- _ =>
      destruct (py_int_finite _ _ Hint Hpos) as (m & e & Hx)
  end.
  do 4 eexists. repeat split; eauto. congruence.
Qed.

(** X16.  [set_camera_exposure] never raises and changes nothing but the
    exposure time.  Unlike the integration time, the exposure is stored
    before the camera is asked: a number that passes the sign test is kept
    also when the camera then refuses it.  Without a camera, or with the
    exposure option switched off, nothing is stored and the camera is not
    asked. *)
Theorem set_camera_exposure_stores_first (entry : result float)
  (set : result unit) (s : scanner) :
  let o := set_camera_exposure entry set s in
  res o = Ok tt /\
  (camera s = None \/ use_camera_exposure s = false ->
   st o = s /\ count is_exposure_set (tr o) = 0%nat) /\
  (forall x,
      camera s <> None -> use_camera_exposure s = true ->
      entry = Ok x -> (x <=? 0)%float = false ->
      st o = with_cam_exposure_ms x s /\
      count is_exposure_set (tr o) = 1%nat /\
      exists last, tr o = [CameraSetExposure (x / 1000)%float; last]) /\
  (forall x,
      entry = Ok x -> (x <=? 0)%float = true ->
      st o = s /\ count is_exposure_set (tr o) = 0%nat).
Proof.
  unfold set_camera_exposure. unfold_method.
  destruct (camera s) as [ v | ] eqn:Hcam.
  2: { cbn [res st tr]. split; [ reflexivity | ].
       split; [ intros _; split; reflexivity | ].
       split; [ intros x H; now contradiction H | ].
       intros x _ _. split; reflexivity. }
  destruct (use_camera_exposure s) eqn:Huse; cbn [negb res st tr].
  2: { split; [ reflexivity | ].
       split; [ intros _; split; reflexivity | ].
       split; [ intros x _ H; discriminate H | ].
       intros x _ _. split; reflexivity. }
  destruct entry as [ x0 | e ]; cbv beta iota.
  2: { destruct e; cbn [res st tr app]; (split; [ reflexivity | ]);
         (split; [ intros [ H | H ]; discriminate H | ]);
         (split; intros x; intros; discriminate). }
  destruct (x0 <=? 0)%float eqn:Hpos; cbv beta iota.
  { cbn [res st tr app]. split; [ reflexivity | ].
    split; [ intros [ H | H ]; discriminate H | ].
    split; [ intros x _ _ Hx Hx0; congruence | ].
    intros x _ _. split; reflexivity. }
  destruct set as [ [] | e ]; [ | destruct e ]; cbn [res st tr app];
    (split; [ reflexivity | ]);
    (split; [ intros [ H | H ]; discriminate H | ]);
    (split; [ intros x _ _ Hx _; injection Hx as <-;
              split; [ reflexivity | split; [ reflexivity | eexists; reflexivity ] ]
            | intros x Hx Hx0; congruence ]).
Qed.

Lemma set_camera_exposure_stores_first_witness :
  cam_exposure_ms (st (set_camera_exposure (Ok 50%float) (Raise OtherError)
                         sensing_state)) = 50%float.
Proof.
  pose proof (set_camera_exposure_stores_first (Ok 50%float) (Raise OtherError)
                sensing_state) as H.
  cbv zeta in H. destruct H as (_ & _ & H & _).
  destruct (H 50%float) as (Hst & _);
    [ discriminate | reflexivity | reflexivity | reflexivity | ].
  rewrite Hst. reflexivity.
Defined.

(** X17.  [cleanup] never raises and always clears the five activity flags.  When
    the camera is released (or there is none) it also closes the
    spectrometer and the mount; when releasing the camera fails it stops
    there: the camera, the spectrometer and the mount stay as they were. *)
Theorem cleanup_clears_flags (released : result unit) (s : scanner) :
  let o := cleanup released s in
  res o = Ok tt /\
  (running (st o) = false /\ recording (st o) = false /\
   capture_running (st o) = false /\ spectrograph_running (st o) = false /\
   camera_running (st o) = false) /\
  (camera s = None \/ released = Ok tt ->
   camera (st o) = None /\ spectrograph (st o) = None /\ mount (st o) = None /\
   ascom_telescope (st o) = None /\ mount_initialized (st o) = false) /\
  (forall e, camera s <> None -> released = Raise e ->
   camera (st o) = camera s /\ spectrograph (st o) = spectrograph s /\
   mount (st o) = mount s /\ ascom_telescope (st o) = ascom_telescope s /\
   mount_initialized (st o) = mount_initialized s /\
   tr o = [ErrorBox "Application cleanup failed"]).
Proof.
  unfold cleanup. unfold_method.
  destruct (camera s) as [ v | ] eqn:Hcam;
    cbn [camera with_running with_recording with_capture_running
         with_spectrograph_running with_camera_running];
    rewrite Hcam; cbv beta iota.
  - destruct released as [ [] | e ]; cbv beta iota.
    + cbn [spectrograph with_camera with_running with_recording
           with_capture_running with_spectrograph_running with_camera_running].
      destruct (spectrograph s) eqn:Hspec; cbv beta iota;
        rewrite cleanup_mount_run; cbn [res st tr];
        (split; [ reflexivity | ]);
        (split; [ cbn; repeat split;
                    destruct (mount s), (ascom_telescope s); reflexivity | ]);
        (split; [ intros _; cbn;
                    destruct (mount s) eqn:Hm, (ascom_telescope s) eqn:Ht;
                    cbn; rewrite ?Hm, ?Ht, ?Hspec; repeat split; reflexivity
                | intros e _ H; discriminate H ]).
    + cbn [res st tr app]. split; [ reflexivity | ].
      split; [ repeat split | ].
      split; [ intros [ H | H ]; discriminate H | ].
      intros e' _ _. cbn. rewrite Hcam. repeat split.
  - cbn [spectrograph with_camera with_running with_recording
         with_capture_running with_spectrograph_running with_camera_running].
    destruct (spectrograph s) eqn:Hspec; cbv beta iota;
      rewrite cleanup_mount_run; cbn [res st tr];
      (split; [ reflexivity | ]);
      (split; [ cbn; repeat split;
                  destruct (mount s), (ascom_telescope s); reflexivity | ]);
      (split; [ intros _; cbn;
                  destruct (mount s) eqn:Hm, (ascom_telescope s) eqn:Ht;
                  cbn; rewrite ?Hm, ?Ht, ?Hcam, ?Hspec; repeat split; reflexivity
              | intros e H; now contradiction H ]).
Qed.

(** X18.  [toggle_record] from a session that is not recording: it never raises,
    it turns recording on exactly when both sensors are running (also when
    the recording thread then fails to start), it keeps [recording] and
    [capture_running] equal, and a second call brings the application back
    to where it was. *)
Theorem toggle_record_round_trip (started again : result unit) (s : scanner) :
  recording s = false ->
  capture_running s = false ->
  let o := toggle_record started s in
  res o = Ok tt /\
  recording (st o) = camera_running s && spectrograph_running s /\
  capture_running (st o) = recording (st o) /\
  res (toggle_record again (st o)) = Ok tt /\
  st (toggle_record again (st o)) = s.
Proof.
  intros Hrec Hcap. unfold toggle_record. unfold_method. rewrite Hrec.
  destruct (camera_running s) eqn:Hc, (spectrograph_running s) eqn:Hs;
    cbn [negb orb andb res st tr];
    try (rewrite Hrec, Hcap, ?Hc, ?Hs; cbn [negb orb andb res st tr];
         repeat split; reflexivity).
  destruct started as [ [] | e ]; cbn [res st tr recording with_recording
                                       with_capture_running capture_running];
    (split; [ reflexivity | ]); (split; [ reflexivity | ]);
    (split; [ reflexivity | ]); (split; [ reflexivity | ]);
    destruct s; cbn in *; subst; reflexivity.
Qed.

Lemma toggle_record_round_trip_witness :
  recording (st (toggle_record (Ok tt) sensing_state)) = true /\
  st (toggle_record (Ok tt) (st (toggle_record (Ok tt) sensing_state)))
  = sensing_state.
Proof.
  pose proof (toggle_record_round_trip (Ok tt) (Ok tt) sensing_state
                eq_refl eq_refl) as H.
  cbv zeta in H. destruct H as (_ & H1 & _ & _ & H2).
  split; [ rewrite H1; reflexivity | exact H2 ].
Defined.

(** X19.  Stopping a sensor stops the recording.  After [toggle_camera] or
    [toggle_spectrograph] on a running sensor (also when releasing the
    camera fails), the next turn of the recording loop reads no sensor,
    clears [recording] and [capture_running], shows "Recording Stopped" and
    leaves the loop. *)
Theorem stopped_sensor_halts_recording (cio : camera_io) (oio : spectro_open_io)
  (io : cycle_io) (s : scanner) :
  capture_running s = true ->
  running s = true ->
  cycle_writes io = [] ->
  (camera_running s = true ->
   let s1 := st (toggle_camera cio s) in
   camera_running s1 = false /\
   capture_cycle io s1
   = mkOutcome (Ok Break) (with_recording false (with_capture_running false s1))
       [Status "Status: Recording Stopped"]) /\
  (spectrograph_running s = true ->
   let s1 := st (toggle_spectrograph oio s) in
   spectrograph_running s1 = false /\
   capture_cycle io s1
   = mkOutcome (Ok Break) (with_recording false (with_capture_running false s1))
       [Status "Status: Recording Stopped"]).
Proof.
  intros Hcap Hrun Hw.
  assert (Hcycle : forall z,
             capture_running z = true -> running z = true ->
             camera_running z = false \/ spectrograph_running z = false ->
             capture_cycle io z
             = mkOutcome (Ok Break) (with_recording false (with_capture_running false z))
                 [Status "Status: Recording Stopped"]).
  { intros z H1 H2 H3. unfold capture_cycle. unfold_method. rewrite Hw.
    cbn [apply_writes fold_left]. rewrite H1, H2. cbn [andb negb].
    destruct H3 as [ -> | -> ]; cbn [negb orb];
      rewrite ?orb_true_r; reflexivity. }
  split.
  - intros Hcam. cbv zeta.
    assert (Hs1 : camera_running (st (toggle_camera cio s)) = false /\
                  capture_running (st (toggle_camera cio s)) = true /\
                  running (st (toggle_camera cio s)) = true).
    { unfold toggle_camera. unfold_method. rewrite Hcam.
      cbn [camera with_camera_running].
      destruct (camera s); [ destruct (release cio) as [ [] | e ] | ];
        cbn; auto. }
    destruct Hs1 as (H1 & H2 & H3).
    split; [ exact H1 | apply Hcycle; auto ].
  - intros Hspec. cbv zeta.
    assert (Hs1 : spectrograph_running (st (toggle_spectrograph oio s)) = false /\
                  capture_running (st (toggle_spectrograph oio s)) = true /\
                  running (st (toggle_spectrograph oio s)) = true).
    { unfold toggle_spectrograph. unfold_method. rewrite Hspec.
      cbn [spectrograph with_spectrograph_running].
      destruct (spectrograph s); cbn; auto. }
    destruct Hs1 as (H1 & H2 & H3).
    split; [ exact H1 | apply Hcycle; auto ].
Qed.

Lemma stopped_sensor_halts_recording_witness :
  recording recording_state = true /\
  recording (st (capture_cycle calm_cycle_io
                   (st (toggle_spectrograph calm_open_io recording_state))))
  = false.
Proof.
  split; [ reflexivity | ].
  pose proof (stopped_sensor_halts_recording
                calm_camera_io calm_open_io calm_cycle_io recording_state
                eq_refl eq_refl eq_refl) as H.
  destruct H as (_ & H). destruct (H eq_refl) as (_ & Hc).
  rewrite Hc. reflexivity.
Defined.

(** X20.  The loops of the live views never raise, and the live spectrum never
    ends with the spectrograph marked running: when its loop is left, by
    the flags or by an error, [update_spectrum] stops the spectrograph if
    it still runs; [update_camera_feed] does the same for the camera. *)
Theorem live_views_end_stopped (s : scanner) :
  (forall (ios : list plot_io) (oio : spectro_open_io),
      let loop := for_each ios update_spectrum_cycle s in
      let o := update_spectrum ios oio s in
      (res loop = Ok Next \/ res loop = Ok Break) /\
      res o = Ok tt /\
      (res loop = Ok Break ->
       spectrograph_running (st o) = false /\
       (spectrograph_running (st loop) = true -> spectrograph (st o) = None))) /\
  (forall (ios : list feed_io) (cio : camera_io),
      let loop := for_each ios update_camera_feed_cycle s in
      let o := update_camera_feed ios cio s in
      (res loop = Ok Next \/ res loop = Ok Break) /\
      (res loop = Ok Break -> camera_running (st o) = false)).
Proof.
  assert (Hflow : forall {X} (body : X -> M (flow unit)) (xs : list X),
             (forall x z, res (body x z) = Ok Next \/ res (body x z) = Ok Break) ->
             forall z, res (for_each xs body z) = Ok Next \/
                       res (for_each xs body z) = Ok Break).
  { intros X body xs Hbody. induction xs as [ | x xs IH ]; intros z;
      [ now left | ].
    cbn [for_each]. rewrite bind_run.
    destruct (Hbody x z) as [ -> | -> ]; cbn [res]; auto. }
  split.
  - intros ios oio loop o.
    assert (Hloop : res loop = Ok Next \/ res loop = Ok Break).
    { apply Hflow. intros x z. unfold update_spectrum_cycle.
      run_method; cbn; auto. }
    subst o. unfold update_spectrum. unfold_method. fold loop.
    destruct loop as [ r z t ]. cbn [res st] in *.
    destruct Hloop as [ -> | -> ]; cbn [res st tr];
      (split; [ auto | ]).
    + split; [ reflexivity | intros H; discriminate H ].
    + unfold toggle_spectrograph. unfold_method.
      destruct (spectrograph_running z) eqn:Hr; cbv beta iota;
        rewrite ?Hr; cbv beta iota;
        cbn [spectrograph with_spectrograph_running];
        try destruct (spectrograph z) eqn:Hsp; cbn [res st tr];
        (split; [ reflexivity | intros _; split; [ auto | ] ]);
        intros H; try discriminate H; cbn; rewrite ?Hsp; reflexivity.
  - intros ios cio loop o.
    assert (Hloop : res loop = Ok Next \/ res loop = Ok Break).
    { apply Hflow. intros x z. unfold update_camera_feed_cycle.
      run_method; cbn; auto. }
    subst o. unfold update_camera_feed. unfold_method. fold loop.
    destruct loop as [ r z t ]. cbn [res st] in *.
    split; [ exact Hloop | ].
    intros ->. unfold toggle_camera. unfold_method.
    destruct (camera_running z) eqn:Hr; cbv beta iota;
      rewrite ?Hr; cbv beta iota; [ | exact Hr ].
    cbn [camera with_camera_running].
    destruct (camera z); [ destruct (release cio) as [ [] | e ] | ];
      reflexivity.
Qed.

(** ** A failed plan, and the sensor switches *)

(** X21.  When the step planner raises (a step of zero, or an angle or a
    quotient that is a NaN or infinite), [track_moon] on an initialised
    mount shows "Scan failed", sends nothing to the mount and returns
    normally, and the session is left marked as scanning: the flag was set
    before the planner ran and nothing clears it. *)
Theorem track_moon_failed_plan_stays_scanning (env : scan_env) (s : scanner)
  (e : exn) :
  mount_initialized s = true ->
  num_steps (scan_angle s) (scan_step s) = Raise e ->
  let o := track_moon env s in
  res o = Ok tt /\
  tr o = [ErrorBox "Scan failed"] /\
  st o = with_motor_speed calculate_motor_speed (with_scanning true s) /\
  scanning (st o) = true.
Proof.
  intros Hinit Hn. unfold track_moon. unfold_method. rewrite Hinit.
  cbn [negb scan_angle scan_step with_motor_speed with_scanning].
  rewrite Hn. repeat split.
Qed.

Lemma track_moon_failed_plan_stays_scanning_witness :
  scanning (st (track_moon calm_scan_env
                  (st (set_scan_angle (Ok nan) ascom_state)))) = true.
Proof.
  refine (proj2 (proj2 (proj2
            (track_moon_failed_plan_stays_scanning calm_scan_env
               (st (set_scan_angle (Ok nan) ascom_state)) ValueError
               eq_refl _)))).
  vm_compute. reflexivity.
Defined.

(** X22.  The sensor switches keep "held implies running".  After
    [toggle_spectrograph], which never raises, a spectrometer is held only
    if the spectrograph is marked running, and switching off a running one
    always closes it.  After [toggle_camera] returns normally, a camera is
    held only if it is marked running; switching off a running camera
    clears the flag even when releasing the camera raises. *)
Theorem switches_hold_only_running_sensors (s : scanner) :
  (forall io : spectro_open_io,
      let o := toggle_spectrograph io s in
      res o = Ok tt /\
      (spectrograph (st o) <> None -> spectrograph_running (st o) = true) /\
      (spectrograph_running s = true ->
       spectrograph_running (st o) = false /\ spectrograph (st o) = None)) /\
  (forall io : camera_io,
      let o := toggle_camera io s in
      (res o = Ok tt -> camera (st o) <> None -> camera_running (st o) = true) /\
      (camera_running s = true -> camera_running (st o) = false)).
Proof.
  split.
  - intros io. unfold toggle_spectrograph. unfold_method.
    destruct (spectrograph_running s) eqn:Hr; cbv beta iota.
    + cbn [spectrograph with_spectrograph_running].
      destruct (spectrograph s) eqn:Hs; cbn [res st tr];
        (split; [ reflexivity | ]);
        (split; [ cbn; rewrite ?Hs; intros H; now contradiction H | ]);
        intros _; cbn; rewrite ?Hs; split; reflexivity.
    + destruct (spec_open io) as [ [] | e ]; cbv beta iota;
        [ destruct (spec_thread io) as [ [] | e ] | ]; cbn [res st tr];
        (split; [ reflexivity | ]);
        (split; [ cbn; intros H; try reflexivity; now contradiction H
                | intros H; discriminate H ]).
  - intros io. unfold toggle_camera. unfold_method.
    destruct (camera_running s) eqn:Hr; cbv beta iota.
    + cbn [camera with_camera_running].
      destruct (camera s) eqn:Hc; [ destruct (release io) as [ [] | e ] | ];
        cbn [res st tr];
        (split; [ | intros _; reflexivity ]);
        intros H; try discriminate H; cbn; rewrite ?Hc;
        intros H'; now contradiction H'.
    + split; [ | intros H; discriminate H ].
      destruct (camera_index io) as [ index | e ]; cbv beta iota.
      2:{ destruct (camera s) eqn:Hc; [ destruct (release io) as [ [] | e' ] | ];
            cbn [res st tr]; intros H; try discriminate H; cbn; rewrite ?Hc;
            intros H'; now contradiction H'. }
      destruct (video_open io) as [ [] | e ]; cbv beta iota.
      2:{ destruct (camera s) eqn:Hc; [ destruct (release io) as [ [] | e' ] | ];
            cbn [res st tr]; intros H; try discriminate H; cbn; rewrite ?Hc;
            intros H'; now contradiction H'. }
      cbn [camera with_camera].
      destruct (video_opened io) as [ [ | ] | e ]; cbn [negb]; cbv beta iota;
        try (destruct (video_setup io) as [ [] | e ]; cbv beta iota;
             [ destruct (feed_thread io) as [ [] | e ] | ]);
        cbn [camera with_camera with_camera_running res st tr];
        try (destruct (release io) as [ [] | e' ]);
        cbn [res st tr]; intros H; try discriminate H; cbn;
        intros H'; try reflexivity; now contradiction H'.
Qed.
